(** * Quota engine, payment reconciler and history truncation

    A shallow embedding of the billing core of the Telegram chat bot:
    [app/services/billing_service.py], [app/services/payment_service.py],
    the truncation helpers of [app/services/openai_service.py] and the two
    routes that sit directly on top of them.

    The relational store is a record of tables.  A SQLAlchemy session is a
    pair of a committed database and the working view of the open
    transaction; [commit] publishes the working view, [rollback] discards
    it.  Every operation runs in a small state-and-exception monad over the
    session, takes the value of [datetime.utcnow()] as an argument, and
    records what it hands to the logger.  The reconciler sends two of its
    look-ups as text; the database that reads that text is a parameter of
    the reconciler.  Strings whose length is measured are lists of code
    points. *)

From Stdlib Require Import ZArith Ascii String Lia.
From stdpp Require Import base option list gmap strings numbers pretty.

Local Open Scope Z_scope.

(** ** Time *)

(** A naive UTC [datetime] is a count of microseconds since
    1970-01-01T00:00:00; comparison of datetimes is comparison of counts. *)
Definition datetime := Z.

Definition us_per_day : Z := 86400000000.

(** [timedelta(days=d)] *)
Definition timedelta_days (d : Z) : Z := d * us_per_day.

(** [dt.date()], as a day number since 1970-01-01. *)
Definition date_of (dt : datetime) : Z := dt `div` us_per_day.

(** Day of the month (1..31) of a day number, proleptic Gregorian
    calendar. *)
Definition day_of_month (days : Z) : Z :=
  let z := days + 719468 in
  let doe := z `mod` 146097 in
  let yoe := (doe - doe `div` 1460 + doe `div` 36524 - doe `div` 146096) `div` 365 in
  let doy := doe - (365 * yoe + yoe `div` 4 - yoe `div` 100) in
  let mp := (5 * doy + 2) `div` 153 in
  doy - (153 * mp + 2) `div` 5 + 1.

(** [dt.replace(day=1, hour=0, minute=0, second=0, microsecond=0)] *)
Definition start_of_month (dt : datetime) : datetime :=
  (date_of dt - (day_of_month (date_of dt) - 1)) * us_per_day.

(** Truth value of a Python [int]. *)
Definition truthy_int (n : Z) : bool := negb (n =? 0).

(** Truth value of a Python [str]. *)
Definition truthy_str (s : string) : bool := negb (String.eqb s "").

(** ** Entities ([app/database/models.py])

    Only the columns read or written by the modelled services are kept;
    [banned] is kept because the administrative surface sets it. *)

Module User.
Record t := mk {
  trial_left : Z;
  plan_id : option Z;
  plan_until : option datetime;
  banned : bool
}.
Definition set_trial_left (v : Z) (u : t) : t :=
  mk v (plan_id u) (plan_until u) (banned u).
Definition set_plan (p : option Z) (until : option datetime) (u : t) : t :=
  mk (trial_left u) p until (banned u).
Definition set_banned (b : bool) (u : t) : t :=
  mk (trial_left u) (plan_id u) (plan_until u) b.
End User.

Module Plan.
Record t := mk {
  name : string;
  monthly_quota : Z
}.
End Plan.

(** Amounts are carried by the reconciler and never computed on. *)
Definition money := Z.

Module Payload.
Record t := mk {
  idempotency_key : option string;
  telegram_charge_id : option string;
  yoomoney_payment_id : option string;
  plan_name : option string
}.
End Payload.

Module Purchase.
Record t := mk {
  id : Z;
  user_id : Z;
  plan_id : Z;
  via : string;
  status : string;
  amount : money;
  currency : string;
  payload : Payload.t;
  completed_at : option datetime
}.
End Purchase.

Module Usage.
Record t := mk {
  user_id : Z;
  date : datetime;
  requests : Z;
  prompt_tokens : Z;
  completion_tokens : Z;
  total_tokens : Z
}.
End Usage.

(** ** The store and the session *)

(** [users] and [plans] are keyed by their primary key; [purchases] and
    [usage] are kept in insertion order. *)
Record DB := mkDB {
  users : gmap Z User.t;
  plans : gmap Z Plan.t;
  purchases : list Purchase.t;
  usage : list Usage.t
}.

Definition set_users (us : gmap Z User.t) (db : DB) : DB :=
  mkDB us (plans db) (purchases db) (usage db).
Definition set_purchases (ps : list Purchase.t) (db : DB) : DB :=
  mkDB (users db) (plans db) ps (usage db).
Definition set_usage (rows : list Usage.t) (db : DB) : DB :=
  mkDB (users db) (plans db) (purchases db) rows.

Inductive level := Info | Error.

(** [committed] is what other sessions see, [working] what this session
    sees, [commits] the databases published so far (newest first), [logs]
    the logger output (newest first). *)
Record state := mkState {
  committed : DB;
  working : DB;
  commits : list DB;
  logs : list (level * string)
}.

(** [MultipleResultsFound] is raised by [scalar_one_or_none], [DBAPIError]
    by the database when it refuses a statement. *)
Inductive exn := MultipleResultsFound | DBAPIError.

Inductive outcome (A : Type) :=
| Ok (a : A)
| Raise (e : exn).
Arguments Ok {A} a.
Arguments Raise {A} e.

Definition M (A : Type) : Type := state -> outcome A * state.

Definition ret {A} (a : A) : M A := fun s => (Ok a, s).

Definition bind {A B} (m : M A) (k : A -> M B) : M B :=
  fun s => match m s with
           | (Ok a, s') => k a s'
           | (Raise e, s') => (Raise e, s')
           end.

Definition raise {A} (e : exn) : M A := fun s => (Raise e, s).

Declare Scope session_scope.
Delimit Scope session_scope with session.
Notation "x <- c1 ;; c2" := (bind c1 (fun x => c2))
  (at level 100, c1 at next level, right associativity) : session_scope.
Notation "c1 ;; c2" := (bind c1 (fun _ => c2))
  (at level 100, right associativity) : session_scope.
Local Open Scope session_scope.

Definition get_working : M DB := fun s => (Ok (working s), s).

Definition put_working (db : DB) : M unit :=
  fun s => (Ok tt, mkState (committed s) db (commits s) (logs s)).

(** [await session.commit()] *)
Definition commit : M unit :=
  fun s => (Ok tt, mkState (working s) (working s) (working s :: commits s) (logs s)).

(** [await session.rollback()] *)
Definition rollback : M unit :=
  fun s => (Ok tt, mkState (committed s) (committed s) (commits s) (logs s)).

Definition log (lvl : level) (msg : string) : M unit :=
  fun s => (Ok tt, mkState (committed s) (working s) (commits s) ((lvl, msg) :: logs s)).

(** [result.scalar_one_or_none()] *)
Definition scalar_one_or_none {A} (rows : list A) : M (option A) :=
  match rows with
  | [] => ret None
  | [x] => ret (Some x)
  | _ :: _ :: _ => raise MultipleResultsFound
  end.

(** [select(User).where(User.id == user_id)] followed by
    [scalar_one_or_none()]: the primary key admits at most one row. *)
Definition select_user (user_id : Z) : M (option User.t) :=
  db <- get_working ;; ret (users db !! user_id).

(** Attribute assignment on a loaded [User] object. *)
Definition store_user (user_id : Z) (u : User.t) : M unit :=
  db <- get_working ;; put_working (set_users (<[user_id := u]> (users db)) db).

(** Rows of a table paired with their position, the identity under which a
    loaded row is later updated in place. *)
Fixpoint rows_from {A} (i : nat) (l : list A) : list (nat * A) :=
  match l with
  | [] => []
  | x :: l' => (i, x) :: rows_from (S i) l'
  end.

(** A request handler gets a session of its own over the committed
    database; what it has not committed when it ends is discarded. *)
Definition fresh (db : DB) : state := mkState db db [] [].

Definition run_request {A} (op : M A) (db : DB) : outcome A * DB :=
  let (r, s) := op (fresh db) in (r, committed s).


(** ** Quota engine ([app/services/billing_service.py]) *)

(** The dictionary returned by [get_user_quota]. *)
Module Quota.
Record t := mk {
  trial_left : Z;
  plan_name : option string;
  plan_until : option datetime;
  monthly_quota : Z;
  used_this_month : Z;
  remaining : Z;
  is_trial : bool;
  is_active : bool
}.
End Quota.

(** [user.plan_id and user.plan_until and user.plan_until > datetime.utcnow()] *)
Definition has_active_plan (user : User.t) (now : datetime) : bool :=
  match User.plan_id user, User.plan_until user with
  | Some p, Some until => truthy_int p && (now <? until)
  | _, _ => false
  end.

(** [func.sum(...)] over the selected rows: SQL's sum of no rows is NULL. *)
Definition sql_sum (l : list Z) : option Z :=
  match l with
  | [] => None
  | _ :: _ => Some (foldr Z.add 0 l)
  end.

(** [x or 0] *)
Definition or_zero (x : option Z) : Z :=
  match x with
  | Some v => if truthy_int v then v else 0
  | None => 0
  end.

(** [and_(Usage.user_id == user_id, Usage.date >= start_of_month)] *)
Definition used_since (user_id : Z) (start : datetime) (r : Usage.t) : Prop :=
  Usage.user_id r = user_id ∧ start ≤ Usage.date r.

(** [and_(Usage.user_id == user_id, func.date(Usage.date) == today)] *)
Definition used_on (user_id : Z) (today : Z) (r : Usage.t) : Prop :=
  Usage.user_id r = user_id ∧ date_of (Usage.date r) = today.

#[global] Instance used_since_dec user_id start r : Decision (used_since user_id start r).
Proof. unfold used_since. apply _. Defined.

#[global] Instance used_on_dec user_id today r : Decision (used_on user_id today r).
Proof. unfold used_on. apply _. Defined.

(** [usage.requests += 1; usage.total_tokens += tokens] *)
Definition bump (tokens : Z) (r : Usage.t) : Usage.t :=
  Usage.mk (Usage.user_id r) (Usage.date r) (Usage.requests r + 1)
    (Usage.prompt_tokens r) (Usage.completion_tokens r)
    (Usage.total_tokens r + tokens).

Section BillingService.

(** [self.trial_requests = settings.trial_requests] *)
Variable trial_requests : Z.

Definition get_user_quota (user_id : Z) (now : datetime) : M Quota.t :=
  user <- select_user user_id ;;
  match user with
  | None =>
      ret (Quota.mk trial_requests None None 0 0 trial_requests true true)
  | Some user =>
      db <- get_working ;;
      let plan := User.plan_id user ≫= (fun p => plans db !! p) in
      let is_active := has_active_plan user now in
      let plan_name := if is_active then Plan.name <$> plan else None in
      let monthly_quota :=
        if is_active then from_option Plan.monthly_quota 0 plan else 0 in
      let used_this_month :=
        or_zero (sql_sum (Usage.requests <$>
                   filter (used_since user_id (start_of_month now)) (usage db))) in
      let remaining :=
        if is_active then Z.max 0 (monthly_quota - used_this_month)
        else Z.max 0 (User.trial_left user) in
      ret (Quota.mk (User.trial_left user) plan_name (User.plan_until user)
             monthly_quota used_this_month remaining (negb is_active) is_active)
  end.

Definition can_make_request (user_id : Z) (now : datetime) : M bool :=
  quota <- get_user_quota user_id now ;;
  ret (0 <? Quota.remaining quota).

End BillingService.

Definition _log_usage (user_id tokens : Z) (now : datetime) : M unit :=
  let today := date_of now in
  db <- get_working ;;
  found <- scalar_one_or_none
             (filter (fun ir => used_on user_id today ir.2) (rows_from 0 (usage db))) ;;
  match found with
  | Some (i, row) =>
      put_working (set_usage (<[i := bump tokens row]> (usage db)) db)
  | None =>
      put_working (set_usage (usage db ++ [Usage.mk user_id now 1 0 0 tokens]) db)
  end ;;
  commit.

Definition consume_request (user_id tokens : Z) (now : datetime) : M bool :=
  user <- select_user user_id ;;
  match user with
  | None => ret false
  | Some user =>
      if has_active_plan user now then
        _log_usage user_id tokens now ;;
        ret true
      else if 0 <? User.trial_left user then
        store_user user_id (User.set_trial_left (User.trial_left user - 1) user) ;;
        _log_usage user_id tokens now ;;
        commit ;;
        ret true
      else ret false
  end.

Definition activate_plan (user_id plan_id duration_days : Z) (now : datetime) : M bool :=
  user <- select_user user_id ;;
  match user with
  | None => ret false
  | Some user =>
      store_user user_id
        (User.set_plan (Some plan_id) (Some (now + timedelta_days duration_days)) user) ;;
      commit ;;
      log Info "Plan activated" ;;
      ret true
  end.

(** ** Payment reconciler ([app/services/payment_service.py]) *)

(** The fields of the gateway's JSON body that the reconciler reads:
    [object.id], [object.status], [object.metadata.user_id],
    [object.metadata.plan_name] and [object.amount.value]; a field that is
    absent is [None]. *)
Module Webhook.
Record t := mk {
  object_id : option string;
  object_status : option string;
  metadata_user_id : option Z;
  metadata_plan_name : option string;
  amount_value : option money
}.
End Webhook.

Definition truthy_opt_int (o : option Z) : bool :=
  match o with
  | Some n => truthy_int n
  | None => false
  end.

Definition truthy_opt_str (o : option string) : bool :=
  match o with
  | Some s => truthy_str s
  | None => false
  end.

(** Primary keys come from a sequence that starts at 1. *)
Definition next_id (ids : list Z) : Z := 1 + foldr Z.max 0 ids.

(** The reconciler sends its look-ups as text, with the value pasted
    between apostrophes by an f-string. *)

Definition select_by_idempotency_key : string :=
  "SELECT id FROM purchases WHERE payload->>'idempotency_key' = '".

Definition select_by_yoomoney_payment_id : string :=
  "SELECT id FROM purchases WHERE payload->>'yoomoney_payment_id' = '".

Definition select_by_plan_name : string :=
  "SELECT id FROM plans WHERE name = '".

(** [f"SELECT id FROM purchases WHERE payload->>'idempotency_key' = '{idempotency_key}'"] *)
Definition idempotency_key_query (idempotency_key : string) : string :=
  select_by_idempotency_key +:+ idempotency_key +:+ "'".

(** [f"SELECT id FROM purchases WHERE payload->>'yoomoney_payment_id' = '{payment_id}'"] *)
Definition yoomoney_payment_id_query (payment_id : string) : string :=
  select_by_yoomoney_payment_id +:+ payment_id +:+ "'".

(** [f"SELECT id FROM plans WHERE name = '{plan_name}'"] *)
Definition plan_name_query (plan_name : string) : string :=
  select_by_plan_name +:+ plan_name +:+ "'".

(** The purchases whose [payload->>'idempotency_key'] is the string
    [key]. *)
Definition has_idempotency_key (key : string) (p : Purchase.t) : Prop :=
  Payload.idempotency_key (Purchase.payload p) = Some key.

(** The purchases whose [payload->>'yoomoney_payment_id'] is the string
    [payment_id]. *)
Definition has_yoomoney_payment_id (payment_id : string) (p : Purchase.t) : Prop :=
  Payload.yoomoney_payment_id (Purchase.payload p) = Some payment_id.

#[global] Instance has_idempotency_key_dec key p : Decision (has_idempotency_key key p).
Proof. unfold has_idempotency_key. apply _. Defined.

#[global] Instance has_yoomoney_payment_id_dec pid p : Decision (has_yoomoney_payment_id pid p).
Proof. unfold has_yoomoney_payment_id. apply _. Defined.

(** The ids of the plans whose [name] is the string [plan_name]. *)
Definition plan_ids_named (plan_name : string) (db : DB) : list Z :=
  (filter (fun kp => Plan.name kp.2 = plan_name) (map_to_list (plans db))).*1.

(** [session.add(purchase)]: the row is inserted in the open transaction
    and takes the next primary key. *)
Definition add_purchase (mk_row : Z -> Purchase.t) : M unit :=
  db <- get_working ;;
  put_working (set_purchases
    (purchases db ++ [mk_row (next_id (Purchase.id <$> purchases db))]) db).

(** [f"stars_{user_id}_{plan_name}_{telegram_charge_id}"] *)
Definition stars_key (user_id : Z) (plan_name telegram_charge_id : string) : string :=
  "stars_" +:+ pretty user_id +:+ "_" +:+ plan_name +:+ "_" +:+ telegram_charge_id.

Definition stars_purchase (user_id plan : Z) (plan_name telegram_charge_id : string)
    (amount : money) (now : datetime) (id : Z) : Purchase.t :=
  Purchase.mk id user_id plan "stars" "completed" amount "STARS"
    (Payload.mk (Some (stars_key user_id plan_name telegram_charge_id))
       (Some telegram_charge_id) None (Some plan_name))
    (Some now).

Section PaymentService.

(** [await session.execute(statement)] for a statement given as text: what
    the database answers on the tables the session sees, the selected ids
    or an exception.  How it reads the text is the database's business. *)
Variable execute_text : string -> DB -> outcome (list Z).

Definition execute (statement : string) : M (list Z) :=
  fun s => (execute_text statement (working s), s).

Definition process_stars_payment (user_id : Z) (plan_name telegram_charge_id : string)
    (amount : money) (now : datetime) : M bool :=
  let idempotency_key := stars_key user_id plan_name telegram_charge_id in
  existing_purchase <- execute (idempotency_key_query idempotency_key) ;;
  existing_purchase <- scalar_one_or_none existing_purchase ;;
  if truthy_opt_int existing_purchase then
    log Info "Stars payment already processed" ;;
    ret true
  else
    plan <- execute (plan_name_query plan_name) ;;
    plan <- scalar_one_or_none plan ;;
    if negb (truthy_opt_int plan) then
      log Error "Plan not found" ;;
      ret false
    else
      let plan := default 0 plan in
      add_purchase (stars_purchase user_id plan plan_name telegram_charge_id amount now) ;;
      success <- activate_plan user_id plan 30 now ;;
      if success then
        commit ;;
        log Info "Stars payment processed successfully" ;;
        ret true
      else
        rollback ;;
        log Error "Failed to activate plan after Stars payment" ;;
        ret false.

Definition yoomoney_purchase (user_id plan : Z) (plan_name payment_id : string)
    (amount : money) (now : datetime) (id : Z) : Purchase.t :=
  Purchase.mk id user_id plan "yoomoney" "completed" amount "RUB"
    (Payload.mk None None (Some payment_id) (Some plan_name))
    (Some now).

(** HTTP outcome of a route: a 200 answer with its [status] field, or the
    [HTTPException] it raises. *)
Inductive response :=
| Json200 (body : string)
| HTTPException (status_code : Z) (detail : string).

(** The HMAC-SHA256 check of the body against the shared secret, compared
    with [hmac.compare_digest]. *)
Variable _verify_yoomoney_signature : Webhook.t -> string -> bool.

Definition process_yoomoney_webhook (webhook_data : Webhook.t) (signature : string)
    (now : datetime) : M bool :=
  if negb (_verify_yoomoney_signature webhook_data signature) then
    log Error "Invalid YooKassa webhook signature" ;;
    ret false
  else
    let payment_id := Webhook.object_id webhook_data in
    let status := Webhook.object_status webhook_data in
    if negb (truthy_opt_str payment_id) || negb (bool_decide (status = Some "succeeded")) then
      log Info "YooKassa payment not succeeded" ;;
      ret false
    else
      let payment_id := default "" payment_id in
      let user_id := Webhook.metadata_user_id webhook_data in
      let plan_name := Webhook.metadata_plan_name webhook_data in
      if negb (truthy_opt_int user_id) || negb (truthy_opt_str plan_name) then
        log Error "Missing metadata in YooKassa payment" ;;
        ret false
      else
        let user_id := default 0 user_id in
        let plan_name := default "" plan_name in
        existing_purchase <- execute (yoomoney_payment_id_query payment_id) ;;
        existing_purchase <- scalar_one_or_none existing_purchase ;;
        if truthy_opt_int existing_purchase then
          log Info "YooKassa payment already processed" ;;
          ret true
        else
          plan <- execute (plan_name_query plan_name) ;;
          plan <- scalar_one_or_none plan ;;
          if negb (truthy_opt_int plan) then
            log Error "Plan not found" ;;
            ret false
          else
            let plan := default 0 plan in
            let amount := default 0 (Webhook.amount_value webhook_data) in
            add_purchase (yoomoney_purchase user_id plan plan_name payment_id amount now) ;;
            success <- activate_plan user_id plan 30 now ;;
            if success then
              commit ;;
              log Info "YooKassa payment processed successfully" ;;
              ret true
            else
              rollback ;;
              log Error "Failed to activate plan after YooKassa payment" ;;
              ret false.

(** [POST /yoomoney/webhook] ([app/api/routers/payments.py]); [body] is
    [None] when the request body is not JSON. *)
Definition yoomoney_webhook (signature : option string) (body : option Webhook.t)
    (now : datetime) : M response :=
  if negb (truthy_opt_str signature) then
    log Error "Missing YooKassa signature" ;;
    ret (HTTPException 400 "Missing signature")
  else
    match body with
    | None =>
        log Error "Failed to parse webhook data" ;;
        ret (HTTPException 400 "Invalid JSON")
    | Some webhook_data =>
        success <- process_yoomoney_webhook webhook_data (default "" signature) now ;;
        if success then ret (Json200 "ok")
        else ret (HTTPException 400 "Webhook processing failed")
    end.

End PaymentService.

(** ** Chat route ([app/api/routers/chat.py]) *)

(** The two quota decisions of [POST /send], in the order the handler
    takes them: [None] when it goes on to the completion call.  Between
    the two the handler finds or creates the dialog (leaving with 404 when
    the dialog is not the caller's), stores the user message and commits;
    those steps work on the dialog and message tables only and are left
    out here, so this is not the whole route. *)
Definition send_message (trial_requests user_id : Z) (now : datetime) : M (option response) :=
  can_request <- can_make_request trial_requests user_id now ;;
  if negb can_request then
    ret (Some (HTTPException 402 "Insufficient quota. Please upgrade your plan."))
  else
    success <- consume_request user_id 1 now ;;
    if negb success then ret (Some (HTTPException 402 "Failed to consume quota"))
    else ret None.

(** ** History truncation ([app/services/openai_service.py]) *)

(** A Python [str] whose length matters: its code points, which is what
    [len] counts. *)
Definition pystr := list N.

Module Message.
Record t := mk {
  role : string;
  content : pystr
}.
End Message.

(** [len(text) // 3] *)
Definition count_tokens (text : pystr) : Z :=
  Z.of_nat (length text) `div` 3.

(** The loop of [truncate_messages] over [reversed(messages)]: [total] is
    [total_tokens], [acc] is [truncated_messages]; the [else] branch is the
    [break]. *)
Fixpoint truncate_loop (newest_first : list Message.t) (max_tokens total : Z)
    (acc : list Message.t) : list Message.t :=
  match newest_first with
  | [] => acc
  | message :: older =>
      let message_tokens := count_tokens (Message.content message) in
      if total + message_tokens <=? max_tokens then
        truncate_loop older max_tokens (total + message_tokens) (message :: acc)
      else acc
  end.

Definition truncate_messages (messages : list Message.t) (max_tokens : Z) : list Message.t :=
  truncate_loop (rev messages) max_tokens 0 [].

(** * Observations, invariants and scenarios used in the statements *)

(** Estimated size of a list of messages. *)
Definition total_cost (ms : list Message.t) : Z :=
  foldr Z.add 0 ((fun m => count_tokens (Message.content m)) <$> ms).

(** Forgetting the [banned] flag of every user, in every database a
    session holds. *)
Definition unban (u : User.t) : User.t := User.set_banned false u.

Definition unban_db (db : DB) : DB := set_users (unban <$> users db) db.

Definition unban_state (s : state) : state :=
  mkState (unban_db (committed s)) (unban_db (working s))
    (unban_db <$> commits s) (logs s).

(** The [banned] flag of every user of a database. *)
Definition flags (db : DB) : gmap Z bool := User.banned <$> users db.

(** Two sessions that differ at most in [banned] flags. *)
Definition same_up_to_banned (s1 s2 : state) : Prop :=
  unban_state s1 = unban_state s2.

Definition lift_unban {A} (r : outcome A * state) : outcome A * state :=
  (r.1, unban_state r.2).

(** An operation that does the same thing whether or not the flags are
    there. *)
Definition ignores_banned {A} (m : M A) : Prop :=
  forall s, m (unban_state s) = lift_unban (m s).

(** The rows of the usage table for one user and one calendar day. *)
Definition usage_rows (user_id day : Z) (db : DB) : list Usage.t :=
  filter (used_on user_id day) (usage db).

(** The key (user, date) identifies at most one usage row. *)
Definition usage_keyed (db : DB) : Prop :=
  forall user_id day, (length (usage_rows user_id day db) <= 1)%nat.

(** A sequence of requests, each in a session of its own. *)
Fixpoint run_requests {A} (ops : list (M A)) (db : DB) : list (outcome A) * DB :=
  match ops with
  | [] => ([], db)
  | op :: ops' =>
      let (r, db') := run_request op db in
      let (rs, db'') := run_requests ops' db' in
      (r :: rs, db'')
  end.

(** Requests on record for a user, over all days. *)
Definition logged_requests (user_id : Z) (db : DB) : Z :=
  foldr Z.add 0 (Usage.requests <$> filter (fun r => Usage.user_id r = user_id) (usage db)).

(** Logging calls for one user, each given as (time of the call, tokens). *)
Definition log_calls (user_id : Z) (calls : list (datetime * Z)) : list (M unit) :=
  (fun c => _log_usage user_id c.2 c.1) <$> calls.

Definition sum_tokens (calls : list (datetime * Z)) : Z :=
  foldr Z.add 0 (snd <$> calls).

(** Requests to [consume_request] for one user, each given as (time of the
    call, tokens). *)
Definition consume_calls (user_id : Z) (calls : list (datetime * Z)) : list (M bool) :=
  (fun c => consume_request user_id c.2 c.1) <$> calls.

(** How a database with standard string literals reads one, from the
    character after the opening apostrophe: up to the first apostrophe that
    is not doubled, a doubled apostrophe standing for one.  The result is
    the value of the literal and the rest of the statement. *)
Fixpoint read_literal (s : string) : option (string * string) :=
  match s with
  | EmptyString => None
  | String c rest =>
      if Ascii.eqb c "'"%char then
        match rest with
        | String c' rest' =>
            if Ascii.eqb c' "'"%char then prod_map (String "'"%char) id <$> read_literal rest'
            else Some (EmptyString, rest)
        | EmptyString => Some (EmptyString, EmptyString)
        end
      else prod_map (String c) id <$> read_literal rest
  end.

(** [s] contains no apostrophe. *)
Fixpoint quote_free (s : string) : bool :=
  match s with
  | EmptyString => true
  | String c rest => negb (Ascii.eqb c "'"%char) && quote_free rest
  end.

(** A database that accepts statements as text and reads string literals
    the standard way: when what was pasted reads, with the closing
    apostrophe, as one literal [v] and nothing more, each of the three
    look-ups compares with [v]. *)
Definition standard_sql (execute_text : string -> DB -> outcome (list Z)) : Prop :=
  forall pasted v db,
    read_literal (pasted +:+ "'") = Some (v, EmptyString) ->
    execute_text (idempotency_key_query pasted) db =
      Ok (Purchase.id <$> filter (has_idempotency_key v) (purchases db)) /\
    execute_text (yoomoney_payment_id_query pasted) db =
      Ok (Purchase.id <$> filter (has_yoomoney_payment_id v) (purchases db)) /\
    execute_text (plan_name_query pasted) db = Ok (plan_ids_named v db).

Fixpoint strip_prefix (prefix s : string) : option string :=
  match prefix, s with
  | EmptyString, _ => Some s
  | String a prefix', String b s' => if Ascii.eqb a b then strip_prefix prefix' s' else None
  | String _ _, EmptyString => None
  end.

(** The value compared with, when [statement] is [opening] followed by
    one literal and nothing more. *)
Definition compared_with (opening statement : string) : option string :=
  match strip_prefix opening statement ≫= read_literal with
  | Some (v, EmptyString) => Some v
  | _ => None
  end.

(** One such database, used where a statement needs a concrete one: it
    answers the three look-ups and refuses every other text. *)
Definition standard_execute (statement : string) (db : DB) : outcome (list Z) :=
  match compared_with select_by_idempotency_key statement,
        compared_with select_by_yoomoney_payment_id statement,
        compared_with select_by_plan_name statement with
  | Some v, _, _ => Ok (Purchase.id <$> filter (has_idempotency_key v) (purchases db))
  | None, Some v, _ => Ok (Purchase.id <$> filter (has_yoomoney_payment_id v) (purchases db))
  | None, None, Some v => Ok (plan_ids_named v db)
  | None, None, None => Raise DBAPIError
  end.

(** The part the two reconciler paths share, from the duplicate check on:
    [duplicate_query] is the text of the duplicate look-up, [mk_row]
    builds the purchase once the plan is resolved. *)
Definition reconcile_core (execute_text : string -> DB -> outcome (list Z))
    (duplicate_query : string)
    (dup_msg ok_msg fail_msg : string) (user_id : Z) (plan_name : string)
    (mk_row : Z -> Z -> Purchase.t) (now : datetime) : M bool :=
  existing_purchase <- execute execute_text duplicate_query ;;
  existing_purchase <- scalar_one_or_none existing_purchase ;;
  if truthy_opt_int existing_purchase then
    log Info dup_msg ;;
    ret true
  else
    plan <- execute execute_text (plan_name_query plan_name) ;;
    plan <- scalar_one_or_none plan ;;
    if negb (truthy_opt_int plan) then
      log Error "Plan not found" ;;
      ret false
    else
      let plan := default 0 plan in
      add_purchase (mk_row plan) ;;
      success <- activate_plan user_id plan 30 now ;;
      if success then
        commit ;;
        log Info ok_msg ;;
        ret true
      else
        rollback ;;
        log Error fail_msg ;;
        ret false.

(** The store after a purchase row and the plan activation it pays for. *)
Definition paid (row : Z -> Purchase.t) (user_id plan : Z) (now : datetime)
    (user : User.t) (db : DB) : DB :=
  set_users
    (<[user_id := User.set_plan (Some plan) (Some (now + timedelta_days 30)) user]> (users db))
    (set_purchases (purchases db ++ [row (next_id (Purchase.id <$> purchases db))]) db).

Definition add_log (lvl : level) (msg : string) (s : state) : state :=
  mkState (committed s) (working s) (commits s) ((lvl, msg) :: logs s).

(** A webhook the gateway path acts on: signed, with a payment id, status
    "succeeded" and both metadata fields. *)
Definition actionable (verify : Webhook.t -> string -> bool) (w : Webhook.t)
    (signature : string) : bool :=
  verify w signature
  && truthy_opt_str (Webhook.object_id w)
  && bool_decide (Webhook.object_status w = Some "succeeded")
  && truthy_opt_int (Webhook.metadata_user_id w)
  && truthy_opt_str (Webhook.metadata_plan_name w).



(** The idempotency key of a payment: the composite key of an in-app
    payment, or the gateway's payment id. *)
Inductive payment_key :=
| StarsKey (idempotency_key : string)
| GatewayKey (payment_id : string).

Definition carries (k : payment_key) (p : Purchase.t) : Prop :=
  match k with
  | StarsKey key => has_idempotency_key key p
  | GatewayKey payment_id => has_yoomoney_payment_id payment_id p
  end.

#[global] Instance carries_dec k p : Decision (carries k p).
Proof. destruct k; simpl; apply _. Defined.

(** The duplicate look-up [q] returns the purchases that carry [k]. *)
Definition finds (execute_text : string -> DB -> outcome (list Z)) (q : string)
    (k : payment_key) : Prop :=
  forall db, execute_text q db = Ok (Purchase.id <$> filter (carries k) (purchases db)).

Definition completed_for (k : payment_key) (db : DB) : list Purchase.t :=
  filter (fun p => carries k p /\ Purchase.status p = "completed") (purchases db).

(** Primary keys are not zero and no key is carried by two purchases. *)
Definition ledger_ok (db : DB) : Prop :=
  Forall (fun p => Purchase.id p <> 0) (purchases db) /\
  forall k, (length (filter (carries k) (purchases db)) <= 1)%nat.

(** An event delivered to the reconciler. *)
Inductive payment_event :=
| StarsPayment (user_id : Z) (plan_name telegram_charge_id : string) (amount : money)
| GatewayWebhook (webhook_data : Webhook.t) (signature : string).

Definition process (execute_text : string -> DB -> outcome (list Z))
    (verify : Webhook.t -> string -> bool) (ev : payment_event)
    (now : datetime) : M bool :=
  match ev with
  | StarsPayment user_id plan_name telegram_charge_id amount =>
      process_stars_payment execute_text user_id plan_name telegram_charge_id amount now
  | GatewayWebhook webhook_data signature =>
      process_yoomoney_webhook execute_text verify webhook_data signature now
  end.

(** The key under which an event is reconciled; a webhook that is not
    acted on has none. *)
Definition event_key (verify : Webhook.t -> string -> bool) (ev : payment_event)
    : option payment_key :=
  match ev with
  | StarsPayment user_id plan_name telegram_charge_id _ =>
      Some (StarsKey (stars_key user_id plan_name telegram_charge_id))
  | GatewayWebhook webhook_data signature =>
      if actionable verify webhook_data signature
      then GatewayKey <$> Webhook.object_id webhook_data
      else None
  end.

(** The text pasted into the duplicate look-up of an event. *)
Definition pasted_key (ev : payment_event) : string :=
  match ev with
  | StarsPayment user_id plan_name telegram_charge_id _ =>
      stars_key user_id plan_name telegram_charge_id
  | GatewayWebhook webhook_data _ => default "" (Webhook.object_id webhook_data)
  end.

(** Events with their arrival times, each handled as a request. *)
Definition reconcile (execute_text : string -> DB -> outcome (list Z))
    (verify : Webhook.t -> string -> bool)
    (evs : list (payment_event * datetime)) (db : DB) : list (outcome bool) * DB :=
  run_requests ((fun e => process execute_text verify e.1 e.2) <$> evs) db.

(** * The rest of the services and their callers *)

(** ** More of the quota engine ([app/services/billing_service.py]) *)

Definition add_trial_requests (user_id amount : Z) : M bool :=
  user <- select_user user_id ;;
  match user with
  | None => ret false
  | Some user =>
      store_user user_id (User.set_trial_left (User.trial_left user + amount) user) ;;
      commit ;;
      log Info "Trial requests added" ;;
      ret true
  end.

(** The dictionary returned by [get_user_stats]. *)
Module Stats.
Record t := mk {
  total_requests : Z;
  total_tokens : Z;
  purchases_count : Z
}.
End Stats.

(** [Usage.user_id == user_id] *)
Definition used_by (user_id : Z) (r : Usage.t) : Prop := Usage.user_id r = user_id.

(** [and_(Purchase.user_id == user_id, Purchase.status == "completed")] *)
Definition completed_by (user_id : Z) (p : Purchase.t) : Prop :=
  Purchase.user_id p = user_id /\ Purchase.status p = "completed".

#[global] Instance used_by_dec user_id r : Decision (used_by user_id r).
Proof. unfold used_by. apply _. Defined.

#[global] Instance completed_by_dec user_id p : Decision (completed_by user_id p).
Proof. unfold completed_by. apply _. Defined.

(** [func.count(...)] over the selected rows. *)
Definition sql_count {A} (l : list A) : option Z := Some (Z.of_nat (length l)).

Definition get_user_stats (user_id : Z) : M Stats.t :=
  db <- get_working ;;
  let total_requests :=
    or_zero (sql_sum (Usage.requests <$> filter (used_by user_id) (usage db))) in
  let total_tokens :=
    or_zero (sql_sum (Usage.total_tokens <$> filter (used_by user_id) (usage db))) in
  let purchases_count :=
    or_zero (sql_count (filter (completed_by user_id) (purchases db))) in
  ret (Stats.mk total_requests total_tokens purchases_count).

(** ** Administrative routes ([app/api/routers/admin.py])

    The bodies of the routes, after the [require_admin] dependency.  A 200
    answer carries its [message] field. *)

Definition ban_user (user_id : Z) : M response :=
  user <- select_user user_id ;;
  match user with
  | None => ret (HTTPException 404 "User not found")
  | Some user =>
      store_user user_id (User.set_banned true user) ;;
      commit ;;
      ret (Json200 "User banned")
  end.

Definition unban_user (user_id : Z) : M response :=
  user <- select_user user_id ;;
  match user with
  | None => ret (HTTPException 404 "User not found")
  | Some user =>
      store_user user_id (User.set_banned false user) ;;
      commit ;;
      ret (Json200 "User unbanned")
  end.

Definition give_requests (user_id amount : Z) : M response :=
  success <- add_trial_requests user_id amount ;;
  if success then
    ret (Json200 ("Added " +:+ pretty amount +:+ " requests to user " +:+ pretty user_id))
  else ret (HTTPException 400 "Failed to add requests").

(** The model returned by [get_revenue_stats]. *)
Module RevenueStats.
Record t := mk {
  total_revenue : money;
  revenue_today : money;
  revenue_week : money;
  revenue_month : money
}.
End RevenueStats.

(** [Purchase.status == "completed"] *)
Definition is_completed (p : Purchase.t) : Prop := Purchase.status p = "completed".

(** [Purchase.status == "completed", func.date(Purchase.completed_at) == today];
    a NULL [completed_at] satisfies no comparison. *)
Definition completed_on (today : Z) (p : Purchase.t) : Prop :=
  Purchase.status p = "completed" /\
  match Purchase.completed_at p with
  | Some t => date_of t = today
  | None => False
  end.

(** [Purchase.status == "completed", Purchase.completed_at >= since] *)
Definition completed_since (since : datetime) (p : Purchase.t) : Prop :=
  Purchase.status p = "completed" /\
  match Purchase.completed_at p with
  | Some t => since <= t
  | None => False
  end.

#[global] Instance is_completed_dec p : Decision (is_completed p).
Proof. unfold is_completed. apply _. Defined.

#[global] Instance completed_on_dec today p : Decision (completed_on today p).
Proof. unfold completed_on. destruct (Purchase.completed_at p); apply _. Defined.

#[global] Instance completed_since_dec since p : Decision (completed_since since p).
Proof. unfold completed_since. destruct (Purchase.completed_at p); apply _. Defined.

(** [select(func.sum(Purchase.amount)).where(...)] followed by
    [.scalar() or 0] *)
Definition revenue (P : Purchase.t -> Prop) `{!forall p, Decision (P p)} (db : DB) : money :=
  or_zero (sql_sum (Purchase.amount <$> filter P (purchases db))).

Definition get_revenue_stats (now : datetime) : M RevenueStats.t :=
  db <- get_working ;;
  let total_revenue := revenue is_completed db in
  let today := date_of now in
  let revenue_today := revenue (completed_on today) db in
  let week_ago := now - timedelta_days 7 in
  let revenue_week := revenue (completed_since week_ago) db in
  let month_ago := now - timedelta_days 30 in
  let revenue_month := revenue (completed_since month_ago) db in
  ret (RevenueStats.mk total_revenue revenue_today revenue_week revenue_month).

(** ** Promo codes ([app/services/billing_service.py])

    The promo operations read and write the promo table only; their
    session is modelled over that table alone. *)

Module Promo.
Record t := mk {
  id : Z;
  code : string;
  discount_percent : Z;
  discount_fixed : money;
  until : option datetime;
  max_uses : Z;
  used : Z;
  is_active : bool
}.
Definition set_used (v : Z) (p : t) : t :=
  mk (id p) (code p) (discount_percent p) (discount_fixed p) (until p) (max_uses p) v
    (is_active p).
End Promo.

(** The dictionary returned by [validate_promo]. *)
Module PromoView.
Record t := mk {
  id : Z;
  code : string;
  discount_percent : Z;
  discount_fixed : money;
  max_uses : Z;
  used : Z
}.
End PromoView.

(** A session over one table of type [T]: what is committed and what the
    open transaction sees. *)
Record txn (T : Type) := mkTxn {
  stored : T;
  pending : T
}.
Arguments mkTxn {T} stored pending.
Arguments stored {T} t.
Arguments pending {T} t.

Definition TM (T A : Type) : Type := txn T -> outcome A * txn T.

Definition tret {T A} (a : A) : TM T A := fun s => (Ok a, s).

Definition tbind {T A B} (m : TM T A) (k : A -> TM T B) : TM T B :=
  fun s => match m s with
           | (Ok a, s') => k a s'
           | (Raise e, s') => (Raise e, s')
           end.

Definition tget {T} : TM T T := fun s => (Ok (pending s), s).

Definition tput {T} (table : T) : TM T unit := fun s => (Ok tt, mkTxn (stored s) table).

Definition tcommit {T} : TM T unit := fun s => (Ok tt, mkTxn (pending s) (pending s)).

Definition tscalar_one_or_none {T A} (rows : list A) : TM T (option A) :=
  match rows with
  | [] => tret None
  | [x] => tret (Some x)
  | _ :: _ :: _ => fun s => (Raise MultipleResultsFound, s)
  end.

(** A request in a session of its own over the committed table. *)
Definition trun_request {T A} (op : TM T A) (table : T) : outcome A * T :=
  let (r, s) := op (mkTxn table table) in (r, stored s).

(** [and_(Promo.code == code, Promo.is_active == True)] *)
Definition promo_named (code : string) (p : Promo.t) : Prop :=
  Promo.code p = code /\ Promo.is_active p = true.

(** [Promo.id == promo_id] *)
Definition promo_with_id (promo_id : Z) (p : Promo.t) : Prop := Promo.id p = promo_id.

#[global] Instance promo_named_dec code p : Decision (promo_named code p).
Proof. unfold promo_named. apply _. Defined.

#[global] Instance promo_with_id_dec promo_id p : Decision (promo_with_id promo_id p).
Proof. unfold promo_with_id. apply _. Defined.

(** [promo.until and promo.until < datetime.utcnow()] *)
Definition promo_expired (now : datetime) (p : Promo.t) : bool :=
  match Promo.until p with
  | Some until => until <? now
  | None => false
  end.

Definition promo_view (p : Promo.t) : PromoView.t :=
  PromoView.mk (Promo.id p) (Promo.code p) (Promo.discount_percent p)
    (Promo.discount_fixed p) (Promo.max_uses p) (Promo.used p).

Definition validate_promo (code : string) (now : datetime)
    : TM (list Promo.t) (option PromoView.t) :=
  tbind tget (fun table =>
  tbind (tscalar_one_or_none (filter (promo_named code) table)) (fun promo =>
  match promo with
  | None => tret None
  | Some promo =>
      if promo_expired now promo then tret None
      else if Promo.max_uses promo <=? Promo.used promo then tret None
      else tret (Some (promo_view promo))
  end)).

Definition apply_promo (promo_id : Z) : TM (list Promo.t) bool :=
  tbind tget (fun table =>
  tbind (tscalar_one_or_none
           (filter (fun ir => promo_with_id promo_id ir.2) (rows_from 0 table)))
    (fun promo =>
  match promo with
  | None => tret false
  | Some (i, promo) =>
      tbind (tput (<[i := Promo.set_used (Promo.used promo + 1) promo]> table)) (fun _ =>
      tbind tcommit (fun _ =>
      tret true))
  end)).

(** ** The [/start] command ([app/bot/handlers.py]) *)

(** What the greeting is built from: the allotment announced to a new
    user, or the [remaining] and [plan_name] of a returning one. *)
Inductive greeting :=
| Welcome (trial_requests : Z)
| WelcomeBack (remaining : Z) (plan_name : option string).

(** [User(id=user_id, trial_left=settings.trial_requests, ...)]: the other
    columns take their defaults. *)
Definition cmd_start (trial_requests user_id : Z) (now : datetime) : M greeting :=
  user <- select_user user_id ;;
  match user with
  | None =>
      store_user user_id (User.mk trial_requests None None false) ;;
      commit ;;
      ret (Welcome trial_requests)
  | Some _ =>
      quota <- get_user_quota trial_requests user_id now ;;
      ret (WelcomeBack (Quota.remaining quota) (Quota.plan_name quota))
  end.

(** ** Authentication ([app/api/middleware.py]) *)

(** The Python values that the parsing of the init data can produce. *)
#[warnings="-register-all"] Inductive pyval :=
| PyNone
| PyInt (n : Z)
| PyStr (s : string)
| PyDict (items : list (string * pyval)).

Inductive pyexn := AttributeError | ValueError | TypeError.

(** [dict(pairs)[key]]: of several pairs with one key the last one counts. *)
Fixpoint dict_lookup (key : string) (items : list (string * pyval)) : option pyval :=
  match items with
  | [] => None
  | (k, v) :: items' =>
      match dict_lookup key items' with
      | Some v' => Some v'
      | None => if String.eqb k key then Some v else None
      end
  end.

(** [v.get(key, default)]: only a dict has the method. *)
Definition py_get (v : pyval) (key : string) (default : pyval) : pyexn + pyval :=
  match v with
  | PyDict items => inr (from_option id default (dict_lookup key items))
  | _ => inl AttributeError
  end.

(** [not v] negated: the truth value of [v]. *)
Definition py_truthy (v : pyval) : bool :=
  match v with
  | PyNone => false
  | PyInt n => truthy_int n
  | PyStr s => truthy_str s
  | PyDict items => match items with [] => false | _ :: _ => true end
  end.

Section Middleware.

(** [urllib.parse.parse_qsl]: the pairs of a query string, or the exception
    it raises. *)
Variable parse_qsl : string -> pyexn + list (string * string).

(** [int(s)] of a string. *)
Variable int_of_str : string -> option Z.

(** The [user_id] that [auth_middleware] stores in [request.state], from
    the [tgWebAppData] query parameter.  Any exception in the [try] block
    is logged and leaves [user_id = None]. *)
Definition auth_middleware (tgWebAppData : option string) : pyval :=
  match tgWebAppData with
  | Some init_data =>
      if truthy_str init_data then
        match parse_qsl init_data with
        | inr pairs =>
            let parsed_data := PyDict (prod_map id PyStr <$> pairs) in
            match py_get parsed_data "user" (PyDict []) with
            | inr user =>
                match py_get user "id" PyNone with
                | inr user_id => user_id
                | inl _ => PyNone
                end
            | inl _ => PyNone
            end
        | inl _ => PyNone
        end
      else PyNone
  | None => PyNone
  end.

(** [getattr(request.state, 'user_id', None)] *)
Definition get_current_user_id (state_user_id : pyval) : pyval := state_user_id.

Definition require_auth (state_user_id : pyval) : pyexn + Z :=
  let user_id := get_current_user_id state_user_id in
  if negb (py_truthy user_id) then inl ValueError
  else
    match user_id with
    | PyInt n => inr n
    | PyStr s => from_option inr (inl ValueError) (int_of_str s)
    | _ => inl TypeError
    end.

(** [user_id not in settings.admin_ids], the ids being integers. *)
Definition not_in_admin_ids (admin_ids : list Z) (user_id : pyval) : bool :=
  match user_id with
  | PyInt n => negb (bool_decide (n ∈ admin_ids))
  | _ => true
  end.

(** [require_admin] ([app/api/routers/admin.py]) *)
Definition require_admin (admin_ids : list Z) (state_user_id : pyval) : response + pyval :=
  let user_id := state_user_id in
  if negb (py_truthy user_id) || not_in_admin_ids admin_ids user_id then
    inl (HTTPException 403 "Admin access required")
  else inr user_id.

End Middleware.

(** ** Dialog routes ([app/api/routers/chat.py]) *)

Module Dialog.
Record t := mk {
  id : Z;
  user_id : Z;
  title : option string;
  created_at : datetime;
  updated_at : datetime;
  is_pinned : bool
}.
(** An update of [is_pinned]; [updated_at] has [onupdate=datetime.utcnow]. *)
Definition set_pinned (b : bool) (now : datetime) (d : t) : t :=
  mk (id d) (user_id d) (title d) (created_at d) now b.
End Dialog.

(** [Dialog.id == dialog_id, Dialog.user_id == user_id] *)
Definition dialog_of (dialog_id user_id : Z) (d : Dialog.t) : Prop :=
  Dialog.id d = dialog_id /\ Dialog.user_id d = user_id.

(** [Dialog.user_id == user_id] *)
Definition dialog_by (user_id : Z) (d : Dialog.t) : Prop := Dialog.user_id d = user_id.

#[global] Instance dialog_of_dec dialog_id user_id d : Decision (dialog_of dialog_id user_id d).
Proof. unfold dialog_of. apply _. Defined.

#[global] Instance dialog_by_dec user_id d : Decision (dialog_by user_id d).
Proof. unfold dialog_by. apply _. Defined.

(** [POST /dialogs/{dialog_id}/pin]: the exception raised, or the
    [pinned] field of the answer, which is read from the row after the
    commit and is the value just written. *)
Definition pin_dialog (dialog_id user_id : Z) (now : datetime)
    : TM (list Dialog.t) (response + bool) :=
  tbind tget (fun table =>
  tbind (tscalar_one_or_none
           (filter (fun ir => dialog_of dialog_id user_id ir.2) (rows_from 0 table)))
    (fun dialog =>
  match dialog with
  | None => tret (inl (HTTPException 404 "Dialog not found"))
  | Some (i, dialog) =>
      let dialog' := Dialog.set_pinned (negb (Dialog.is_pinned dialog)) now dialog in
      tbind (tput (<[i := dialog']> table)) (fun _ =>
      tbind tcommit (fun _ =>
      tret (inr (Dialog.is_pinned dialog'))))
  end)).

(** [DELETE /dialogs/{dialog_id}], on the table of dialogs; the messages
    of the dialog go with it. *)
Definition delete_dialog (dialog_id user_id : Z) : TM (list Dialog.t) response :=
  tbind tget (fun table =>
  tbind (tscalar_one_or_none
           (filter (fun ir => dialog_of dialog_id user_id ir.2) (rows_from 0 table)))
    (fun dialog =>
  match dialog with
  | None => tret (HTTPException 404 "Dialog not found")
  | Some (i, _) =>
      tbind (tput (delete i table)) (fun _ =>
      tbind tcommit (fun _ =>
      tret (Json200 "Dialog deleted")))
  end)).

(** ** Dialog titles ([app/services/openai_service.py]) *)

(** [str.isspace] of one character, what [strip()] removes. *)
Definition is_space (c : N) : bool :=
  ((9 <=? c) && (c <=? 13) || (28 <=? c) && (c <=? 32) || (c =? 133) || (c =? 160)
   || (c =? 5760) || (8192 <=? c) && (c <=? 8202) || (c =? 8232) || (c =? 8233)
   || (c =? 8239) || (c =? 8287) || (c =? 12288))%N.

Fixpoint lstrip (s : pystr) : pystr :=
  match s with
  | [] => []
  | c :: s' => if is_space c then lstrip s' else s
  end.

Definition strip (s : pystr) : pystr := reverse (lstrip (reverse (lstrip s))).

(** [s.replace(c, "")] for a single character [c]. *)
Definition remove_char (c : N) (s : pystr) : pystr := filter (fun x => x <> c) s.

(** The three dots of the ellipsis. *)
Definition dots : pystr := [46; 46; 46]%N.

(** The fallback title, [Новый диалог]. *)
Definition fallback_title : pystr :=
  [1053; 1086; 1074; 1099; 1081; 32; 1076; 1080; 1072; 1083; 1086; 1075]%N.

(** [content] is [response.choices[0].message.content], or [None] when
    the completion call or the access to the reply raises. *)
Definition generate_dialog_title (content : option pystr) : pystr :=
  match content with
  | Some content =>
      let title := strip content in
      let title := remove_char 39 (remove_char 34 title) in
      if (50 <? length title)%nat then take 47 title ++ dots else title
  | None => fallback_title
  end.

(** ** Observations used in the further statements *)

(** [rows] is the usage table [old] after one logging call for [user_id]
    at [now]: a fresh row at the end, or today's row bumped in place. *)
Definition logged_once (user_id tokens : Z) (now : datetime)
    (old rows : list Usage.t) : Prop :=
  (filter (used_on user_id (date_of now)) old = [] /\
   rows = old ++ [Usage.mk user_id now 1 0 0 tokens]) \/
  (exists l1 row l2,
     old = l1 ++ row :: l2 /\
     used_on user_id (date_of now) row /\
     rows = l1 ++ bump tokens row :: l2).

(** The promo table is keyed by [id] and by [code]. *)
Definition promos_keyed (table : list Promo.t) : Prop :=
  NoDup (Promo.id <$> table) /\ NoDup (Promo.code <$> table).

(** [table'] is [table] with some [used] counters raised and nothing else
    changed. *)
Definition grown (table table' : list Promo.t) : Prop :=
  Forall2 (fun p p' => p' = Promo.set_used (Promo.used p') p /\ Promo.used p <= Promo.used p')
    table table'.

(** A promo that [validate_promo] accepts at [now]. *)
Definition redeemable (now : datetime) (p : Promo.t) : Prop :=
  Promo.is_active p = true /\ promo_expired now p = false /\ Promo.used p < Promo.max_uses p.

(** Validation of a code followed by the redemption of the promo it
    names. *)
Definition redeem (code : string) (now : datetime) : TM (list Promo.t) (option PromoView.t) :=
  tbind (validate_promo code now) (fun view =>
  match view with
  | None => tret None
  | Some view =>
      tbind (apply_promo (PromoView.id view)) (fun _ => tret (Some view))
  end).

(** Requests over one table, each in a session of its own. *)
Fixpoint trun_requests {T A} (ops : list (TM T A)) (table : T) : list (outcome A) * T :=
  match ops with
  | [] => ([], table)
  | op :: ops' =>
      let (r, table') := trun_request op table in
      let (rs, table'') := trun_requests ops' table' in
      (r :: rs, table'')
  end.

(** * Properties *)

(** ** The calendar *)

(** 2024-03-15T12:30:00 is day 19797 and its month starts at
    2024-03-01T00:00:00. *)
Example start_of_month_mid_march :
  date_of 1710505800000000 = 19797 /\
  start_of_month 1710505800000000 = 1709251200000000.
Proof. split; reflexivity. Qed.

(** 2024-02-29T23:59:59, the last second of a leap-year February. *)
Example start_of_month_leap_day :
  day_of_month (date_of 1709251199000000) = 29 /\
  start_of_month 1709251199000000 = 1706745600000000.
Proof. split; reflexivity. Qed.

Lemma start_of_month_is_midnight dt :
  start_of_month dt = date_of (start_of_month dt) * us_per_day.
Proof.
  unfold start_of_month. set (d := _ - _). unfold date_of.
  rewrite Z.div_mul; [reflexivity | discriminate].
Qed.

(** ** Stepping through the session monad *)

Lemma bind_ok {A B} (m : M A) (k : A -> M B) s a s' :
  m s = (Ok a, s') -> bind m k s = k a s'.
Proof. intros H. unfold bind. now rewrite H. Qed.

Lemma select_user_run user_id s :
  select_user user_id s = (Ok (users (working s) !! user_id), s).
Proof. reflexivity. Qed.

Ltac step_session :=
  unfold bind, select_user, store_user, get_working, put_working, commit,
    rollback, log, ret, raise; simpl.

(** ** Quota view *)

(** C8: for a [user_id] with no [User] row, [get_user_quota] returns the
    synthetic view (full trial allotment, no plan, [remaining] equal to the
    allotment) as a normal result, and leaves the session exactly as it
    was: no row is created, nothing is written, committed or logged. *)
Theorem get_user_quota_unknown_user trial_requests user_id now s :
  users (working s) !! user_id = None ->
  get_user_quota trial_requests user_id now s =
    (Ok (Quota.mk trial_requests None None 0 0 trial_requests true true), s).
Proof.
  intros Hnone. unfold get_user_quota.
  rewrite (bind_ok _ _ _ _ _ (select_user_run user_id s)).
  now rewrite Hnone.
Qed.

Lemma get_user_quota_unknown_user_witness :
  get_user_quota 30 5 1710505800000000
      (fresh (mkDB {[ 7 := User.mk 30 None None false ]} ∅ [] [])) =
    (Ok (Quota.mk 30 None None 0 0 30 true true),
     fresh (mkDB {[ 7 := User.mk 30 None None false ]} ∅ [] [])).
Proof. apply get_user_quota_unknown_user. reflexivity. Defined.

(** [get_user_quota] only reads. *)
Lemma get_user_quota_reads trial_requests user_id now s :
  exists q, get_user_quota trial_requests user_id now s = (Ok q, s).
Proof.
  unfold get_user_quota.
  rewrite (bind_ok _ _ _ _ _ (select_user_run user_id s)).
  destruct (users (working s) !! user_id); eexists; reflexivity.
Qed.

Lemma Forall_filter_keep {A} (P Q : A -> Prop) `{!forall x, Decision (Q x)} (l : list A) :
  Forall P l -> Forall P (filter Q l).
Proof.
  induction 1 as [|x l Hx Hl IH]; [constructor|].
  rewrite filter_cons. destruct (decide (Q x)); [constructor|]; assumption.
Qed.

Lemma foldr_add_nonneg (l : list Z) :
  Forall (fun x => 0 <= x) l -> 0 <= foldr Z.add 0 l.
Proof. induction 1; simpl; lia. Qed.

Lemma or_zero_sql_sum (l : list Z) : or_zero (sql_sum l) = foldr Z.add 0 l.
Proof.
  destruct l as [|x l]; [reflexivity|].
  unfold sql_sum, or_zero, truthy_int.
  destruct (Z.eqb_spec (foldr Z.add 0 (x :: l)) 0) as [->|]; reflexivity.
Qed.

(** C1: what the code does for an unlimited plan.  With an unexpired plan
    whose [monthly_quota] is the sentinel [-1] and no negative request
    counts on record, [get_user_quota] reports [remaining = 0], an ordinary
    number, and [can_make_request] answers [False]. *)
Theorem unlimited_plan_is_denied trial_requests user_id now s user p plan :
  users (working s) !! user_id = Some user ->
  has_active_plan user now = true ->
  User.plan_id user = Some p ->
  plans (working s) !! p = Some plan ->
  Plan.monthly_quota plan = -1 ->
  Forall (fun r => 0 <= Usage.requests r) (usage (working s)) ->
  (exists q, get_user_quota trial_requests user_id now s = (Ok q, s) /\
             Quota.monthly_quota q = -1 /\ Quota.remaining q = 0) /\
  can_make_request trial_requests user_id now s = (Ok false, s).
Proof.
  intros Hu Hact Hp Hplan Hq Hreq.
  assert (Hused : 0 <= or_zero (sql_sum (Usage.requests <$>
            filter (used_since user_id (start_of_month now)) (usage (working s))))).
  { rewrite or_zero_sql_sum. apply foldr_add_nonneg.
    apply Forall_fmap. now apply Forall_filter_keep. }
  assert (Hget : exists q, get_user_quota trial_requests user_id now s = (Ok q, s) /\
             Quota.monthly_quota q = -1 /\ Quota.remaining q = 0).
  { unfold get_user_quota.
    rewrite (bind_ok _ _ _ _ _ (select_user_run user_id s)), Hu.
    step_session. rewrite Hact, Hp. simpl. rewrite Hplan. simpl. rewrite Hq.
    eexists. split; [reflexivity|]. simpl. split; [reflexivity|]. lia. }
  split; [exact Hget|].
  destruct Hget as (q & Hrun & _ & Hrem).
  unfold can_make_request. rewrite (bind_ok _ _ _ _ _ Hrun).
  unfold ret. now rewrite Hrem.
Qed.

Lemma unlimited_plan_is_denied_witness :
  let db := mkDB {[ 42 := User.mk 0 (Some 3) (Some 1713097800000000) false ]}
                 {[ 3 := Plan.mk "Business" (-1) ]} [] [] in
  (exists q, get_user_quota 30 42 1710505800000000 (fresh db) = (Ok q, fresh db) /\
             Quota.monthly_quota q = -1 /\ Quota.remaining q = 0) /\
  can_make_request 30 42 1710505800000000 (fresh db) = (Ok false, fresh db).
Proof.
  apply (unlimited_plan_is_denied 30 42 1710505800000000 _
           (User.mk 0 (Some 3) (Some 1713097800000000) false) 3
           (Plan.mk "Business" (-1))); try reflexivity.
  simpl. constructor.
Defined.

(** ** Plan activation *)

Lemma activate_plan_run user_id plan_id duration_days now s :
  activate_plan user_id plan_id duration_days now s =
    match users (working s) !! user_id with
    | Some user =>
        let db := set_users
          (<[user_id := User.set_plan (Some plan_id)
                          (Some (now + timedelta_days duration_days)) user]>
             (users (working s))) (working s) in
        (Ok true, mkState db db (db :: commits s) ((Info, "Plan activated") :: logs s))
    | None => (Ok false, s)
    end.
Proof.
  unfold activate_plan.
  rewrite (bind_ok _ _ _ _ _ (select_user_run user_id s)).
  destruct (users (working s) !! user_id); reflexivity.
Qed.



(** ** Gateway statuses other than "succeeded" *)

(** C5, as the code has it: a webhook that passes the signature check but
    whose status is not "succeeded" is logged at info level and changes
    nothing in the store; [process_yoomoney_webhook] returns [False] and
    the route answers 400, as it does for every failure. *)
Theorem non_succeeded_webhook_is_rejected execute_text verify webhook_data signature now s :
  verify webhook_data signature = true ->
  Webhook.object_status webhook_data <> Some "succeeded" ->
  truthy_str signature = true ->
  let s' := mkState (committed s) (working s) (commits s)
              ((Info, "YooKassa payment not succeeded") :: logs s) in
  process_yoomoney_webhook execute_text verify webhook_data signature now s = (Ok false, s') /\
  yoomoney_webhook execute_text verify (Some signature) (Some webhook_data) now s =
    (Ok (HTTPException 400 "Webhook processing failed"), s').
Proof.
  intros Hsig Hst Hne s'.
  assert (Hrun : process_yoomoney_webhook execute_text verify webhook_data signature now s = (Ok false, s')).
  { unfold process_yoomoney_webhook. rewrite Hsig. simpl.
    rewrite (bool_decide_eq_false_2 _ Hst). simpl.
    rewrite orb_true_r. reflexivity. }
  split; [exact Hrun|].
  unfold yoomoney_webhook. simpl. rewrite Hne. simpl.
  now rewrite (bind_ok _ _ _ _ _ Hrun).
Qed.

Lemma non_succeeded_webhook_is_rejected_witness :
  let verify := fun (_ : Webhook.t) (sig : string) => String.eqb sig "3f5a" in
  let w := Webhook.mk (Some "pay_123") (Some "canceled") (Some 42) (Some "Pro") (Some 799) in
  let s := fresh (mkDB {[ 42 := User.mk 30 None None false ]} {[ 2 := Plan.mk "Pro" 1500 ]} [] []) in
  let s' := mkState (committed s) (working s) (commits s)
              ((Info, "YooKassa payment not succeeded") :: logs s) in
  process_yoomoney_webhook standard_execute verify w "3f5a" 1710505800000000 s = (Ok false, s') /\
  yoomoney_webhook standard_execute verify (Some "3f5a") (Some w) 1710505800000000 s =
    (Ok (HTTPException 400 "Webhook processing failed"), s').
Proof.
  intros verify w s.
  apply (non_succeeded_webhook_is_rejected standard_execute verify w "3f5a" 1710505800000000 s);
    [reflexivity | discriminate | reflexivity].
Defined.

(** C5 as stated fails on the code: a signed webhook with status "pending"
    is answered with the error response of the route, although the store is
    left alone. *)
Lemma pending_webhook_answers_400 :
  let verify := fun (_ : Webhook.t) (sig : string) => String.eqb sig "3f5a" in
  let w := Webhook.mk (Some "pay_123") (Some "pending") (Some 42) (Some "Pro") (Some 799) in
  let db := mkDB {[ 42 := User.mk 30 None None false ]} {[ 2 := Plan.mk "Pro" 1500 ]} [] [] in
  verify w "3f5a" = true /\
  Webhook.object_status w <> Some "succeeded" /\
  run_request (process_yoomoney_webhook standard_execute verify w "3f5a" 1710505800000000) db = (Ok false, db) /\
  run_request (yoomoney_webhook standard_execute verify (Some "3f5a") (Some w) 1710505800000000) db =
    (Ok (HTTPException 400 "Webhook processing failed"), db) /\
  ~ (exists body,
       fst (run_request (yoomoney_webhook standard_execute verify (Some "3f5a") (Some w) 1710505800000000) db) =
       Ok (Json200 body)).
Proof.
  simpl. repeat split; try reflexivity; try discriminate.
  intros [body Hbody]. vm_compute in Hbody. discriminate.
Qed.

(** ** History truncation *)

Lemma foldr_add_app (l1 l2 : list Z) :
  foldr Z.add 0 (l1 ++ l2) = foldr Z.add 0 l1 + foldr Z.add 0 l2.
Proof. induction l1 as [|x l1 IH]; simpl; lia. Qed.

Lemma total_cost_app ms1 ms2 :
  total_cost (ms1 ++ ms2) = total_cost ms1 + total_cost ms2.
Proof. unfold total_cost. now rewrite fmap_app, foldr_add_app. Qed.

Lemma total_cost_cons m ms :
  total_cost (m :: ms) = count_tokens (Message.content m) + total_cost ms.
Proof. reflexivity. Qed.

Lemma total_cost_rev ms : total_cost (rev ms) = total_cost ms.
Proof.
  induction ms as [|m ms IH]; [reflexivity|].
  simpl rev. rewrite total_cost_app, IH, !total_cost_cons.
  change (total_cost []) with 0. lia.
Qed.

Lemma count_tokens_nonneg text : 0 <= count_tokens text.
Proof. unfold count_tokens. apply Z.div_pos; lia. Qed.

Lemma count_tokens_bounds text :
  3 * count_tokens text <= Z.of_nat (length text) < 3 * count_tokens text + 3.
Proof.
  unfold count_tokens.
  pose proof (Z.div_mod (Z.of_nat (length text)) 3 ltac:(lia)).
  pose proof (Z.mod_pos_bound (Z.of_nat (length text)) 3 ltac:(lia)).
  lia.
Qed.

Lemma total_cost_nonneg ms : 0 <= total_cost ms.
Proof.
  induction ms as [|m ms IH]; [now compute|].
  rewrite total_cost_cons.
  pose proof (count_tokens_nonneg (Message.content m)). lia.
Qed.

(** The loop keeps a prefix [kept] of the newest-first list, puts it back in
    front of [acc] in chronological order, and stops at the first message
    that does not fit. *)
Lemma truncate_loop_inv newest_first max_tokens total acc :
  exists kept dropped,
    newest_first = kept ++ dropped /\
    truncate_loop newest_first max_tokens total acc = rev kept ++ acc /\
    (kept = [] \/ total + total_cost kept <= max_tokens) /\
    match dropped with
    | [] => True
    | m :: _ => max_tokens < total + total_cost kept + count_tokens (Message.content m)
    end.
Proof.
  revert total acc.
  induction newest_first as [|m older IH]; intros total acc.
  - exists [], []. simpl. auto.
  - simpl. destruct (Z.leb_spec (total + count_tokens (Message.content m)) max_tokens) as [Hfit|Hover].
    + destruct (IH (total + count_tokens (Message.content m)) (m :: acc))
        as (kept & dropped & -> & Hrun & Hcost & Hstop).
      exists (m :: kept), dropped. split; [reflexivity|]. split.
      * rewrite Hrun. simpl. now rewrite <- app_assoc.
      * rewrite total_cost_cons. split.
        -- right. destruct Hcost as [->|Hle]; [change (total_cost []) with 0; lia | lia].
        -- destruct dropped; [exact I | lia].
    + exists [], (m :: older). simpl. repeat split; auto.
      change (total_cost []) with 0. lia.
Qed.

(** C9: [truncate_messages] returns a contiguous suffix of the input, in
    the input's chronological order.  Each message costs a third of its
    character length, rounded down.  The suffix is filled from the newest
    message backwards and stops at the first message whose cost would take
    the running total over the budget: the newest dropped message does not
    fit on top of what was kept.  For a budget that is not negative the
    total estimated cost of the result is within the budget. *)
Theorem truncate_messages_keeps_newest_suffix messages max_tokens :
  exists dropped,
    messages = dropped ++ truncate_messages messages max_tokens /\
    (forall m, m ∈ messages ->
       3 * count_tokens (Message.content m)
         <= Z.of_nat (length (Message.content m))
         < 3 * count_tokens (Message.content m) + 3) /\
    (forall m, last dropped = Some m ->
       max_tokens < total_cost (truncate_messages messages max_tokens)
                    + count_tokens (Message.content m)) /\
    (truncate_messages messages max_tokens <> [] ->
       total_cost (truncate_messages messages max_tokens) <= max_tokens) /\
    (0 <= max_tokens ->
       total_cost (truncate_messages messages max_tokens) <= max_tokens).
Proof.
  unfold truncate_messages.
  destruct (truncate_loop_inv (rev messages) max_tokens 0 [])
    as (kept & dropped & Hsplit & Hrun & Hcost & Hstop).
  rewrite Hrun, app_nil_r.
  exists (rev dropped). split; [|split; [|split; [|split]]].
  - rewrite <- rev_app_distr, <- Hsplit. symmetry. apply rev_involutive.
  - intros m _. apply count_tokens_bounds.
  - intros m Hlast. rewrite total_cost_rev.
    destruct dropped as [|d dropped]; [discriminate|].
    simpl in Hlast. rewrite last_snoc in Hlast. injection Hlast as <-. lia.
  - intros Hne. rewrite total_cost_rev.
    destruct Hcost as [->|Hle]; [now destruct Hne | lia].
  - intros Hmax. rewrite total_cost_rev.
    destruct Hcost as [->|Hle]; [change (total_cost []) with 0; lia | lia].
Qed.

Lemma truncate_messages_keeps_newest_suffix_witness :
  let messages := [Message.mk "user" [97; 97; 97; 97; 97; 97; 97; 97; 97]%N; Message.mk "assistant" [1087; 1088; 1080; 1074; 1077; 1090]%N;
                   Message.mk "user" [1084; 1080; 1088]%N] in
  truncate_messages messages 3 =
    [Message.mk "assistant" [1087; 1088; 1080; 1074; 1077; 1090]%N; Message.mk "user" [1084; 1080; 1088]%N] /\
  total_cost (truncate_messages messages 3) <= 3.
Proof.
  intros messages. split; [reflexivity|].
  destruct (truncate_messages_keeps_newest_suffix messages 3)
    as (dropped & _ & _ & _ & _ & Hbudget).
  apply Hbudget. lia.
Defined.

(** ** The banned flag *)

Lemma ignores_banned_bind2 {A B} (m1 m2 : M A) (k1 k2 : A -> M B) s :
  m1 (unban_state s) = lift_unban (m2 s) ->
  (forall a, forall s', k1 a (unban_state s') = lift_unban (k2 a s')) ->
  bind m1 k1 (unban_state s) = lift_unban (bind m2 k2 s).
Proof.
  intros Hm Hk. unfold bind. rewrite Hm.
  destruct (m2 s) as [[a|e] s']; simpl; [apply Hk | reflexivity].
Qed.

Lemma ignores_banned_bind {A B} (m : M A) (k : A -> M B) :
  ignores_banned m -> (forall a, ignores_banned (k a)) -> ignores_banned (bind m k).
Proof. intros Hm Hk s. apply ignores_banned_bind2; [apply Hm | intros a; apply Hk]. Qed.

Lemma ignores_banned_ret {A} (a : A) : ignores_banned (ret a).
Proof. intros s. reflexivity. Qed.

Lemma ignores_banned_commit : ignores_banned commit.
Proof. intros s. reflexivity. Qed.

Lemma ignores_banned_log_usage user_id tokens now :
  ignores_banned (_log_usage user_id tokens now).
Proof.
  intros s. unfold _log_usage. step_session.
  destruct (filter _ (rows_from 0 (usage (working s)))) as [|[i row] [|]];
    reflexivity.
Qed.

Lemma store_user_unban user_id u s :
  store_user user_id (unban u) (unban_state s) = lift_unban (store_user user_id u s).
Proof.
  unfold store_user. step_session. unfold lift_unban, unban_state. simpl.
  do 2 f_equal. unfold unban_db, set_users. simpl. now rewrite fmap_insert.
Qed.

Lemma has_active_plan_unban u now :
  has_active_plan (unban u) now = has_active_plan u now.
Proof. reflexivity. Qed.

Lemma ignores_banned_get_user_quota trial_requests user_id now :
  ignores_banned (get_user_quota trial_requests user_id now).
Proof.
  intros s. unfold get_user_quota.
  rewrite !(bind_ok _ _ _ _ _ (select_user_run user_id _)).
  simpl. rewrite lookup_fmap.
  destruct (users (working s) !! user_id) as [u|]; reflexivity.
Qed.

Lemma ignores_banned_can_make_request trial_requests user_id now :
  ignores_banned (can_make_request trial_requests user_id now).
Proof.
  apply ignores_banned_bind; [apply ignores_banned_get_user_quota|].
  intros q. apply ignores_banned_ret.
Qed.

Lemma ignores_banned_consume_request user_id tokens now :
  ignores_banned (consume_request user_id tokens now).
Proof.
  intros s. unfold consume_request.
  rewrite !(bind_ok _ _ _ _ _ (select_user_run user_id _)).
  simpl. rewrite lookup_fmap.
  destruct (users (working s) !! user_id) as [u|]; [|reflexivity].
  simpl. rewrite has_active_plan_unban.
  destruct (has_active_plan u now).
  - apply ignores_banned_bind; [apply ignores_banned_log_usage|].
    intros _. apply ignores_banned_ret.
  - change (User.trial_left (unban u)) with (User.trial_left u).
    destruct (0 <? User.trial_left u); [|reflexivity].
    apply ignores_banned_bind2;
      [apply (store_user_unban user_id (User.set_trial_left (User.trial_left u - 1) u) s)|].
    intros _. apply ignores_banned_bind; [apply ignores_banned_log_usage|].
    intros _. apply ignores_banned_bind; [apply ignores_banned_commit|].
    intros _. apply ignores_banned_ret.
Qed.

Lemma ignores_banned_send_message trial_requests user_id now :
  ignores_banned (send_message trial_requests user_id now).
Proof.
  apply ignores_banned_bind; [apply ignores_banned_can_make_request|].
  intros can_request. destruct can_request; simpl; [|apply ignores_banned_ret].
  apply ignores_banned_bind; [apply ignores_banned_consume_request|].
  intros success. destruct success; apply ignores_banned_ret.
Qed.

Lemma ignores_banned_same {A} (m : M A) s1 s2 :
  ignores_banned m -> same_up_to_banned s1 s2 ->
  (m s1).1 = (m s2).1 /\ same_up_to_banned (m s1).2 (m s2).2.
Proof.
  intros Hm Hs. unfold same_up_to_banned in *.
  pose proof (Hm s1) as H1. pose proof (Hm s2) as H2.
  rewrite Hs, H2 in H1. unfold lift_unban in H1.
  split; [apply (f_equal fst) in H1 | apply (f_equal snd) in H1];
    simpl in H1; congruence.
Qed.

Lemma log_usage_keeps_users user_id tokens now s :
  users (working (_log_usage user_id tokens now s).2) = users (working s).
Proof.
  unfold _log_usage. step_session.
  destruct (filter _ (rows_from 0 (usage (working s)))) as [|[i row] [|]];
    reflexivity.
Qed.

Lemma flags_store_same user_id (u u' : User.t) (us : gmap Z User.t) :
  us !! user_id = Some u -> User.banned u' = User.banned u ->
  User.banned <$> <[user_id := u']> us = User.banned <$> us.
Proof.
  intros Hu Hb. rewrite fmap_insert, Hb. apply insert_id.
  now rewrite lookup_fmap, Hu.
Qed.

Lemma consume_request_keeps_flags user_id tokens now s :
  flags (working (consume_request user_id tokens now s).2) = flags (working s).
Proof.
  unfold consume_request.
  rewrite (bind_ok _ _ _ _ _ (select_user_run user_id s)).
  destruct (users (working s) !! user_id) as [u|] eqn:Hu; [|reflexivity].
  destruct (has_active_plan u now).
  - unfold bind, flags.
    pose proof (log_usage_keeps_users user_id tokens now s) as Hkeep.
    destruct (_log_usage user_id tokens now s) as [[[]|e] s']; simpl in *;
      now rewrite Hkeep.
  - destruct (0 <? User.trial_left u); [|reflexivity].
    unfold bind at 1. unfold store_user. step_session.
    set (s1 := mkState _ _ _ _).
    assert (Hs1 : flags (working s1) = flags (working s)).
    { unfold flags. subst s1. simpl. now apply (flags_store_same _ u). }
    unfold flags in *.
    pose proof (log_usage_keeps_users user_id tokens now s1) as Hkeep.
    destruct (_log_usage user_id tokens now s1) as [[[]|e] s']; simpl in *;
      now rewrite Hkeep.
Qed.

Lemma can_make_request_reads trial_requests user_id now s :
  exists b, can_make_request trial_requests user_id now s = (Ok b, s).
Proof.
  unfold can_make_request.
  destruct (get_user_quota_reads trial_requests user_id now s) as [q Hq].
  rewrite (bind_ok _ _ _ _ _ Hq). eexists. reflexivity.
Qed.

Lemma send_message_keeps_flags trial_requests user_id now s :
  flags (working (send_message trial_requests user_id now s).2) = flags (working s).
Proof.
  unfold send_message.
  destruct (can_make_request_reads trial_requests user_id now s) as [b Hb].
  rewrite (bind_ok _ _ _ _ _ Hb). destruct b; [|reflexivity]. simpl.
  pose proof (consume_request_keeps_flags user_id 1 now s) as Hkeep.
  unfold bind. destruct (consume_request user_id 1 now s) as [[[]|e] s'];
    exact Hkeep.
Qed.

(** C10: two sessions that differ only in [banned] flags get the same
    answer from [get_user_quota], [can_make_request], [consume_request]
    and the quota gate of the chat route, and are left differing only in
    [banned] flags again: every update is the same on both sides.  None of
    the four changes a flag: the first two leave the session as it is, the
    other two leave every flag of the working view as it was.  In
    particular a banned user with quota left is authorised and consumes
    quota exactly as if not banned. *)
Theorem quota_engine_ignores_banned trial_requests user_id tokens now s1 s2 :
  same_up_to_banned s1 s2 ->
  ((get_user_quota trial_requests user_id now s1).1 =
     (get_user_quota trial_requests user_id now s2).1 /\
   same_up_to_banned (get_user_quota trial_requests user_id now s1).2
     (get_user_quota trial_requests user_id now s2).2) /\
  ((can_make_request trial_requests user_id now s1).1 =
     (can_make_request trial_requests user_id now s2).1 /\
   same_up_to_banned (can_make_request trial_requests user_id now s1).2
     (can_make_request trial_requests user_id now s2).2) /\
  ((consume_request user_id tokens now s1).1 =
     (consume_request user_id tokens now s2).1 /\
   same_up_to_banned (consume_request user_id tokens now s1).2
     (consume_request user_id tokens now s2).2) /\
  ((send_message trial_requests user_id now s1).1 =
     (send_message trial_requests user_id now s2).1 /\
   same_up_to_banned (send_message trial_requests user_id now s1).2
     (send_message trial_requests user_id now s2).2) /\
  ((get_user_quota trial_requests user_id now s1).2 = s1 /\
   (can_make_request trial_requests user_id now s1).2 = s1 /\
   flags (working (consume_request user_id tokens now s1).2) = flags (working s1) /\
   flags (working (send_message trial_requests user_id now s1).2) = flags (working s1)).
Proof.
  intros Hs.
  split; [apply (ignores_banned_same _ s1 s2 (ignores_banned_get_user_quota _ _ _) Hs)|].
  split; [apply (ignores_banned_same _ s1 s2 (ignores_banned_can_make_request _ _ _) Hs)|].
  split; [apply (ignores_banned_same _ s1 s2 (ignores_banned_consume_request _ _ _) Hs)|].
  split; [apply (ignores_banned_same _ s1 s2 (ignores_banned_send_message _ _ _) Hs)|].
  split; [|split; [|split]].
  - destruct (get_user_quota_reads trial_requests user_id now s1) as [q ->]. reflexivity.
  - destruct (can_make_request_reads trial_requests user_id now s1) as [b ->]. reflexivity.
  - apply consume_request_keeps_flags.
  - apply send_message_keeps_flags.
Qed.

Lemma quota_engine_ignores_banned_witness :
  let db b := mkDB {[ 42 := User.mk 3 None None b ]} ∅ [] [] in
  (can_make_request 30 42 1710505800000000 (fresh (db true))).1 = Ok true /\
  (consume_request 42 1 1710505800000000 (fresh (db true))).1 =
    (consume_request 42 1 1710505800000000 (fresh (db false))).1 /\
  same_up_to_banned
    (consume_request 42 1 1710505800000000 (fresh (db true))).2
    (consume_request 42 1 1710505800000000 (fresh (db false))).2.
Proof.
  intros db. split; [reflexivity|].
  destruct (quota_engine_ignores_banned 30 42 1 1710505800000000
              (fresh (db true)) (fresh (db false)) eq_refl)
    as (_ & _ & Hconsume & _).
  exact Hconsume.
Defined.

(** ** Usage logging *)

Lemma rows_from_filter_snd {A} (P : A -> Prop) `{!forall x, Decision (P x)} i (l : list A) :
  (filter (fun ir => P ir.2) (rows_from i l)).*2 = filter P l.
Proof.
  revert i. induction l as [|x l IH]; intros i; [reflexivity|].
  simpl. rewrite !filter_cons. simpl.
  destruct (decide (P x)); simpl; now rewrite IH.
Qed.

Lemma rows_from_filter_nil {A} (P : A -> Prop) `{!forall x, Decision (P x)} i (l : list A) :
  filter P l = [] -> filter (fun ir => P ir.2) (rows_from i l) = [].
Proof.
  intros Hnil. apply (fmap_nil_inv snd). now rewrite rows_from_filter_snd.
Qed.

(** A query that finds exactly one row pins down where it sits. *)
Lemma rows_from_filter_single {A} (P : A -> Prop) `{!forall x, Decision (P x)}
    i (l : list A) j x :
  filter (fun ir => P ir.2) (rows_from i l) = [(j, x)] ->
  exists l1 l2, l = l1 ++ x :: l2 /\ j = (i + length l1)%nat /\
                filter P l1 = [] /\ filter P l2 = [] /\ P x.
Proof.
  revert i. induction l as [|y l IH]; intros i; [discriminate|].
  simpl. rewrite filter_cons. simpl. destruct (decide (P y)) as [Hy|Hy].
  - intros Hq. injection Hq as -> -> Hrest.
    exists [], l. simpl. repeat split; auto with lia.
    rewrite <- (rows_from_filter_snd P (S j) l), Hrest. reflexivity.
  - intros Hq. destruct (IH _ Hq) as (l1 & l2 & -> & -> & H1 & H2 & Hx).
    exists (y :: l1), l2. simpl. repeat split; auto with lia.
    now rewrite filter_cons_False.
Qed.

Lemma log_usage_run user_id tokens now s :
  _log_usage user_id tokens now s =
    match filter (fun ir => used_on user_id (date_of now) ir.2)
            (rows_from 0 (usage (working s))) with
    | [] =>
        let db := set_usage (usage (working s) ++ [Usage.mk user_id now 1 0 0 tokens])
                    (working s) in
        (Ok tt, mkState db db (db :: commits s) (logs s))
    | [(i, row)] =>
        let db := set_usage (<[i := bump tokens row]> (usage (working s))) (working s) in
        (Ok tt, mkState db db (db :: commits s) (logs s))
    | _ :: _ :: _ => (Raise MultipleResultsFound, s)
    end.
Proof.
  unfold _log_usage. step_session.
  destruct (filter _ (rows_from 0 (usage (working s)))) as [|[i row] [|]];
    reflexivity.
Qed.

(** What one logging call does to the usage table, when the key holds:
    either there was no row for today and one is appended, or the one row
    for today is bumped where it stands. *)
Lemma log_usage_effect user_id tokens now s :
  (length (filter (used_on user_id (date_of now)) (usage (working s))) <= 1)%nat ->
  exists rows,
    _log_usage user_id tokens now s =
      (Ok tt, mkState (set_usage rows (working s)) (set_usage rows (working s))
                (set_usage rows (working s) :: commits s) (logs s)) /\
    ((filter (used_on user_id (date_of now)) (usage (working s)) = [] /\
      rows = usage (working s) ++ [Usage.mk user_id now 1 0 0 tokens]) \/
     (exists l1 row l2,
        usage (working s) = l1 ++ row :: l2 /\
        filter (used_on user_id (date_of now)) l1 = [] /\
        filter (used_on user_id (date_of now)) l2 = [] /\
        used_on user_id (date_of now) row /\
        rows = l1 ++ bump tokens row :: l2)).
Proof.
  intros Hkey. rewrite log_usage_run.
  pose proof (rows_from_filter_snd (used_on user_id (date_of now)) 0%nat
                (usage (working s))) as Hsnd.
  destruct (filter (fun ir => used_on user_id (date_of now) ir.2)
              (rows_from 0 (usage (working s)))) as [|[i row] [|]] eqn:Hq.
  - eexists. split; [reflexivity|]. left. split; [|reflexivity].
    now rewrite <- Hsnd.
  - eexists. split; [reflexivity|]. right.
    destruct (rows_from_filter_single _ _ _ _ _ Hq)
      as (l1 & l2 & Hl & -> & H1 & H2 & Hrow).
    exists l1, row, l2. refine (conj Hl (conj H1 (conj H2 (conj Hrow _)))).
    rewrite Hl. replace (0 + length l1)%nat with (length l1 + 0)%nat by lia.
    now rewrite insert_app_r.
  - rewrite <- Hsnd in Hkey. simpl in Hkey. lia.
Qed.

Lemma used_on_bump user_id day tokens row :
  used_on user_id day (bump tokens row) <-> used_on user_id day row.
Proof. reflexivity. Qed.

Lemma used_on_new user_id day user_id' now tokens :
  used_on user_id day (Usage.mk user_id' now 1 0 0 tokens) <->
  user_id' = user_id /\ date_of now = day.
Proof. reflexivity. Qed.

(** One logging request, seen from the committed database. *)
Lemma log_usage_request user_id tokens now db :
  (length (usage_rows user_id (date_of now) db) <= 1)%nat ->
  exists db',
    run_request (_log_usage user_id tokens now) db = (Ok tt, db') /\
    users db' = users db /\ plans db' = plans db /\ purchases db' = purchases db /\
    usage_rows user_id (date_of now) db' =
      match usage_rows user_id (date_of now) db with
      | [] => [Usage.mk user_id now 1 0 0 tokens]
      | row :: _ => [bump tokens row]
      end /\
    (forall user_id' day', (user_id', day') <> (user_id, date_of now) ->
       usage_rows user_id' day' db' = usage_rows user_id' day' db) /\
    logged_requests user_id db' = logged_requests user_id db + 1.
Proof.
  intros Hkey. unfold run_request.
  destruct (log_usage_effect user_id tokens now (fresh db) Hkey) as (rows & Hrun & Hrows).
  rewrite Hrun. simpl. eexists. split; [reflexivity|].
  unfold usage_rows, logged_requests. simpl.
  split; [reflexivity|]. split; [reflexivity|]. split; [reflexivity|].
  simpl in Hrows.
  destruct Hrows as [[Hnone ->] | (l1 & row & l2 & Hl & H1 & H2 & Hrow & ->)].
  - rewrite Hnone. split; [|split].
    + rewrite filter_app, Hnone. simpl.
      rewrite filter_cons_True by (split; reflexivity). reflexivity.
    + intros user_id' day' Hne. rewrite filter_app.
      rewrite (filter_cons_False _ (Usage.mk _ _ _ _ _ _)); [now rewrite app_nil_r|].
      intros [Hu Hd]. simpl in Hu, Hd. congruence.
    + rewrite filter_app, fmap_app, foldr_add_app.
      rewrite filter_cons_True by reflexivity. simpl. lia.
  - rewrite Hl. split; [|split].
    + rewrite !filter_app, H1. simpl.
      rewrite !filter_cons_True by assumption. now rewrite H2.
    + intros user_id' day' Hne. rewrite !filter_app. f_equal.
      rewrite !filter_cons.
      destruct (decide (used_on user_id' day' (bump tokens row))) as [Hb|Hb];
        destruct (decide (used_on user_id' day' row)) as [Hr|Hr];
        try reflexivity; try (now destruct Hb); try (now destruct Hr).
      destruct Hr as [Hu Hd]. destruct Hrow as [Hu' Hd']. congruence.
    + rewrite !filter_app, !fmap_app, !foldr_add_app.
      destruct Hrow as [Hu _].
      rewrite !filter_cons_True by assumption. simpl. lia.
Qed.

Lemma log_usage_keeps_key user_id tokens now db :
  usage_keyed db ->
  usage_keyed (run_request (_log_usage user_id tokens now) db).2.
Proof.
  intros Hkey.
  destruct (log_usage_request user_id tokens now db (Hkey _ _))
    as (db' & -> & _ & _ & _ & Htoday & Hother & _).
  simpl. intros user_id' day'.
  destruct (decide ((user_id', day') = (user_id, date_of now))) as [Heq|Hne].
  - injection Heq as -> ->. rewrite Htoday.
    destruct (usage_rows user_id (date_of now) db); simpl; lia.
  - rewrite Hother by assumption. apply Hkey.
Qed.

Lemma sum_tokens_cons c calls : sum_tokens (c :: calls) = c.2 + sum_tokens calls.
Proof. reflexivity. Qed.

Lemma usage_row_eq u d r p c t r' t' :
  r = r' -> t = t' -> [Usage.mk u d r p c t] = [Usage.mk u d r' p c t'].
Proof. now intros -> ->. Qed.

Lemma log_calls_existing_row user_id day calls : forall db row0,
  usage_rows user_id day db = [row0] ->
  Forall (fun c => date_of c.1 = day) calls ->
  exists db',
    run_requests (log_calls user_id calls) db = (replicate (length calls) (Ok tt), db') /\
    usage_rows user_id day db' =
      [Usage.mk (Usage.user_id row0) (Usage.date row0)
         (Usage.requests row0 + Z.of_nat (length calls))
         (Usage.prompt_tokens row0) (Usage.completion_tokens row0)
         (Usage.total_tokens row0 + sum_tokens calls)] /\
    (forall user_id' day', (user_id', day') <> (user_id, day) ->
       usage_rows user_id' day' db' = usage_rows user_id' day' db).
Proof.
  induction calls as [|[now tokens] calls IH]; intros db row0 Hrow Hday.
  - exists db. split; [reflexivity|]. split; [|reflexivity].
    rewrite Hrow. destruct row0. unfold sum_tokens. simpl.
    now rewrite !Z.add_0_r.
  - apply Forall_cons in Hday as [Hnow Hday]. simpl in Hnow.
    destruct (log_usage_request user_id tokens now db)
      as (db1 & Hrun & _ & _ & _ & Htoday & Hother & _).
    { rewrite Hnow, Hrow. simpl. lia. }
    rewrite Hnow, Hrow in Htoday. rewrite Hnow in Hother.
    destruct (IH db1 (bump tokens row0) Htoday Hday) as (db' & Hruns & Hrow' & Hother').
    exists db'. split; [|split].
    + simpl. rewrite Hrun, Hruns. reflexivity.
    + rewrite Hrow', sum_tokens_cons. simpl. apply usage_row_eq; lia.
    + intros user_id' day' Hne. rewrite Hother', Hother by assumption. reflexivity.
Qed.

Lemma log_calls_first_row user_id day first rest db :
  usage_rows user_id day db = [] ->
  Forall (fun c => date_of c.1 = day) (first :: rest) ->
  exists db',
    run_requests (log_calls user_id (first :: rest)) db =
      (replicate (S (length rest)) (Ok tt), db') /\
    usage_rows user_id day db' =
      [Usage.mk user_id first.1 (Z.of_nat (S (length rest))) 0 0
         (sum_tokens (first :: rest))] /\
    (forall user_id' day', (user_id', day') <> (user_id, day) ->
       usage_rows user_id' day' db' = usage_rows user_id' day' db).
Proof.
  intros Hnone Hday. destruct first as [now tokens].
  apply Forall_cons in Hday as [Hnow Hday]. simpl in Hnow.
  destruct (log_usage_request user_id tokens now db)
    as (db1 & Hrun & _ & _ & _ & Htoday & Hother & _).
  { rewrite Hnow, Hnone. simpl. lia. }
  rewrite Hnow, Hnone in Htoday. rewrite Hnow in Hother.
  destruct (log_calls_existing_row user_id day rest db1 _ Htoday Hday)
    as (db' & Hruns & Hrow' & Hother').
  exists db'. split; [|split].
  - simpl. rewrite Hrun. simpl in Hruns. rewrite Hruns. reflexivity.
  - rewrite Hrow', sum_tokens_cons. simpl. apply usage_row_eq; lia.
  - intros user_id' day' Hne. rewrite Hother', Hother by assumption. reflexivity.
Qed.

Lemma log_calls_keep_key user_id calls : forall db,
  usage_keyed db -> usage_keyed (run_requests (log_calls user_id calls) db).2.
Proof.
  induction calls as [|[now tokens] calls IH]; intros db Hkey; [exact Hkey|].
  simpl. pose proof (log_usage_keeps_key user_id tokens now db Hkey) as Hkey1.
  destruct (run_request (_log_usage user_id tokens now) db) as [r db1].
  specialize (IH db1 Hkey1).
  destruct (run_requests (log_calls user_id calls) db1) as [rs db2]. exact IH.
Qed.

Lemma sum_tokens_take_S (calls : list (datetime * Z)) k :
  Forall (fun c => 0 <= c.2) calls ->
  sum_tokens (take k calls) <= sum_tokens (take (S k) calls).
Proof.
  intros Hpos. revert k. induction Hpos as [|c calls Hc Hpos IH]; intros k.
  - rewrite !take_nil. reflexivity.
  - destruct k as [|k].
    + rewrite take_0, !firstn_cons, take_0, sum_tokens_cons.
      change (sum_tokens []) with 0. lia.
    + specialize (IH k). rewrite !firstn_cons, !sum_tokens_cons. lia.
Qed.

(** C6: [N] logging calls for one user on one calendar day, starting from a
    table with no row for that user and day, all succeed and leave exactly
    one row for the key (user, date); after the [k]-th call its [requests]
    is [k] and its [total_tokens] the sum of the tokens logged so far, so
    [requests] never decreases, [prompt_tokens] and [completion_tokens]
    stay put and [total_tokens] never decreases as long as no call logs a
    negative token count.  A table keyed by (user, date) stays keyed.  The
    first call of the next day adds a second row with [requests = 1] and
    leaves the first row as it is. *)
Theorem one_usage_row_per_day user_id day first rest db next_now next_tokens :
  usage_rows user_id day db = [] ->
  usage_rows user_id (day + 1) db = [] ->
  Forall (fun c => date_of c.1 = day) (first :: rest) ->
  date_of next_now = day + 1 ->
  let calls := first :: rest in
  let after k := (run_requests (log_calls user_id (take k calls)) db).2 in
  let row k := Usage.mk user_id first.1 (Z.of_nat k) 0 0 (sum_tokens (take k calls)) in
  (run_requests (log_calls user_id calls) db).1 = replicate (length calls) (Ok tt) /\
  (forall k, (1 <= k <= length calls)%nat -> usage_rows user_id day (after k) = [row k]) /\
  (forall k, Usage.requests (row k) <= Usage.requests (row (S k)) /\
             Usage.prompt_tokens (row k) <= Usage.prompt_tokens (row (S k)) /\
             Usage.completion_tokens (row k) <= Usage.completion_tokens (row (S k)) /\
             (Forall (fun c => 0 <= c.2) calls ->
              Usage.total_tokens (row k) <= Usage.total_tokens (row (S k)))) /\
  (usage_keyed db -> forall k, usage_keyed (after k)) /\
  (let db' := (run_request (_log_usage user_id next_tokens next_now)
                 (after (length calls))).2 in
   usage_rows user_id (day + 1) db' = [Usage.mk user_id next_now 1 0 0 next_tokens] /\
   usage_rows user_id day db' = [row (length calls)]).
Proof.
  intros Hnone Hnext Hday Hnow calls after row.
  assert (Hprefix : forall k, (1 <= k <= length calls)%nat ->
            exists db', run_requests (log_calls user_id (take k calls)) db =
                          (replicate k (Ok tt), db') /\
                        usage_rows user_id day db' = [row k] /\
                        usage_rows user_id (day + 1) db' = []).
  { intros k Hk. destruct k as [|k]; [lia|]. subst calls. simpl in Hk.
    rewrite firstn_cons.
    destruct (log_calls_first_row user_id day first (take k rest) db Hnone)
      as (db' & Hruns & Hrow & Hother).
    { apply Forall_cons in Hday as [Hf Hr]. constructor; [exact Hf|].
      now apply Forall_take. }
    rewrite length_take_le in Hruns, Hrow by lia.
    exists db'. split; [exact Hruns|]. split.
    - rewrite Hrow. subst row. reflexivity.
    - rewrite Hother; [exact Hnext|]. intros Heq. injection Heq. lia. }
  split; [|split; [|split; [|split]]].
  - destruct (Hprefix (length calls)) as (db' & Hruns & _); [subst calls; simpl; lia|].
    rewrite firstn_all in Hruns. now rewrite Hruns.
  - intros k Hk. destruct (Hprefix k Hk) as (db' & Hruns & Hrow & _).
    subst after. simpl. now rewrite Hruns.
  - intros k. subst row. simpl. repeat split; try lia.
    apply sum_tokens_take_S.
  - intros Hkey k. apply log_calls_keep_key, Hkey.
  - destruct (Hprefix (length calls)) as (dbN & Hruns & Hrow & Hnext');
      [subst calls; simpl; lia|].
    assert (HdbN : after (length calls) = dbN) by (subst after; cbv beta; now rewrite Hruns).
    rewrite HdbN.
    destruct (log_usage_request user_id next_tokens next_now dbN)
      as (db' & Hrun & _ & _ & _ & Htoday & Hother & _).
    { rewrite Hnow, Hnext'. simpl. lia. }
    rewrite Hrun. simpl. rewrite Hnow in Htoday, Hother. rewrite Hnext' in Htoday.
    split; [exact Htoday|].
    rewrite Hother; [exact Hrow|]. intros Heq. injection Heq. lia.
Qed.

Lemma one_usage_row_per_day_witness :
  let db := mkDB {[ 7 := User.mk 30 None None false ]} ∅ [] [] in
  let calls := [(1710505800000000, 1); (1710505860000000, 1); (1710509400000000, 1)] in
  usage_rows 7 19797 (run_requests (log_calls 7 calls) db).2 =
    [Usage.mk 7 1710505800000000 3 0 0 3].
Proof.
  intros db calls.
  pose proof (one_usage_row_per_day 7 19797 (1710505800000000, 1)
                [(1710505860000000, 1); (1710509400000000, 1)] db
                1710592200000000 1) as H.
  cbv zeta in H.
  destruct H as (_ & Hrows & _).
  - reflexivity.
  - reflexivity.
  - repeat constructor.
  - reflexivity.
  - exact (Hrows 3%nat ltac:(simpl; lia)).
Defined.

(** ** Trial consumption *)

(** A logging call inside a session acts on the working view as a logging
    request acts on its database. *)
Lemma log_usage_on_state user_id tokens now s :
  _log_usage user_id tokens now s =
    match run_request (_log_usage user_id tokens now) (working s) with
    | (Ok u, db') => (Ok u, mkState db' db' (db' :: commits s) (logs s))
    | (Raise e, _) => (Raise e, s)
    end.
Proof.
  unfold run_request. rewrite !log_usage_run. simpl.
  destruct (filter _ (rows_from 0 (usage (working s)))) as [|[i row] [|]];
    reflexivity.
Qed.

Lemma has_active_plan_set_trial_left v u now :
  has_active_plan (User.set_trial_left v u) now = has_active_plan u now.
Proof. reflexivity. Qed.

(** A trial request with allotment left: the decrement and the usage row
    are committed together. *)
Lemma consume_trial_request user_id tokens now db user :
  users db !! user_id = Some user ->
  has_active_plan user now = false ->
  0 < User.trial_left user ->
  usage_keyed db ->
  exists db',
    run_request (consume_request user_id tokens now) db = (Ok true, db') /\
    users db' = <[user_id := User.set_trial_left (User.trial_left user - 1) user]> (users db) /\
    plans db' = plans db /\ purchases db' = purchases db /\
    logged_requests user_id db' = logged_requests user_id db + 1 /\
    usage_keyed db'.
Proof.
  intros Hu Hplan Htrial Hkey.
  set (db1 := set_users
          (<[user_id := User.set_trial_left (User.trial_left user - 1) user]> (users db)) db).
  assert (Hkey1 : usage_keyed db1) by exact Hkey.
  destruct (log_usage_request user_id tokens now db1 (Hkey1 _ _))
    as (db2 & Hrun & Husers & Hplans & Hpurch & _ & _ & Hlogged).
  pose proof (log_usage_keeps_key user_id tokens now db1 Hkey1) as Hkey2.
  rewrite Hrun in Hkey2. simpl in Hkey2.
  exists db2. split; [|auto].
  unfold run_request, consume_request.
  rewrite (bind_ok _ _ _ _ _ (select_user_run user_id _)). simpl.
  rewrite Hu, Hplan. apply Z.ltb_lt in Htrial. rewrite Htrial.
  unfold bind at 1. unfold store_user. step_session.
  fold db1. rewrite log_usage_on_state. simpl. rewrite Hrun. reflexivity.
Qed.

(** A trial request with nothing left changes nothing at all. *)
Lemma consume_trial_exhausted user_id tokens now s user :
  users (working s) !! user_id = Some user ->
  has_active_plan user now = false ->
  User.trial_left user <= 0 ->
  consume_request user_id tokens now s = (Ok false, s).
Proof.
  intros Hu Hplan Htrial. unfold consume_request.
  rewrite (bind_ok _ _ _ _ _ (select_user_run user_id _)).
  rewrite Hu, Hplan. apply Z.ltb_ge in Htrial. now rewrite Htrial.
Qed.

Lemma run_requests_app {A} (ops1 ops2 : list (M A)) db :
  run_requests (ops1 ++ ops2) db =
    ((run_requests ops1 db).1 ++ (run_requests ops2 (run_requests ops1 db).2).1,
     (run_requests ops2 (run_requests ops1 db).2).2).
Proof.
  revert db. induction ops1 as [|op ops1 IH]; intros db; simpl.
  - now destruct (run_requests ops2 db).
  - destruct (run_request op db) as [r db1]. rewrite IH.
    destruct (run_requests ops1 db1) as [rs1 db2]. reflexivity.
Qed.

Lemma consume_calls_trial user_id calls : forall db user,
  users db !! user_id = Some user ->
  Z.of_nat (length calls) <= User.trial_left user ->
  Forall (fun c => has_active_plan user c.1 = false) calls ->
  usage_keyed db ->
  exists db',
    run_requests (consume_calls user_id calls) db =
      (replicate (length calls) (Ok true), db') /\
    users db' !! user_id =
      Some (User.set_trial_left (User.trial_left user - Z.of_nat (length calls)) user) /\
    logged_requests user_id db' = logged_requests user_id db + Z.of_nat (length calls) /\
    usage_keyed db'.
Proof.
  induction calls as [|[now tokens] calls IH]; intros db user Hu Hlen Hplan Hkey.
  - exists db. split; [reflexivity|]. split; [|split; [simpl; lia | exact Hkey]].
    rewrite Hu. destruct user. unfold User.set_trial_left. simpl.
    now rewrite Z.sub_0_r.
  - apply Forall_cons in Hplan as [Hnow Hplan]. simpl in Hnow.
    rewrite length_cons in Hlen.
    destruct (consume_trial_request user_id tokens now db user Hu Hnow)
      as (db1 & Hrun & Husers & _ & _ & Hlogged & Hkey1); [lia | exact Hkey |].
    destruct (IH db1 (User.set_trial_left (User.trial_left user - 1) user))
      as (db' & Hruns & Hu' & Hlogged' & Hkey'); auto.
    + rewrite Husers. apply lookup_insert_eq.
    + simpl. lia.
    + exists db'. split; [|split; [|split]].
      * simpl. rewrite Hrun, Hruns. reflexivity.
      * rewrite Hu'. unfold User.set_trial_left. simpl. do 2 f_equal. lia.
      * rewrite Hlogged', Hlogged. simpl length. lia.
      * exact Hkey'.
Qed.

(** C3: a user with [trial_left = N > 0] and no active plan makes [N]
    requests one after the other.  Each returns [True]; after the [k]-th
    the allotment is [N - k] and [k] more requests are on record in the
    usage table.  The next request returns [False] and leaves the session
    as it found it, with [trial_left] at 0 and no usage logged. *)
Theorem trial_allows_exactly_n user_id user db calls last_call :
  users db !! user_id = Some user ->
  0 < User.trial_left user ->
  Z.of_nat (length calls) = User.trial_left user ->
  Forall (fun c => has_active_plan user c.1 = false) (calls ++ [last_call]) ->
  usage_keyed db ->
  let after k := (run_requests (consume_calls user_id (take k calls)) db).2 in
  (run_requests (consume_calls user_id (calls ++ [last_call])) db).1 =
    replicate (length calls) (Ok true) ++ [Ok false] /\
  (forall k, (k <= length calls)%nat ->
     users (after k) !! user_id =
       Some (User.set_trial_left (User.trial_left user - Z.of_nat k) user) /\
     logged_requests user_id (after k) = logged_requests user_id db + Z.of_nat k) /\
  (User.trial_left <$> users (after (length calls)) !! user_id) = Some 0 /\
  consume_request user_id last_call.2 last_call.1 (fresh (after (length calls))) =
    (Ok false, fresh (after (length calls))) /\
  (run_requests (consume_calls user_id (calls ++ [last_call])) db).2 =
    after (length calls).
Proof.
  intros Hu Hpos Hlen Hplan Hkey after.
  apply Forall_app in Hplan as [Hplan Hlast].
  apply Forall_inv in Hlast.
  assert (Hprefix : forall k, (k <= length calls)%nat ->
            exists db', run_requests (consume_calls user_id (take k calls)) db =
                          (replicate k (Ok true), db') /\
              users db' !! user_id =
                Some (User.set_trial_left (User.trial_left user - Z.of_nat k) user) /\
              logged_requests user_id db' = logged_requests user_id db + Z.of_nat k).
  { intros k Hk.
    destruct (consume_calls_trial user_id (take k calls) db user Hu)
      as (db' & Hruns & Hu' & Hlogged & _).
    - rewrite length_take_le by lia. lia.
    - now apply Forall_take.
    - exact Hkey.
    - rewrite length_take_le in Hruns, Hu', Hlogged by lia. eauto. }
  destruct (Hprefix (length calls)) as (dbN & Hruns & HuN & _); [lia|].
  assert (HdbN : after (length calls) = dbN) by (subst after; cbv beta; now rewrite Hruns).
  assert (Hlast_run : consume_request user_id last_call.2 last_call.1 (fresh dbN) =
                        (Ok false, fresh dbN)).
  { apply (consume_trial_exhausted user_id _ _ (fresh dbN) _ HuN);
      [exact Hlast | simpl; lia]. }
  rewrite firstn_all in Hruns.
  split; [|split; [|split; [|split]]].
  - unfold consume_calls. rewrite fmap_app, run_requests_app.
    fold (consume_calls user_id calls). rewrite Hruns. simpl.
    unfold run_request. now rewrite Hlast_run.
  - intros k Hk. destruct (Hprefix k Hk) as (db' & Hruns' & Hu' & Hlogged').
    subst after. cbv beta. rewrite Hruns'. auto.
  - rewrite HdbN, HuN. simpl. f_equal. lia.
  - rewrite HdbN. exact Hlast_run.
  - rewrite HdbN. unfold consume_calls. rewrite fmap_app, run_requests_app.
    fold (consume_calls user_id calls). rewrite Hruns. simpl.
    unfold run_request. now rewrite Hlast_run.
Qed.

Lemma trial_allows_exactly_n_witness :
  let db := mkDB {[ 7 := User.mk 2 None None false ]} ∅ [] [] in
  (run_requests (consume_calls 7
     [(1710505800000000, 1); (1710505860000000, 1); (1710505920000000, 1)]) db).1 =
  [Ok true; Ok true; Ok false].
Proof.
  intros db.
  pose proof (trial_allows_exactly_n 7 (User.mk 2 None None false) db
                [(1710505800000000, 1); (1710505860000000, 1)]
                (1710505920000000, 1)) as H.
  cbv zeta in H.
  destruct H as (Hres & _).
  - reflexivity.
  - reflexivity.
  - reflexivity.
  - repeat constructor.
  - intros u d. destruct (usage_rows u d db) eqn:E; simpl; [lia | discriminate].
  - exact Hres.
Defined.

(** ** Payment reconciliation *)

Lemma process_stars_payment_core execute_text user_id plan_name telegram_charge_id amount now :
  process_stars_payment execute_text user_id plan_name telegram_charge_id amount now =
    reconcile_core execute_text
      (idempotency_key_query (stars_key user_id plan_name telegram_charge_id))
      "Stars payment already processed" "Stars payment processed successfully"
      "Failed to activate plan after Stars payment" user_id plan_name
      (fun plan => stars_purchase user_id plan plan_name telegram_charge_id amount now) now.
Proof. reflexivity. Qed.

Lemma process_yoomoney_webhook_core execute_text verify w signature now :
  actionable verify w signature = true ->
  process_yoomoney_webhook execute_text verify w signature now =
    reconcile_core execute_text
      (yoomoney_payment_id_query (default "" (Webhook.object_id w)))
      "YooKassa payment already processed" "YooKassa payment processed successfully"
      "Failed to activate plan after YooKassa payment"
      (default 0 (Webhook.metadata_user_id w)) (default "" (Webhook.metadata_plan_name w))
      (fun plan => yoomoney_purchase (default 0 (Webhook.metadata_user_id w)) plan
                     (default "" (Webhook.metadata_plan_name w))
                     (default "" (Webhook.object_id w))
                     (default 0 (Webhook.amount_value w)) now) now.
Proof.
  unfold actionable. rewrite !andb_true_iff.
  intros ((((Hsig & Hid) & Hst) & Huid) & Hpn).
  unfold process_yoomoney_webhook. rewrite Hsig, Hid, Hst, Huid, Hpn. reflexivity.
Qed.

(** A webhook the gateway path does not act on is answered [False] with
    one log entry and nothing else. *)
Lemma process_yoomoney_webhook_skip execute_text verify w signature now s :
  actionable verify w signature = false ->
  exists entry,
    process_yoomoney_webhook execute_text verify w signature now s =
      (Ok false, add_log entry.1 entry.2 s).
Proof.
  unfold actionable, process_yoomoney_webhook. intros Hskip.
  destruct (verify w signature); [|eexists (_, _); reflexivity].
  destruct (truthy_opt_str (Webhook.object_id w)); [|eexists (_, _); reflexivity].
  destruct (bool_decide (Webhook.object_status w = Some "succeeded"));
    [|eexists (_, _); reflexivity].
  destruct (truthy_opt_int (Webhook.metadata_user_id w)); [|eexists (_, _); reflexivity].
  destruct (truthy_opt_str (Webhook.metadata_plan_name w)); [|eexists (_, _); reflexivity].
  discriminate.
Qed.

Lemma reconcile_core_run execute_text duplicate_query
    dup_msg ok_msg fail_msg user_id plan_name mk_row now s :
  reconcile_core execute_text duplicate_query dup_msg ok_msg fail_msg user_id plan_name
    mk_row now s =
    match execute_text duplicate_query (working s) with
    | Raise e => (Raise e, s)
    | Ok (_ :: _ :: _) => (Raise MultipleResultsFound, s)
    | Ok ids =>
        if truthy_opt_int (head ids) then (Ok true, add_log Info dup_msg s)
        else
          match execute_text (plan_name_query plan_name) (working s) with
          | Raise e => (Raise e, s)
          | Ok (_ :: _ :: _) => (Raise MultipleResultsFound, s)
          | Ok pids =>
              if negb (truthy_opt_int (head pids)) then
                (Ok false, add_log Error "Plan not found" s)
              else
                let plan := default 0 (head pids) in
                match users (working s) !! user_id with
                | Some user =>
                    let db' := paid (mk_row plan) user_id plan now user (working s) in
                    (Ok true,
                     mkState db' db' (db' :: db' :: commits s)
                       ((Info, ok_msg) :: (Info, "Plan activated") :: logs s))
                | None =>
                    (Ok false,
                     mkState (committed s) (committed s) (commits s)
                       ((Error, fail_msg) :: logs s))
                end
          end
    end.
Proof.
  assert (Hsettle : forall plan,
    (add_purchase (mk_row plan) ;;
     success <- activate_plan user_id plan 30 now ;;
     if success then commit ;; log Info ok_msg ;; ret true
     else rollback ;; log Error fail_msg ;; ret false) s =
    match users (working s) !! user_id with
    | Some user =>
        let db' := paid (mk_row plan) user_id plan now user (working s) in
        (Ok true,
         mkState db' db' (db' :: db' :: commits s)
           ((Info, ok_msg) :: (Info, "Plan activated") :: logs s))
    | None =>
        (Ok false,
         mkState (committed s) (committed s) (commits s) ((Error, fail_msg) :: logs s))
    end).
  { intros plan. unfold add_purchase. step_session. rewrite activate_plan_run. simpl.
    destruct (users (working s) !! user_id); reflexivity. }
  assert (Hplan :
    (plan <- execute execute_text (plan_name_query plan_name) ;;
     plan <- scalar_one_or_none plan ;;
     if negb (truthy_opt_int plan) then log Error "Plan not found" ;; ret false
     else
       let plan := default 0 plan in
       add_purchase (mk_row plan) ;;
       success <- activate_plan user_id plan 30 now ;;
       if success then commit ;; log Info ok_msg ;; ret true
       else rollback ;; log Error fail_msg ;; ret false) s =
    match execute_text (plan_name_query plan_name) (working s) with
    | Raise e => (Raise e, s)
    | Ok (_ :: _ :: _) => (Raise MultipleResultsFound, s)
    | Ok pids =>
        if negb (truthy_opt_int (head pids)) then
          (Ok false, add_log Error "Plan not found" s)
        else
          let plan := default 0 (head pids) in
          match users (working s) !! user_id with
          | Some user =>
              let db' := paid (mk_row plan) user_id plan now user (working s) in
              (Ok true,
               mkState db' db' (db' :: db' :: commits s)
                 ((Info, ok_msg) :: (Info, "Plan activated") :: logs s))
          | None =>
              (Ok false,
               mkState (committed s) (committed s) (commits s)
                 ((Error, fail_msg) :: logs s))
          end
    end).
  { unfold bind at 1. unfold execute at 1.
    destruct (execute_text (plan_name_query plan_name) (working s)) as [[|pid [|]]|e];
      [reflexivity| |reflexivity|reflexivity].
    unfold bind at 1. simpl. destruct (truthy_int pid); [apply Hsettle | reflexivity]. }
  unfold reconcile_core.
  unfold bind at 1. unfold execute at 1.
  destruct (execute_text duplicate_query (working s)) as [[|id [|]]|e];
    [| |reflexivity|reflexivity].
  - unfold bind at 1. simpl. apply Hplan.
  - unfold bind at 1. simpl. destruct (truthy_int id); [reflexivity | apply Hplan].
Qed.

(** *** Atomicity *)



(** *** Idempotency *)

Lemma next_id_pos ids : 0 < next_id ids.
Proof.
  unfold next_id. assert (0 <= foldr Z.max 0 ids); [|lia].
  induction ids as [|i ids IH]; simpl; lia.
Qed.

Lemma filter_singleton_of_elem {A} (P : A -> Prop) `{!forall x, Decision (P x)}
    (l : list A) x :
  x ∈ l -> P x -> (length (filter P l) <= 1)%nat -> filter P l = [x].
Proof.
  intros Hin HP Hlen.
  assert (Hx : x ∈ filter P l) by (apply list_elem_of_filter; auto).
  destruct (filter P l) as [|y [|z l']]; simpl in Hlen; [|
    |lia].
  - now apply elem_of_nil in Hx.
  - apply list_elem_of_singleton in Hx. now subst.
Qed.

Lemma length_filter_and {A} (P Q : A -> Prop) `{!forall x, Decision (P x)}
    `{!forall x, Decision (Q x)} (l : list A) :
  (length (filter (fun x => P x /\ Q x) l) <= length (filter P l))%nat.
Proof.
  induction l as [|x l IH]; [reflexivity|].
  rewrite !filter_cons.
  destruct (decide (P x /\ Q x)) as [[HP _]|Hn]; destruct (decide (P x)); simpl; try lia.
  contradiction.
Qed.

Lemma ledger_ok_completed db k :
  ledger_ok db -> (length (completed_for k db) <= 1)%nat.
Proof.
  intros [_ Hkey]. unfold completed_for.
  etransitivity; [apply length_filter_and | apply Hkey].
Qed.

(** With a sound ledger a purchase that carries the key is the one row
    with that key, and its id is truthy. *)
Lemma duplicate_query db k p :
  ledger_ok db -> p ∈ purchases db -> carries k p ->
  Purchase.id <$> filter (carries k) (purchases db) = [Purchase.id p] /\
  truthy_int (Purchase.id p) = true.
Proof.
  intros [Hids Hkey] Hin Hk.
  rewrite (filter_singleton_of_elem _ _ _ Hin Hk (Hkey k)). split; [reflexivity|].
  rewrite Forall_forall in Hids. specialize (Hids p Hin).
  unfold truthy_int. now destruct (Z.eqb_spec (Purchase.id p) 0).
Qed.

Lemma reconcile_core_duplicate execute_text q k dup_msg ok_msg fail_msg user_id plan_name
    mk_row now s p :
  finds execute_text q k ->
  ledger_ok (working s) -> p ∈ purchases (working s) -> carries k p ->
  reconcile_core execute_text q dup_msg ok_msg fail_msg user_id plan_name mk_row now s =
    (Ok true, add_log Info dup_msg s).
Proof.
  intros Hq Hok Hin Hk. rewrite reconcile_core_run, Hq.
  destruct (duplicate_query _ _ _ Hok Hin Hk) as [-> Hid]. simpl. now rewrite Hid.
Qed.

(** A request through the shared part keeps the ledger sound; if it
    returns [True], the key is carried by a purchase afterwards. *)
Lemma reconcile_core_ledger execute_text q k dup_msg ok_msg fail_msg user_id plan_name
    mk_row now db :
  finds execute_text q k ->
  (forall plan id, Purchase.id (mk_row plan id) = id /\
                   forall k', carries k' (mk_row plan id) <-> k' = k) ->
  ledger_ok db ->
  let r := run_request
             (reconcile_core execute_text q dup_msg ok_msg fail_msg user_id plan_name
                mk_row now)
             db in
  ledger_ok r.2 /\
  (r.1 = Ok true -> exists p, p ∈ purchases r.2 /\ carries k p).
Proof.
  intros Hfinds Hrow Hok. unfold run_request. rewrite reconcile_core_run. simpl.
  rewrite !Hfinds.
  assert (Hdup : forall id ids, Purchase.id <$> filter (carries k) (purchases db) = id :: ids ->
            truthy_int id = true /\ exists p, p ∈ purchases db /\ carries k p).
  { intros id ids Hq.
    destruct (filter (carries k) (purchases db)) as [|p ps] eqn:Hf; [discriminate|].
    injection Hq as <- _.
    assert (Hp : p ∈ filter (carries k) (purchases db)) by (rewrite Hf; left).
    apply list_elem_of_filter in Hp as [Hk Hin].
    split; [|eauto]. eapply duplicate_query; eauto. }
  assert (Hpaid : forall plan user,
    Purchase.id <$> filter (carries k) (purchases db) = [] ->
    ledger_ok (paid (mk_row plan) user_id plan now user db) /\
    exists p, p ∈ purchases (paid (mk_row plan) user_id plan now user db) /\ carries k p).
  { intros plan user Hnone. apply fmap_nil_inv in Hnone.
    destruct (Hrow plan (next_id (Purchase.id <$> purchases db))) as [Hid Hcarry].
    destruct Hok as [Hids Hkey]. unfold paid. simpl. split; [split|]; simpl.
    - apply Forall_app. split; [exact Hids|]. constructor; [|constructor].
      rewrite Hid. pose proof (next_id_pos (Purchase.id <$> purchases db)). lia.
    - intros k'. rewrite filter_app, length_app.
      rewrite filter_cons.
      destruct (decide (carries k' (mk_row plan (next_id (Purchase.id <$> purchases db)))))
        as [Hc|Hc].
      + apply Hcarry in Hc as ->. rewrite Hnone. simpl. lia.
      + simpl. specialize (Hkey k'). lia.
    - eexists. split; [apply elem_of_app; right; left|].
      now apply Hcarry. }
  destruct (Purchase.id <$> filter (carries k) (purchases db)) as [|id [|]] eqn:Hq;
    [| |split; [exact Hok | discriminate]]; simpl.
  - destruct (execute_text (plan_name_query plan_name) db) as [[|pid [|]]|e]; simpl;
      try (split; [exact Hok | discriminate]).
    destruct (truthy_int pid); simpl; [|split; [exact Hok | discriminate]].
    destruct (users db !! user_id) as [user|]; simpl;
      [|split; [exact Hok | discriminate]].
    destruct (Hpaid pid user eq_refl) as [Hok' Hp]. split; [exact Hok' | intros _; exact Hp].
  - destruct (Hdup _ _ eq_refl) as [-> Hp]. simpl. split; [exact Hok | intros _; exact Hp].
Qed.

Lemma stars_purchase_carries user_id plan plan_name telegram_charge_id amount now id k' :
  carries k' (stars_purchase user_id plan plan_name telegram_charge_id amount now id) <->
  k' = StarsKey (stars_key user_id plan_name telegram_charge_id).
Proof.
  destruct k' as [key|payment_id]; simpl;
    unfold has_idempotency_key, has_yoomoney_payment_id; simpl;
    split; intros H; try discriminate; congruence.
Qed.

Lemma yoomoney_purchase_carries user_id plan plan_name payment_id amount now id k' :
  carries k' (yoomoney_purchase user_id plan plan_name payment_id amount now id) <->
  k' = GatewayKey payment_id.
Proof.
  destruct k' as [key|payment_id']; simpl;
    unfold has_idempotency_key, has_yoomoney_payment_id; simpl;
    split; intros H; try discriminate; congruence.
Qed.

(** What was pasted without an apostrophe is read back as it is. *)
Lemma read_literal_quote_free s :
  quote_free s = true -> read_literal (s +:+ "'") = Some (s, EmptyString).
Proof.
  induction s as [|c s IH]; [reflexivity|].
  intros Hs. simpl in Hs. simpl.
  destruct (Ascii.eqb c "'"%char); [discriminate|].
  simpl in Hs. now rewrite (IH Hs).
Qed.

(** Every event with a key free of apostrophes is handled through the
    shared part under its key, or skipped. *)
Lemma process_core execute_text verify ev now :
  standard_sql execute_text ->
  quote_free (pasted_key ev) = true ->
  match event_key verify ev with
  | Some k =>
      exists q dup_msg ok_msg fail_msg user_id plan_name mk_row,
        process execute_text verify ev now =
          reconcile_core execute_text q dup_msg ok_msg fail_msg user_id plan_name mk_row now /\
        finds execute_text q k /\
        forall plan id, Purchase.id (mk_row plan id) = id /\
                        forall k', carries k' (mk_row plan id) <-> k' = k
  | None =>
      forall s, exists entry,
        process execute_text verify ev now s = (Ok false, add_log entry.1 entry.2 s)
  end.
Proof.
  intros Hstd Hplain.
  destruct ev as [user_id plan_name telegram_charge_id amount | w signature]; simpl.
  - do 7 eexists. split; [apply process_stars_payment_core|]. split.
    + intros db. apply (Hstd _ _ db (read_literal_quote_free _ Hplain)).
    + intros plan id. split; [reflexivity|]. intros k'. apply stars_purchase_carries.
  - destruct (actionable verify w signature) eqn:Hact.
    + assert (Hid : exists payment_id, Webhook.object_id w = Some payment_id).
      { unfold actionable in Hact. rewrite !andb_true_iff in Hact.
        destruct Hact as ((((_ & Hid) & _) & _) & _).
        destruct (Webhook.object_id w); [eauto | discriminate]. }
      destruct Hid as [payment_id Hid].
      pose proof (process_yoomoney_webhook_core execute_text _ _ _ now Hact) as Hcore.
      simpl in Hplain. rewrite Hid in *. simpl in *.
      do 7 eexists. split; [exact Hcore|]. split.
      * intros db. apply (Hstd _ _ db (read_literal_quote_free _ Hplain)).
      * intros plan id. split; [reflexivity|]. intros k'. apply yoomoney_purchase_carries.
    + intros s. now apply process_yoomoney_webhook_skip.
Qed.

Lemma process_ledger execute_text verify ev now db :
  standard_sql execute_text ->
  quote_free (pasted_key ev) = true ->
  ledger_ok db ->
  let r := run_request (process execute_text verify ev now) db in
  ledger_ok r.2 /\
  (r.1 = Ok true ->
   exists k p, event_key verify ev = Some k /\ p ∈ purchases r.2 /\ carries k p).
Proof.
  intros Hstd Hplain Hok.
  pose proof (process_core execute_text verify ev now Hstd Hplain) as Hcore.
  destruct (event_key verify ev) as [k|].
  - destruct Hcore
      as (q & dup_msg & ok_msg & fail_msg & user_id & plan_name & mk_row & -> & Hq & Hrow).
    destruct (reconcile_core_ledger execute_text q k dup_msg ok_msg fail_msg user_id plan_name
                mk_row now db Hq Hrow Hok) as [Hok' Hp].
    split; [exact Hok'|]. intros Htrue. destruct (Hp Htrue) as (p & Hin & Hk). eauto.
  - destruct (Hcore (fresh db)) as (entry & Hrun).
    unfold run_request. rewrite Hrun. simpl. split; [exact Hok | discriminate].
Qed.

Lemma process_duplicate execute_text verify ev now db k p :
  standard_sql execute_text ->
  quote_free (pasted_key ev) = true ->
  ledger_ok db -> event_key verify ev = Some k -> p ∈ purchases db -> carries k p ->
  exists msg,
    process execute_text verify ev now (fresh db) = (Ok true, add_log Info msg (fresh db)).
Proof.
  intros Hstd Hplain Hok Hkey Hin Hk.
  pose proof (process_core execute_text verify ev now Hstd Hplain) as Hcore.
  rewrite Hkey in Hcore.
  destruct Hcore
    as (q & dup_msg & ok_msg & fail_msg & user_id & plan_name & mk_row & -> & Hq & _).
  exists dup_msg.
  now apply (reconcile_core_duplicate execute_text q k _ _ _ _ _ _ _ (fresh db) p).
Qed.

Lemma reconcile_ledger execute_text verify evs : forall db,
  standard_sql execute_text ->
  Forall (fun e => quote_free (pasted_key e.1) = true) evs ->
  ledger_ok db -> ledger_ok (reconcile execute_text verify evs db).2.
Proof.
  unfold reconcile.
  induction evs as [|[ev now] evs IH]; intros db Hstd Hplain Hok; [exact Hok|].
  apply Forall_cons in Hplain as [Hev Hplain].
  simpl. destruct (process_ledger execute_text verify ev now db Hstd Hev Hok) as [Hok1 _].
  destruct (run_request (process execute_text verify ev now) db) as [r db1]. simpl in Hok1.
  specialize (IH db1 Hstd Hplain Hok1).
  destruct (run_requests _ db1) as [rs db2]. exact IH.
Qed.

(** *** A key with a doubled apostrophe *)

Lemma strip_prefix_app prefix s : strip_prefix prefix (prefix +:+ s) = Some s.
Proof.
  induction prefix as [|a prefix IH]; [now destruct s|].
  simpl. rewrite Ascii.eqb_refl. exact IH.
Qed.

Lemma standard_execute_standard : standard_sql standard_execute.
Proof.
  intros pasted v db Hread.
  assert (Hown : forall opening,
            compared_with opening (opening +:+ pasted +:+ "'") = Some v).
  { intros opening. unfold compared_with. rewrite strip_prefix_app. simpl. now rewrite Hread. }
  assert (Hother :
    (forall x, compared_with select_by_idempotency_key (select_by_yoomoney_payment_id +:+ x)
                 = None) /\
    (forall x, compared_with select_by_idempotency_key (select_by_plan_name +:+ x) = None) /\
    (forall x, compared_with select_by_yoomoney_payment_id (select_by_plan_name +:+ x) = None))
    by (repeat split; intros x; reflexivity).
  destruct Hother as (H12 & H13 & H23).
  unfold standard_execute, idempotency_key_query, yoomoney_payment_id_query, plan_name_query.
  rewrite !Hown, H12, H13, H23. repeat split.
Qed.

(** One request through the shared part that finds no duplicate and one
    plan: the purchase is added and the plan activated. *)
Lemma reconcile_core_settles execute_text q dup_msg ok_msg fail_msg user_id plan_name
    mk_row now db user plan :
  execute_text q db = Ok [] ->
  execute_text (plan_name_query plan_name) db = Ok [plan] ->
  plan <> 0 ->
  users db !! user_id = Some user ->
  run_request
    (reconcile_core execute_text q dup_msg ok_msg fail_msg user_id plan_name mk_row now) db =
    (Ok true, paid (mk_row plan) user_id plan now user db).
Proof.
  intros Hq Hplan Hnz Hu. unfold run_request. rewrite reconcile_core_run.
  cbn [fresh working]. rewrite Hq, Hplan, Hu. cbn [head truthy_opt_int negb default].
  unfold truthy_int. destruct (Z.eqb_spec plan 0); [contradiction|]. reflexivity.
Qed.

(** C2, as the code has it: the duplicate look-up pastes the key into the
    statement, so the database compares with what it reads between the
    apostrophes, not with the key.  When the key of an in-app payment
    contains a doubled apostrophe the two differ, the look-up never finds
    the purchase stored under the key, and every delivery of the payment
    is settled afresh: delivered twice, it returns [True] twice, leaves two
    completed purchases with the same idempotency key and activates the
    plan a second time. *)
Theorem doubled_apostrophe_settles_twice execute_text user_id plan_name telegram_charge_id
    amount now now' db user plan read_key :
  standard_sql execute_text ->
  read_literal (stars_key user_id plan_name telegram_charge_id +:+ "'") =
    Some (read_key, EmptyString) ->
  read_key <> stars_key user_id plan_name telegram_charge_id ->
  quote_free plan_name = true ->
  users db !! user_id = Some user ->
  plan_ids_named plan_name db = [plan] ->
  plan <> 0 ->
  filter (has_idempotency_key read_key) (purchases db) = [] ->
  let key := StarsKey (stars_key user_id plan_name telegram_charge_id) in
  let payment := process_stars_payment execute_text user_id plan_name telegram_charge_id amount in
  let row := stars_purchase user_id plan plan_name telegram_charge_id amount in
  exists id1 id2 db1 db2,
    run_request (payment now) db = (Ok true, db1) /\
    run_request (payment now') db1 = (Ok true, db2) /\
    purchases db2 = purchases db ++ [row now id1; row now' id2] /\
    completed_for key db2 = completed_for key db ++ [row now id1; row now' id2] /\
    users db2 !! user_id =
      Some (User.set_plan (Some plan) (Some (now' + timedelta_days 30)) user).
Proof.
  intros Hstd Hread Hdiff Hplain Hu Hplan Hnz Hnone key payment row.
  set (db1 := paid (row now) user_id plan now user db).
  set (user1 := User.set_plan (Some plan) (Some (now + timedelta_days 30)) user).
  set (db2 := paid (row now') user_id plan now' user1 db1).
  assert (Hrow : forall t id, ~ has_idempotency_key read_key (row t id)).
  { intros t id Hk. unfold has_idempotency_key in Hk. simpl in Hk. congruence. }
  assert (Hq : forall db', execute_text
                 (idempotency_key_query (stars_key user_id plan_name telegram_charge_id)) db' =
               Ok (Purchase.id <$> filter (has_idempotency_key read_key) (purchases db'))).
  { intros db'. apply (Hstd _ _ db' Hread). }
  assert (Hp : forall db', execute_text (plan_name_query plan_name) db' =
                 Ok (plan_ids_named plan_name db')).
  { intros db'. apply (Hstd _ _ db' (read_literal_quote_free _ Hplain)). }
  assert (Hnone1 : filter (has_idempotency_key read_key) (purchases db1) = []).
  { unfold db1, paid. cbn [purchases set_users set_purchases].
    rewrite filter_app, Hnone, filter_cons_False by apply Hrow. reflexivity. }
  assert (Hu1 : users db1 !! user_id = Some user1) by apply lookup_insert_eq.
  exists (next_id (Purchase.id <$> purchases db)), (next_id (Purchase.id <$> purchases db1)),
    db1, db2.
  split; [|split; [|split; [|split]]].
  - unfold payment. rewrite process_stars_payment_core.
    apply (reconcile_core_settles execute_text _ _ _ _ user_id plan_name
             (fun plan => stars_purchase user_id plan plan_name telegram_charge_id amount now)
             now db user plan); auto.
    + now rewrite Hq, Hnone.
    + now rewrite Hp, Hplan.
  - unfold payment. rewrite process_stars_payment_core.
    apply (reconcile_core_settles execute_text _ _ _ _ user_id plan_name
             (fun plan => stars_purchase user_id plan plan_name telegram_charge_id amount now')
             now' db1 user1 plan); auto.
    + now rewrite Hq, Hnone1.
    + rewrite Hp. f_equal. exact Hplan.
  - unfold db2, db1, paid. cbn [purchases set_users set_purchases].
    now rewrite <- app_assoc.
  - assert (Hc : forall t id, carries key (row t id) /\ Purchase.status (row t id) = "completed").
    { intros t id. split; reflexivity. }
    unfold completed_for, db2, db1, paid. cbn [purchases set_users set_purchases].
    rewrite !filter_app, !filter_cons_True by apply Hc.
    now rewrite <- app_assoc.
  - unfold db2, paid. cbn [users set_users set_purchases].
    rewrite lookup_insert_eq. reflexivity.
Qed.

Lemma doubled_apostrophe_settles_twice_witness :
  let db := mkDB {[ 42 := User.mk 30 None None false ]} {[ 2 := Plan.mk "Pro" 1500 ]} [] [] in
  let payment := process_stars_payment standard_execute 42 "Pro" "tg''1" 150 in
  let row := stars_purchase 42 2 "Pro" "tg''1" 150 in
  exists db1 db2,
    run_request (payment 1710505800000000) db = (Ok true, db1) /\
    run_request (payment 1710505860000000) db1 = (Ok true, db2) /\
    completed_for (StarsKey "stars_42_Pro_tg''1") db2 =
      [row 1710505800000000 1; row 1710505860000000 2].
Proof.
  intros db payment row.
  destruct (doubled_apostrophe_settles_twice standard_execute 42 "Pro" "tg''1" 150
              1710505800000000 1710505860000000 db (User.mk 30 None None false) 2
              "stars_42_Pro_tg'1")
    as (id1 & id2 & db1 & db2 & Hfirst & Hsecond & Hrows & Hdone & _).
  - exact standard_execute_standard.
  - reflexivity.
  - discriminate.
  - reflexivity.
  - reflexivity.
  - reflexivity.
  - discriminate.
  - reflexivity.
  - exists db1, db2. split; [exact Hfirst|]. split; [exact Hsecond|].
    pose proof Hfirst as Hdb1. vm_compute in Hdb1. injection Hdb1 as <-.
    pose proof Hsecond as Hdb2. vm_compute in Hdb2. injection Hdb2 as <-.
    vm_compute. reflexivity.
Defined.

(** X27: with keys that contain no apostrophe the reconciler is
    idempotent on a database with standard string literals.  Starting from
    a sound ledger, whatever such events it is fed on either channel, no
    idempotency key (composite key of an in-app payment, or gateway payment
    id) ever has more than one completed purchase.  An event that was
    processed with success is a no-op when it is delivered again: it
    reports success and the store stays as it is.  More generally an event
    whose key already has a completed purchase reports success and writes
    nothing: nothing pending, nothing committed, only a log line. *)
Theorem plain_keys_settle_once execute_text verify db :
  standard_sql execute_text ->
  ledger_ok db ->
  (forall evs k,
     Forall (fun e => quote_free (pasted_key e.1) = true) evs ->
     (length (completed_for k (reconcile execute_text verify evs db).2) <= 1)%nat) /\
  (forall ev now now' db',
     quote_free (pasted_key ev) = true ->
     run_request (process execute_text verify ev now) db = (Ok true, db') ->
     run_request (process execute_text verify ev now') db' = (Ok true, db') /\
     committed (process execute_text verify ev now' (fresh db')).2 = db' /\
     working (process execute_text verify ev now' (fresh db')).2 = db' /\
     commits (process execute_text verify ev now' (fresh db')).2 = []) /\
  (forall ev now k p,
     quote_free (pasted_key ev) = true ->
     event_key verify ev = Some k -> p ∈ purchases db -> carries k p ->
     Purchase.status p = "completed" ->
     exists msg,
       process execute_text verify ev now (fresh db) = (Ok true, add_log Info msg (fresh db))).
Proof.
  intros Hstd Hok. split; [|split].
  - intros evs k Hplain. apply ledger_ok_completed, reconcile_ledger; auto.
  - intros ev now now' db' Hplain Hrun.
    pose proof (process_ledger execute_text verify ev now db Hstd Hplain Hok) as Hled.
    rewrite Hrun in Hled. simpl in Hled. destruct Hled as [Hok' Hp].
    destruct (Hp eq_refl) as (k & p & Hkey & Hin & Hk).
    destruct (process_duplicate execute_text verify ev now' db' k p Hstd Hplain Hok' Hkey Hin Hk)
      as (msg & Hdup).
    unfold run_request. rewrite Hdup. simpl. auto.
  - intros ev now k p Hplain Hkey Hin Hk _. eapply process_duplicate; eauto.
Qed.

Lemma plain_keys_settle_once_witness :
  let verify := fun (_ : Webhook.t) (sig : string) => String.eqb sig "3f5a" in
  let db := mkDB {[ 42 := User.mk 30 None None false ]} {[ 2 := Plan.mk "Pro" 1500 ]} [] [] in
  let ev := GatewayWebhook
              (Webhook.mk (Some "pay_123") (Some "succeeded") (Some 42) (Some "Pro") (Some 799))
              "3f5a" in
  (length (completed_for (GatewayKey "pay_123")
             (reconcile standard_execute verify
                [(ev, 1710505800000000%Z); (ev, 1710505860000000%Z)] db).2) <= 1)%nat.
Proof.
  intros verify db ev.
  apply (plain_keys_settle_once standard_execute verify db).
  - exact standard_execute_standard.
  - split; [constructor|]. intros k. simpl. lia.
  - repeat constructor.
Defined.

(** * Further properties *)

(** ** More on history truncation *)

Lemma truncate_loop_fits newest_first max_tokens : forall total acc,
  total + total_cost newest_first <= max_tokens ->
  truncate_loop newest_first max_tokens total acc = rev newest_first ++ acc.
Proof.
  induction newest_first as [|m older IH]; intros total acc Hfit; [reflexivity|].
  rewrite total_cost_cons in Hfit. simpl.
  pose proof (total_cost_nonneg older).
  destruct (Z.leb_spec (total + count_tokens (Message.content m)) max_tokens); [|lia].
  rewrite IH by lia. now rewrite <- app_assoc.
Qed.

(** X1: a history whose estimated size is within the budget is returned
    whole. *)
Theorem truncate_messages_fits messages max_tokens :
  total_cost messages <= max_tokens ->
  truncate_messages messages max_tokens = messages.
Proof.
  intros Hfit. unfold truncate_messages.
  rewrite truncate_loop_fits by (rewrite total_cost_rev; lia).
  now rewrite app_nil_r, rev_involutive.
Qed.

Lemma truncate_messages_fits_witness :
  truncate_messages [Message.mk "user" [97; 97; 97; 97; 97; 97; 97; 97; 97]%N; Message.mk "assistant" [1087; 1088; 1080; 1074; 1077; 1090]%N] 5 =
    [Message.mk "user" [97; 97; 97; 97; 97; 97; 97; 97; 97]%N; Message.mk "assistant" [1087; 1088; 1080; 1074; 1077; 1090]%N].
Proof. apply truncate_messages_fits. vm_compute. discriminate. Defined.

Lemma truncate_messages_cost messages max_tokens :
  truncate_messages messages max_tokens = [] \/
  total_cost (truncate_messages messages max_tokens) <= max_tokens.
Proof.
  unfold truncate_messages.
  destruct (truncate_loop_inv (rev messages) max_tokens 0 [])
    as (kept & dropped & _ & -> & Hcost & _).
  rewrite app_nil_r, total_cost_rev.
  destruct Hcost as [->|Hle]; [left; reflexivity | right; lia].
Qed.

(** X2: truncating twice with the same budget is truncating once. *)
Theorem truncate_messages_idempotent messages max_tokens :
  truncate_messages (truncate_messages messages max_tokens) max_tokens =
    truncate_messages messages max_tokens.
Proof.
  destruct (truncate_messages_cost messages max_tokens) as [->|Hle].
  - reflexivity.
  - now apply truncate_messages_fits.
Qed.

Lemma truncate_loop_budget newest_first b b' : forall total acc,
  b <= b' ->
  exists more,
    truncate_loop newest_first b' total acc = more ++ truncate_loop newest_first b total acc.
Proof.
  induction newest_first as [|m older IH]; intros total acc Hb.
  - exists []. reflexivity.
  - simpl.
    destruct (Z.leb_spec (total + count_tokens (Message.content m)) b) as [Hfit|Hover].
    + destruct (Z.leb_spec (total + count_tokens (Message.content m)) b'); [|lia].
      now apply IH.
    + destruct (Z.leb_spec (total + count_tokens (Message.content m)) b').
      * destruct (truncate_loop_inv older b' (total + count_tokens (Message.content m))
                    (m :: acc)) as (kept & dropped & _ & -> & _).
        exists (rev kept ++ [m]). now rewrite <- app_assoc.
      * exists []. reflexivity.
Qed.

(** X3: a larger budget never drops a message that a smaller one keeps:
    the history kept under the smaller budget is a suffix of the history
    kept under the larger one. *)
Theorem truncate_messages_monotone messages b b' :
  b <= b' ->
  exists more,
    truncate_messages messages b' = more ++ truncate_messages messages b.
Proof. intros Hb. unfold truncate_messages. now apply truncate_loop_budget. Qed.

Lemma truncate_messages_monotone_witness :
  exists more,
    truncate_messages [Message.mk "user" [97; 97; 97; 97; 97; 97; 97; 97; 97]%N; Message.mk "assistant" [1087; 1088; 1080; 1074; 1077; 1090]%N;
                       Message.mk "user" [1084; 1080; 1088]%N] 5 =
    more ++ truncate_messages [Message.mk "user" [97; 97; 97; 97; 97; 97; 97; 97; 97]%N; Message.mk "assistant" [1087; 1088; 1080; 1074; 1077; 1090]%N;
                               Message.mk "user" [1084; 1080; 1088]%N] 1.
Proof. apply truncate_messages_monotone. lia. Defined.

Lemma truncate_loop_nil newest_first max_tokens total acc :
  truncate_loop newest_first max_tokens total acc = [] <->
  acc = [] /\
  match newest_first with
  | [] => True
  | m :: _ => max_tokens < total + count_tokens (Message.content m)
  end.
Proof.
  destruct newest_first as [|m older]; simpl; [tauto|].
  destruct (Z.leb_spec (total + count_tokens (Message.content m)) max_tokens) as [Hfit|Hover].
  - split.
    + intros Hnil.
      destruct (truncate_loop_inv older max_tokens (total + count_tokens (Message.content m))
                  (m :: acc)) as (kept & dropped & _ & Hrun & _).
      rewrite Hrun in Hnil. now destruct (rev kept).
    + intros [_ Hlt]. lia.
  - tauto.
Qed.

(** X4: the truncated history is empty exactly when there was no message
    or when the newest message alone does not fit the budget; in the
    latter case the message just sent is dropped with all the rest. *)
Theorem truncate_messages_empty messages max_tokens :
  truncate_messages messages max_tokens = [] <->
  match last messages with
  | None => True
  | Some newest => max_tokens < count_tokens (Message.content newest)
  end.
Proof.
  unfold truncate_messages. rewrite truncate_loop_nil.
  destruct messages as [|m ms] using rev_ind; [simpl; tauto|].
  rewrite rev_unit, last_snoc. simpl. split; [intros [_ H]; lia | intros H; split; [reflexivity | lia]].
Qed.

(** ** Trial grants *)

Lemma add_trial_requests_run user_id amount s :
  add_trial_requests user_id amount s =
    match users (working s) !! user_id with
    | Some user =>
        let db := set_users
          (<[user_id := User.set_trial_left (User.trial_left user + amount) user]>
             (users (working s))) (working s) in
        (Ok true, mkState db db (db :: commits s) ((Info, "Trial requests added") :: logs s))
    | None => (Ok false, s)
    end.
Proof.
  unfold add_trial_requests.
  rewrite (bind_ok _ _ _ _ _ (select_user_run user_id s)).
  destruct (users (working s) !! user_id); reflexivity.
Qed.

(** X5: [add_trial_requests] answers [False] for a missing user and leaves
    the store alone.  For an existing user it answers [True] and adds
    [amount] to [trial_left], changing nothing else; two grants in a row
    leave the store that one grant of the sum leaves, whatever the signs
    of the amounts (a negative amount is not refused). *)
Theorem add_trial_requests_adds user_id amount db :
  match users db !! user_id with
  | Some user =>
      run_request (add_trial_requests user_id amount) db =
        (Ok true,
         set_users (<[user_id := User.set_trial_left (User.trial_left user + amount) user]>
                      (users db)) db)
      /\ forall amount',
           run_request (add_trial_requests user_id amount')
             (run_request (add_trial_requests user_id amount) db).2 =
           run_request (add_trial_requests user_id (amount + amount')) db
  | None => run_request (add_trial_requests user_id amount) db = (Ok false, db)
  end.
Proof.
  unfold run_request. rewrite !add_trial_requests_run. simpl.
  destruct (users db !! user_id) as [user|] eqn:Hu; [|reflexivity].
  split; [reflexivity|]. intros amount'.
  rewrite !add_trial_requests_run. simpl. rewrite lookup_insert_eq, Hu. simpl.
  unfold set_users. simpl. rewrite insert_insert_eq. unfold User.set_trial_left. simpl.
  now rewrite Z.add_assoc.
Qed.

Lemma get_user_quota_trial trial_requests user_id now s user :
  users (working s) !! user_id = Some user ->
  has_active_plan user now = false ->
  exists q,
    get_user_quota trial_requests user_id now s = (Ok q, s) /\
    Quota.trial_left q = User.trial_left user /\
    Quota.remaining q = Z.max 0 (User.trial_left user) /\
    Quota.plan_name q = None /\ Quota.is_trial q = true.
Proof.
  intros Hu Hplan. unfold get_user_quota.
  rewrite (bind_ok _ _ _ _ _ (select_user_run user_id s)), Hu.
  step_session. rewrite Hplan. eexists. split; [reflexivity|]. simpl. auto.
Qed.

Lemma can_make_request_trial trial_requests user_id now s user :
  users (working s) !! user_id = Some user ->
  has_active_plan user now = false ->
  can_make_request trial_requests user_id now s = (Ok (0 <? User.trial_left user), s).
Proof.
  intros Hu Hplan.
  destruct (get_user_quota_trial trial_requests user_id now s user Hu Hplan)
    as (q & Hq & _ & Hrem & _).
  unfold can_make_request. rewrite (bind_ok _ _ _ _ _ Hq). unfold ret. rewrite Hrem.
  f_equal. f_equal. destruct (Z.ltb_spec 0 (User.trial_left user));
    destruct (Z.ltb_spec 0 (Z.max 0 (User.trial_left user))); try reflexivity; lia.
Qed.

(** X6: a grant is what the quota view shows next.  For a user without an
    active plan, after [add_trial_requests] the view reports
    [trial_left + amount] as it is, negative or not, reports [remaining]
    as that number clamped at 0, and [can_make_request] is true exactly
    when the new balance is positive. *)
Theorem grant_shows_in_quota trial_requests user_id amount now db user :
  users db !! user_id = Some user ->
  has_active_plan user now = false ->
  let db' := (run_request (add_trial_requests user_id amount) db).2 in
  (exists q,
     run_request (get_user_quota trial_requests user_id now) db' = (Ok q, db') /\
     Quota.trial_left q = User.trial_left user + amount /\
     Quota.remaining q = Z.max 0 (User.trial_left user + amount)) /\
  run_request (can_make_request trial_requests user_id now) db' =
    (Ok (0 <? User.trial_left user + amount), db').
Proof.
  intros Hu Hplan db'.
  assert (Hu' : users (working (fresh db')) !! user_id =
                Some (User.set_trial_left (User.trial_left user + amount) user)).
  { subst db'. unfold run_request. rewrite add_trial_requests_run. simpl. rewrite Hu.
    simpl. apply lookup_insert_eq. }
  split.
  - destruct (get_user_quota_trial trial_requests user_id now (fresh db') _ Hu' Hplan)
      as (q & Hq & Htl & Hrem & _).
    exists q. unfold run_request. rewrite Hq. auto.
  - unfold run_request.
    now rewrite (can_make_request_trial trial_requests user_id now (fresh db') _ Hu' Hplan).
Qed.

Lemma grant_shows_in_quota_witness :
  let db := mkDB {[ 7 := User.mk 3 None None false ]} ∅ [] [] in
  let db' := (run_request (add_trial_requests 7 (-5)) db).2 in
  run_request (can_make_request 30 7 1710505800000000) db' = (Ok false, db').
Proof.
  intros db db'.
  apply (grant_shows_in_quota 30 7 (-5) 1710505800000000 db (User.mk 3 None None false));
    reflexivity.
Defined.

(** ** Consuming a request *)

Lemma log_usage_rows user_id tokens now s :
  (length (filter (used_on user_id (date_of now)) (usage (working s))) <= 1)%nat ->
  exists rows,
    _log_usage user_id tokens now s =
      (Ok tt, mkState (set_usage rows (working s)) (set_usage rows (working s))
                (set_usage rows (working s) :: commits s) (logs s)) /\
    logged_once user_id tokens now (usage (working s)) rows.
Proof.
  intros Hkey.
  destruct (log_usage_effect user_id tokens now s Hkey) as (rows & Hrun & Hrows).
  exists rows. split; [exact Hrun|].
  destruct Hrows as [[Hnone ->] | (l1 & row & l2 & Hl & _ & _ & Hrow & ->)].
  - left. auto.
  - right. exists l1, row, l2. auto.
Qed.

(** What a request to [consume_request] does for a known user: with an
    active plan or trial allotment left it logs once and, on the trial
    path, takes one from the allotment; otherwise it changes nothing. *)
Lemma consume_request_effect user_id tokens now db user :
  users db !! user_id = Some user ->
  usage_keyed db ->
  if has_active_plan user now || (0 <? User.trial_left user) then
    exists rows,
      run_request (consume_request user_id tokens now) db =
        (Ok true,
         set_usage rows
           (if has_active_plan user now then db
            else set_users
                   (<[user_id := User.set_trial_left (User.trial_left user - 1) user]>
                      (users db)) db)) /\
      logged_once user_id tokens now (usage db) rows
  else run_request (consume_request user_id tokens now) db = (Ok false, db).
Proof.
  intros Hu Hkey. unfold run_request, consume_request.
  rewrite (bind_ok _ _ _ _ _ (select_user_run user_id _)). simpl. rewrite Hu.
  destruct (has_active_plan user now); simpl.
  - destruct (log_usage_rows user_id tokens now (fresh db) (Hkey _ _))
      as (rows & Hrun & Hrows).
    exists rows. split; [|exact Hrows].
    unfold bind. rewrite Hrun. reflexivity.
  - destruct (0 <? User.trial_left user); [|reflexivity].
    unfold bind at 1. unfold store_user. step_session.
    set (s1 := mkState _ _ _ _).
    destruct (log_usage_rows user_id tokens now s1 (Hkey _ _)) as (rows & Hrun & Hrows).
    exists rows. split; [|exact Hrows].
    rewrite Hrun. reflexivity.
Qed.

(** X7: with an unexpired plan [consume_request] always answers [True]:
    it logs the request and never looks at the plan's quota or at what
    was used, and it leaves the user row, [trial_left] included, as it
    was. *)
Theorem consume_request_on_plan_is_uncapped user_id tokens now db user :
  users db !! user_id = Some user ->
  has_active_plan user now = true ->
  usage_keyed db ->
  exists db',
    run_request (consume_request user_id tokens now) db = (Ok true, db') /\
    users db' = users db /\ plans db' = plans db /\ purchases db' = purchases db /\
    logged_requests user_id db' = logged_requests user_id db + 1.
Proof.
  intros Hu Hplan Hkey.
  destruct (log_usage_request user_id tokens now db (Hkey _ _))
    as (db' & Hrun & Husers & Hplans & Hpurch & _ & _ & Hlogged).
  exists db'. split; [|auto].
  unfold run_request, consume_request.
  rewrite (bind_ok _ _ _ _ _ (select_user_run user_id _)). simpl. rewrite Hu, Hplan.
  unfold bind. rewrite log_usage_on_state. simpl. rewrite Hrun. reflexivity.
Qed.

Lemma consume_request_on_plan_is_uncapped_witness :
  let db := mkDB {[ 42 := User.mk 0 (Some 2) (Some 1713097800000000) false ]}
                 {[ 2 := Plan.mk "Start" 1 ]}
                 [] [Usage.mk 42 1710505000000000 5 0 0 5] in
  run_request (can_make_request 30 42 1710505800000000) db = (Ok false, db) /\
  exists db',
    run_request (consume_request 42 1 1710505800000000) db = (Ok true, db') /\
    users db' = users db /\ plans db' = plans db /\ purchases db' = purchases db /\
    logged_requests 42 db' = logged_requests 42 db + 1.
Proof.
  intros db. split; [reflexivity|].
  apply (consume_request_on_plan_is_uncapped 42 1 1710505800000000 db
           (User.mk 0 (Some 2) (Some 1713097800000000) false)); [reflexivity..|].
  intros u d. unfold usage_rows. simpl. rewrite filter_cons, filter_nil.
  destruct (decide _); simpl; lia.
Defined.

(** X8: a refusal writes nothing.  Whenever [consume_request] answers
    [False], for a missing user or an exhausted trial, the session is
    exactly as it was: nothing pending, nothing committed, nothing
    logged. *)
Theorem consume_request_refusal_writes_nothing user_id tokens now s :
  (consume_request user_id tokens now s).1 = Ok false ->
  (consume_request user_id tokens now s).2 = s.
Proof.
  unfold consume_request.
  rewrite (bind_ok _ _ _ _ _ (select_user_run user_id _)).
  destruct (users (working s) !! user_id) as [user|]; [|reflexivity].
  destruct (has_active_plan user now).
  - unfold bind. destruct (_log_usage user_id tokens now s) as [[[]|e] s']; discriminate.
  - destruct (0 <? User.trial_left user); [|reflexivity].
    unfold bind at 1. unfold store_user. step_session.
    set (s1 := mkState _ _ _ _).
    destruct (_log_usage user_id tokens now s1) as [[[]|e] s']; discriminate.
Qed.

Lemma consume_request_refusal_writes_nothing_witness :
  let s := fresh (mkDB {[ 7 := User.mk 0 None None false ]} ∅ [] []) in
  (consume_request 7 1 1710505800000000 s).2 = s.
Proof.
  intros s. apply consume_request_refusal_writes_nothing. reflexivity.
Defined.

(** ** What a consumed request does to the reported figures *)

Lemma day_of_month_pos days : 1 <= day_of_month days.
Proof.
  unfold day_of_month.
  set (doy := _ - (365 * _ + _ - _)).
  assert (H : (153 * ((5 * doy + 2) `div` 153) + 2) `div` 5 < doy + 1); [|lia].
  apply Z.div_lt_upper_bound; [lia|].
  pose proof (Z.mul_div_le (5 * doy + 2) 153 ltac:(lia)). lia.
Qed.

(** Anything dated today is dated this month. *)
Lemma start_of_month_le_today now t :
  date_of t = date_of now -> start_of_month now <= t.
Proof.
  intros Hday. unfold start_of_month.
  pose proof (day_of_month_pos (date_of now)).
  rewrite <- Hday in *. unfold date_of, us_per_day in *.
  pose proof (Z.mul_div_le t 86400000000 ltac:(lia)). nia.
Qed.

Lemma sum_filter_cons {A} (f : A -> Z) (P : A -> Prop) `{!forall x, Decision (P x)} x l :
  foldr Z.add 0 (f <$> filter P (x :: l)) =
    (if decide (P x) then f x else 0) + foldr Z.add 0 (f <$> filter P l).
Proof. rewrite filter_cons. destruct (decide (P x)); reflexivity. Qed.

Lemma sum_filter_app {A} (f : A -> Z) (P : A -> Prop) `{!forall x, Decision (P x)} l1 l2 :
  foldr Z.add 0 (f <$> filter P (l1 ++ l2)) =
    foldr Z.add 0 (f <$> filter P l1) + foldr Z.add 0 (f <$> filter P l2).
Proof. now rewrite filter_app, fmap_app, foldr_add_app. Qed.

(** One logging call adds one request and [tokens] tokens to every sum
    that counts today's rows of the user and does not tell a row from its
    bumped self. *)
Lemma logged_once_sums (P : Usage.t -> Prop) `{!forall r, Decision (P r)}
    user_id tokens now old rows :
  (forall r, P (bump tokens r) <-> P r) ->
  (forall r, used_on user_id (date_of now) r -> P r) ->
  logged_once user_id tokens now old rows ->
  foldr Z.add 0 (Usage.requests <$> filter P rows) =
    foldr Z.add 0 (Usage.requests <$> filter P old) + 1 /\
  foldr Z.add 0 (Usage.total_tokens <$> filter P rows) =
    foldr Z.add 0 (Usage.total_tokens <$> filter P old) + tokens.
Proof.
  intros Hbump Htoday [[_ ->] | (l1 & row & l2 & -> & Hrow & ->)].
  - rewrite !sum_filter_app, !sum_filter_cons.
    destruct (decide (P (Usage.mk user_id now 1 0 0 tokens))) as [|Hn].
    + rewrite filter_nil. simpl. lia.
    + destruct Hn. apply Htoday. split; reflexivity.
  - rewrite !sum_filter_app, !sum_filter_cons.
    destruct (decide (P (bump tokens row))) as [|Hn];
      destruct (decide (P row)) as [|Hn'].
    + simpl. lia.
    + destruct Hn'. now apply Htoday.
    + destruct Hn. apply Hbump. now apply Htoday.
    + destruct Hn'. now apply Htoday.
Qed.

(** The quota view of a known user, field by field. *)
Lemma get_user_quota_known trial_requests user_id now s user :
  users (working s) !! user_id = Some user ->
  exists q,
    get_user_quota trial_requests user_id now s = (Ok q, s) /\
    Quota.trial_left q = User.trial_left user /\
    Quota.is_active q = has_active_plan user now /\
    Quota.monthly_quota q =
      (if has_active_plan user now
       then from_option Plan.monthly_quota 0
              (User.plan_id user ≫= (fun p => plans (working s) !! p))
       else 0) /\
    Quota.used_this_month q =
      foldr Z.add 0 (Usage.requests <$>
        filter (used_since user_id (start_of_month now)) (usage (working s))) /\
    Quota.remaining q =
      (if has_active_plan user now
       then Z.max 0 (Quota.monthly_quota q - Quota.used_this_month q)
       else Z.max 0 (User.trial_left user)).
Proof.
  intros Hu. unfold get_user_quota.
  rewrite (bind_ok _ _ _ _ _ (select_user_run user_id s)), Hu.
  step_session. eexists. split; [reflexivity|]. simpl.
  rewrite or_zero_sql_sum. auto.
Qed.

(** X9: a consumed request shows at once.  When [consume_request] answers
    [True], the quota view taken before and after at the same instant
    differs by exactly one request used this month, and [remaining] has
    gone down by exactly one if it was positive, on the plan path as on
    the trial path; a [remaining] of 0 stays 0. *)
Theorem consumed_request_lowers_remaining trial_requests user_id tokens now db db' q q' :
  usage_keyed db ->
  run_request (consume_request user_id tokens now) db = (Ok true, db') ->
  run_request (get_user_quota trial_requests user_id now) db = (Ok q, db) ->
  run_request (get_user_quota trial_requests user_id now) db' = (Ok q', db') ->
  Quota.used_this_month q' = Quota.used_this_month q + 1 /\
  Quota.remaining q' = Z.max 0 (Quota.remaining q - 1).
Proof.
  intros Hkey Hrun Hq Hq'.
  destruct (users db !! user_id) as [user|] eqn:Hu.
  2:{ unfold run_request, consume_request in Hrun.
      rewrite (bind_ok _ _ _ _ _ (select_user_run user_id _)) in Hrun.
      simpl in Hrun. rewrite Hu in Hrun. discriminate. }
  pose proof (consume_request_effect user_id tokens now db user Hu Hkey) as Heff.
  destruct (has_active_plan user now || (0 <? User.trial_left user)) eqn:Hok.
  2:{ rewrite Heff in Hrun. discriminate. }
  destruct Heff as (rows & Hrun' & Hrows). rewrite Hrun' in Hrun.
  injection Hrun as <-.
  destruct (logged_once_sums (used_since user_id (start_of_month now))
              user_id tokens now (usage db) rows) as [Hsum _]; [| |exact Hrows|].
  { intros r. reflexivity. }
  { intros r [Hr Hday]. split; [exact Hr|]. now apply start_of_month_le_today. }
  destruct (get_user_quota_known trial_requests user_id now (fresh db) user Hu)
    as (q0 & Hq0 & Htl & Hact & Hmq & Hused & Hrem).
  unfold run_request in Hq. rewrite Hq0 in Hq. injection Hq as <-.
  unfold run_request in Hq'.
  destruct (has_active_plan user now) eqn:Hplan.
  - destruct (get_user_quota_known trial_requests user_id now (fresh (set_usage rows db)) user Hu)
      as (q1 & Hq1 & Htl1 & Hact1 & Hmq1 & Hused1 & Hrem1).
    rewrite Hq1 in Hq'. injection Hq' as <-.
    rewrite Hplan in *. simpl in *.
    rewrite Hused1, Hused, Hsum. split; [reflexivity|].
    rewrite Hrem1, Hrem, Hmq1, Hmq, Hused1, Hused, Hsum. lia.
  - simpl in Hok.
    set (user' := User.set_trial_left (User.trial_left user - 1) user) in *.
    assert (Hu' : users (working (fresh (set_usage rows
               (set_users (<[user_id := user']> (users db)) db)))) !! user_id = Some user')
      by apply lookup_insert_eq.
    destruct (get_user_quota_known trial_requests user_id now _ user' Hu')
      as (q1 & Hq1 & Htl1 & Hact1 & Hmq1 & Hused1 & Hrem1).
    rewrite Hq1 in Hq'. injection Hq' as <-.
    change (has_active_plan user' now) with (has_active_plan user now) in *.
    rewrite Hplan in *. simpl in *.
    rewrite Hused1, Hused, Hsum. split; [reflexivity|].
    rewrite Hrem1, Hrem. lia.
Qed.

Lemma consumed_request_lowers_remaining_witness :
  let db := mkDB {[ 42 := User.mk 0 (Some 2) (Some 1713097800000000) false ]}
                 {[ 2 := Plan.mk "Start" 300 ]}
                 [] [Usage.mk 42 1710505000000000 5 0 0 5] in
  exists db' q q',
    run_request (consume_request 42 1 1710505800000000) db = (Ok true, db') /\
    run_request (get_user_quota 30 42 1710505800000000) db = (Ok q, db) /\
    run_request (get_user_quota 30 42 1710505800000000) db' = (Ok q', db') /\
    Quota.used_this_month q' = Quota.used_this_month q + 1 /\
    Quota.remaining q' = Z.max 0 (Quota.remaining q - 1).
Proof.
  intros db. eexists _, _, _.
  split; [reflexivity|]. split; [reflexivity|]. split; [reflexivity|].
  eapply (consumed_request_lowers_remaining 30 42 1 1710505800000000 db);
    [|reflexivity..].
  intros u d. unfold usage_rows. simpl. rewrite filter_cons, filter_nil.
  destruct (decide _); simpl; lia.
Defined.

(** ** User statistics *)

Lemma or_zero_sql_count {A} (l : list A) : or_zero (sql_count l) = Z.of_nat (length l).
Proof.
  unfold sql_count, or_zero, truthy_int.
  now destruct (Z.eqb_spec (Z.of_nat (length l)) 0) as [->|].
Qed.

Lemma get_user_stats_run user_id s :
  get_user_stats user_id s =
    (Ok (Stats.mk
           (foldr Z.add 0 (Usage.requests <$> filter (used_by user_id) (usage (working s))))
           (foldr Z.add 0 (Usage.total_tokens <$> filter (used_by user_id) (usage (working s))))
           (Z.of_nat (length (filter (completed_by user_id) (purchases (working s)))))),
     s).
Proof.
  unfold get_user_stats, bind, get_working, ret.
  now rewrite !or_zero_sql_sum, or_zero_sql_count.
Qed.

(** X10: the statistics follow consumption.  When [consume_request]
    answers [True], [get_user_stats] afterwards reports exactly one more
    request and exactly [tokens] more tokens than before, and the same
    number of completed purchases. *)
Theorem stats_follow_consumption user_id tokens now db db' st st' :
  usage_keyed db ->
  run_request (consume_request user_id tokens now) db = (Ok true, db') ->
  run_request (get_user_stats user_id) db = (Ok st, db) ->
  run_request (get_user_stats user_id) db' = (Ok st', db') ->
  Stats.total_requests st' = Stats.total_requests st + 1 /\
  Stats.total_tokens st' = Stats.total_tokens st + tokens /\
  Stats.purchases_count st' = Stats.purchases_count st.
Proof.
  intros Hkey Hrun Hst Hst'.
  unfold run_request in Hst, Hst'. rewrite get_user_stats_run in Hst, Hst'.
  injection Hst as <-. injection Hst' as <-. simpl.
  destruct (users db !! user_id) as [user|] eqn:Hu.
  2:{ unfold run_request, consume_request in Hrun.
      rewrite (bind_ok _ _ _ _ _ (select_user_run user_id _)) in Hrun.
      simpl in Hrun. rewrite Hu in Hrun. discriminate. }
  pose proof (consume_request_effect user_id tokens now db user Hu Hkey) as Heff.
  destruct (has_active_plan user now || (0 <? User.trial_left user)).
  2:{ rewrite Heff in Hrun. discriminate. }
  destruct Heff as (rows & Hrun' & Hrows). rewrite Hrun' in Hrun.
  injection Hrun as <-.
  destruct (logged_once_sums (used_by user_id) user_id tokens now (usage db) rows)
    as [Hreq Htok]; [| |exact Hrows|].
  { intros r. reflexivity. }
  { intros r [Hr _]. exact Hr. }
  destruct (has_active_plan user now); simpl; auto.
Qed.

Lemma stats_follow_consumption_witness :
  let db := mkDB {[ 7 := User.mk 3 None None false ]} ∅ []
                 [Usage.mk 7 1710505000000000 5 0 0 9] in
  exists db' st st',
    run_request (consume_request 7 4 1710505800000000) db = (Ok true, db') /\
    run_request (get_user_stats 7) db = (Ok st, db) /\
    run_request (get_user_stats 7) db' = (Ok st', db') /\
    Stats.total_requests st' = Stats.total_requests st + 1 /\
    Stats.total_tokens st' = Stats.total_tokens st + 4 /\
    Stats.purchases_count st' = Stats.purchases_count st.
Proof.
  intros db. eexists _, _, _.
  split; [reflexivity|]. split; [reflexivity|]. split; [reflexivity|].
  eapply (stats_follow_consumption 7 4 1710505800000000 db); [|reflexivity..].
  intros u d. unfold usage_rows. simpl. rewrite filter_cons, filter_nil.
  destruct (decide _); simpl; lia.
Defined.

Lemma sum_filter_le {A} (f : A -> Z) (P Q : A -> Prop)
    `{!forall x, Decision (P x)} `{!forall x, Decision (Q x)} (l : list A) :
  (forall x, P x -> Q x) ->
  Forall (fun x => Q x -> 0 <= f x) l ->
  foldr Z.add 0 (f <$> filter P l) <= foldr Z.add 0 (f <$> filter Q l).
Proof.
  intros Hsub Hpos. induction Hpos as [|x l Hx Hpos IH]; [reflexivity|].
  rewrite !sum_filter_cons.
  destruct (decide (P x)) as [HP|HP]; destruct (decide (Q x)) as [HQ|HQ]; try lia.
  - destruct HQ. now apply Hsub.
  - specialize (Hx HQ). lia.
Qed.

Lemma Forall_filter_guarded {A} (f : A -> Z) (P Q : A -> Prop)
    `{!forall x, Decision (Q x)} (l : list A) :
  (forall x, Q x -> P x) ->
  Forall (fun x => P x -> 0 <= f x) l ->
  Forall (fun x => 0 <= f x) (filter Q l).
Proof.
  intros Hsub Hpos. induction Hpos as [|x l Hx Hpos IH]; [constructor|].
  rewrite filter_cons. destruct (decide (Q x)); [constructor|]; auto.
Qed.

(** X11: the month never exceeds the total.  If no usage row of the user
    has a negative request count, the [used_this_month] of the quota view
    is at most the [total_requests] of the statistics, for a known user
    and for an unknown one. *)
Theorem month_usage_within_total trial_requests user_id now db q st :
  Forall (fun r => Usage.user_id r = user_id -> 0 <= Usage.requests r) (usage db) ->
  run_request (get_user_quota trial_requests user_id now) db = (Ok q, db) ->
  run_request (get_user_stats user_id) db = (Ok st, db) ->
  0 <= Quota.used_this_month q <= Stats.total_requests st.
Proof.
  intros Hpos Hq Hst.
  unfold run_request in Hst. rewrite get_user_stats_run in Hst. injection Hst as <-. simpl.
  assert (Htotal : 0 <= foldr Z.add 0 (Usage.requests <$> filter (used_by user_id) (usage db))).
  { apply foldr_add_nonneg, Forall_fmap.
    apply (Forall_filter_guarded Usage.requests (fun r => Usage.user_id r = user_id));
      [intros r Hr; exact Hr | exact Hpos]. }
  assert (Hmonth : forall start,
    0 <= foldr Z.add 0 (Usage.requests <$> filter (used_since user_id start) (usage db))
      <= foldr Z.add 0 (Usage.requests <$> filter (used_by user_id) (usage db))).
  { intros start. split.
    - apply foldr_add_nonneg, Forall_fmap.
      apply (Forall_filter_guarded Usage.requests (fun r => Usage.user_id r = user_id));
        [intros r [Hr _]; exact Hr | exact Hpos].
    - apply sum_filter_le; [intros r [Hr _]; exact Hr | exact Hpos]. }
  unfold run_request in Hq.
  destruct (users db !! user_id) as [user|] eqn:Hu.
  - destruct (get_user_quota_known trial_requests user_id now (fresh db) user Hu)
      as (q0 & Hq0 & _ & _ & _ & Hused & _).
    rewrite Hq0 in Hq. injection Hq as <-. rewrite Hused. apply Hmonth.
  - unfold get_user_quota in Hq.
    rewrite (bind_ok _ _ _ _ _ (select_user_run user_id _)) in Hq. simpl in Hq.
    rewrite Hu in Hq. injection Hq as <-. simpl. lia.
Qed.

Lemma month_usage_within_total_witness :
  let db := mkDB {[ 7 := User.mk 3 None None false ]} ∅ []
                 [Usage.mk 7 1700000000000000 5 0 0 9; Usage.mk 7 1710505000000000 2 0 0 2] in
  exists q st,
    run_request (get_user_quota 30 7 1710505800000000) db = (Ok q, db) /\
    run_request (get_user_stats 7) db = (Ok st, db) /\
    Quota.used_this_month q = 2 /\ Stats.total_requests st = 7 /\
    0 <= Quota.used_this_month q <= Stats.total_requests st.
Proof.
  intros db. eexists _, _.
  split; [reflexivity|]. split; [reflexivity|].
  split; [reflexivity|]. split; [reflexivity|].
  eapply (month_usage_within_total 30 7 1710505800000000 db); [|reflexivity..].
  repeat constructor; simpl; lia.
Defined.

(** ** Banning *)

Lemma run_request_fst {A} (op : M A) db : (run_request op db).1 = (op (fresh db)).1.
Proof. unfold run_request. now destruct (op (fresh db)). Qed.

Lemma ban_user_run user_id s :
  ban_user user_id s =
    match users (working s) !! user_id with
    | Some user =>
        let db := set_users (<[user_id := User.set_banned true user]> (users (working s)))
                    (working s) in
        (Ok (Json200 "User banned"), mkState db db (db :: commits s) (logs s))
    | None => (Ok (HTTPException 404 "User not found"), s)
    end.
Proof.
  unfold ban_user. rewrite (bind_ok _ _ _ _ _ (select_user_run user_id s)).
  destruct (users (working s) !! user_id); reflexivity.
Qed.

Lemma unban_user_run user_id s :
  unban_user user_id s =
    match users (working s) !! user_id with
    | Some user =>
        let db := set_users (<[user_id := User.set_banned false user]> (users (working s)))
                    (working s) in
        (Ok (Json200 "User unbanned"), mkState db db (db :: commits s) (logs s))
    | None => (Ok (HTTPException 404 "User not found"), s)
    end.
Proof.
  unfold unban_user. rewrite (bind_ok _ _ _ _ _ (select_user_run user_id s)).
  destruct (users (working s) !! user_id); reflexivity.
Qed.

Lemma unban_db_set_banned flag user_id user db :
  users db !! user_id = Some user ->
  unban_db (set_users (<[user_id := User.set_banned flag user]> (users db)) db) = unban_db db.
Proof.
  intros Hu. unfold unban_db, set_users. simpl. f_equal.
  rewrite fmap_insert. apply insert_id. now rewrite lookup_fmap, Hu.
Qed.

(** X12: a ban does not close the quota gate.  [ban_user] on an existing
    user answers 200 and sets the flag, and afterwards [get_user_quota],
    [can_make_request], [consume_request] and the quota gate of the chat
    route answer exactly what they would have answered without the ban. *)
Theorem ban_does_not_block trial_requests user_id tokens now db user :
  users db !! user_id = Some user ->
  let db' := (run_request (ban_user user_id) db).2 in
  run_request (ban_user user_id) db = (Ok (Json200 "User banned"), db') /\
  (User.banned <$> users db' !! user_id) = Some true /\
  (run_request (get_user_quota trial_requests user_id now) db').1 =
    (run_request (get_user_quota trial_requests user_id now) db).1 /\
  (run_request (can_make_request trial_requests user_id now) db').1 =
    (run_request (can_make_request trial_requests user_id now) db).1 /\
  (run_request (consume_request user_id tokens now) db').1 =
    (run_request (consume_request user_id tokens now) db).1 /\
  (run_request (send_message trial_requests user_id now) db').1 =
    (run_request (send_message trial_requests user_id now) db).1.
Proof.
  intros Hu db'.
  assert (Hdb' : db' = set_users (<[user_id := User.set_banned true user]> (users db)) db).
  { subst db'. unfold run_request. rewrite ban_user_run. simpl.
    now rewrite Hu. }
  assert (Hsame : same_up_to_banned (fresh db') (fresh db)).
  { unfold same_up_to_banned, unban_state. simpl.
    now rewrite Hdb', unban_db_set_banned. }
  split; [|split].
  - unfold run_request at 1. rewrite ban_user_run. simpl. rewrite Hu.
    simpl. now rewrite Hdb'.
  - rewrite Hdb'. simpl. now rewrite lookup_insert_eq.
  - rewrite !run_request_fst.
    split; [apply (ignores_banned_same _ _ _ (ignores_banned_get_user_quota _ _ _) Hsame)|].
    split; [apply (ignores_banned_same _ _ _ (ignores_banned_can_make_request _ _ _) Hsame)|].
    split; [apply (ignores_banned_same _ _ _ (ignores_banned_consume_request _ _ _) Hsame)|].
    apply (ignores_banned_same _ _ _ (ignores_banned_send_message _ _ _) Hsame).
Qed.

Lemma ban_does_not_block_witness :
  let db := mkDB {[ 42 := User.mk 3 None None false ]} ∅ [] [] in
  let db' := (run_request (ban_user 42) db).2 in
  (User.banned <$> users db' !! 42) = Some true /\
  (run_request (send_message 30 42 1710505800000000) db').1 = Ok None.
Proof.
  intros db db'.
  destruct (ban_does_not_block 30 42 1 1710505800000000 db (User.mk 3 None None false)
              eq_refl) as (_ & Hflag & _ & _ & _ & Hsend).
  split; [exact Hflag|]. etransitivity; [exact Hsend | reflexivity].
Defined.

(** X13: [ban_user] and [unban_user] answer 404 for a missing user and
    leave the store alone; for an existing user they write the flag and
    nothing else, the later of two calls wins, and a ban followed by an
    unban gives back the store of a user who was not banned. *)
Theorem ban_unban_compose user_id db :
  match users db !! user_id with
  | Some user =>
      run_request (ban_user user_id) db =
        (Ok (Json200 "User banned"),
         set_users (<[user_id := User.set_banned true user]> (users db)) db) /\
      run_request (unban_user user_id) db =
        (Ok (Json200 "User unbanned"),
         set_users (<[user_id := User.set_banned false user]> (users db)) db) /\
      run_request (unban_user user_id) (run_request (ban_user user_id) db).2 =
        run_request (unban_user user_id) db /\
      run_request (ban_user user_id) (run_request (ban_user user_id) db).2 =
        run_request (ban_user user_id) db /\
      (User.banned user = false ->
       (run_request (unban_user user_id) (run_request (ban_user user_id) db).2).2 = db)
  | None =>
      run_request (ban_user user_id) db = (Ok (HTTPException 404 "User not found"), db) /\
      run_request (unban_user user_id) db = (Ok (HTTPException 404 "User not found"), db)
  end.
Proof.
  unfold run_request.
  rewrite !ban_user_run, !unban_user_run. simpl.
  destruct (users db !! user_id) as [user|] eqn:Hu; [|split; reflexivity].
  simpl. rewrite ?ban_user_run, ?unban_user_run. simpl.
  rewrite ?lookup_insert_eq. simpl. unfold set_users. simpl.
  rewrite ?insert_insert_eq.
  split; [reflexivity|]. split; [reflexivity|]. split; [reflexivity|].
  split; [reflexivity|].
  intros Hb. destruct db as [us ps pu ug]. simpl in *. f_equal.
  apply insert_id. rewrite Hu. destruct user. simpl in Hb. now subst.
Qed.

(** ** Activation seen through the quota view *)

(** X14: the window of an activation as the quota view shows it.  After
    [activate_plan] at [t0] for [duration_days], the view at [now]
    reports [plan_until = t0 + duration_days] and reports the plan as
    active exactly when [plan_id] is not 0 and [now] is strictly before
    that instant.  While it is active, [remaining] is the plan's monthly
    quota less what was used this month, clamped at 0, whatever trial
    allotment the user has; a plan id without a plan row counts as a
    quota of 0. *)
Theorem activation_window_in_quota trial_requests user_id plan_id duration_days t0 now db user :
  users db !! user_id = Some user ->
  let db' := (run_request (activate_plan user_id plan_id duration_days t0) db).2 in
  exists q,
    run_request (get_user_quota trial_requests user_id now) db' = (Ok q, db') /\
    Quota.plan_until q = Some (t0 + timedelta_days duration_days) /\
    Quota.is_active q =
      truthy_int plan_id && (now <? t0 + timedelta_days duration_days) /\
    Quota.is_trial q = negb (Quota.is_active q) /\
    (Quota.is_active q = true ->
     Quota.plan_name q = (Plan.name <$> plans db !! plan_id) /\
     Quota.monthly_quota q = from_option Plan.monthly_quota 0 (plans db !! plan_id) /\
     Quota.remaining q = Z.max 0 (Quota.monthly_quota q - Quota.used_this_month q)).
Proof.
  intros Hu db'.
  assert (Hdb' : db' = set_users
            (<[user_id := User.set_plan (Some plan_id)
                            (Some (t0 + timedelta_days duration_days)) user]> (users db)) db).
  { subst db'. unfold run_request. rewrite activate_plan_run. simpl. now rewrite Hu. }
  rewrite Hdb'. unfold run_request, get_user_quota.
  rewrite (bind_ok _ _ _ _ _ (select_user_run user_id _)). simpl.
  rewrite lookup_insert_eq. step_session.
  eexists. split; [reflexivity|]. simpl.
  split; [reflexivity|]. split; [reflexivity|]. split; [reflexivity|].
  intros Hact. unfold has_active_plan in *. simpl in *. rewrite Hact. auto.
Qed.

Lemma activation_window_in_quota_witness :
  let db := mkDB {[ 42 := User.mk 30 None None false ]} {[ 2 := Plan.mk "Pro" 1500 ]} [] [] in
  let db' := (run_request (activate_plan 42 2 30 1710505800000000) db).2 in
  exists q,
    run_request (get_user_quota 30 42 1713097800000000) db' = (Ok q, db') /\
    Quota.plan_until q = Some 1713097800000000 /\
    Quota.is_active q = false.
Proof.
  intros db db'.
  destruct (activation_window_in_quota 30 42 2 30 1710505800000000 1713097800000000 db
              (User.mk 30 None None false) eq_refl) as (q & Hq & Huntil & Hact & _).
  exists q. split; [exact Hq|]. split; [exact Huntil|]. exact Hact.
Defined.

(** ** Revenue windows *)

Lemma revenue_sum (P : Purchase.t -> Prop) `{!forall p, Decision (P p)} db :
  revenue P db = foldr Z.add 0 (Purchase.amount <$> filter P (purchases db)).
Proof. unfold revenue. apply or_zero_sql_sum. Qed.

Lemma date_of_bounds t : date_of t * us_per_day <= t < (date_of t + 1) * us_per_day.
Proof.
  unfold date_of, us_per_day.
  pose proof (Z.div_mod t 86400000000 ltac:(lia)).
  pose proof (Z.mod_pos_bound t 86400000000 ltac:(lia)). lia.
Qed.

Lemma completed_on_since now d p :
  1 <= d -> completed_on (date_of now) p -> completed_since (now - timedelta_days d) p.
Proof.
  unfold completed_on, completed_since. intros Hd [Hst Hday]. split; [exact Hst|].
  destruct (Purchase.completed_at p) as [t|]; [|exact Hday].
  pose proof (date_of_bounds t). pose proof (date_of_bounds now).
  rewrite Hday in *. unfold timedelta_days, us_per_day in *. nia.
Qed.

Lemma completed_since_earlier since since' p :
  since' <= since -> completed_since since p -> completed_since since' p.
Proof.
  unfold completed_since. intros Hle [Hst Ht]. split; [exact Hst|].
  destruct (Purchase.completed_at p); [lia | exact Ht].
Qed.

(** X15: the revenue windows nest.  If no completed purchase has a
    negative amount, [get_revenue_stats] reports
    [0 <= revenue_today <= revenue_week <= revenue_month <= total_revenue]:
    what was completed on today's date lies within the last 7 days, that
    within the last 30, and all of it within the total. *)
Theorem revenue_windows_nest now db rs :
  Forall (fun p => Purchase.status p = "completed" -> 0 <= Purchase.amount p) (purchases db) ->
  run_request (get_revenue_stats now) db = (Ok rs, db) ->
  0 <= RevenueStats.revenue_today rs /\
  RevenueStats.revenue_today rs <= RevenueStats.revenue_week rs /\
  RevenueStats.revenue_week rs <= RevenueStats.revenue_month rs /\
  RevenueStats.revenue_month rs <= RevenueStats.total_revenue rs.
Proof.
  intros Hpos Hrun. unfold run_request, get_revenue_stats in Hrun.
  unfold bind, get_working, ret in Hrun. simpl in Hrun. injection Hrun as <-. simpl.
  rewrite !revenue_sum.
  assert (Hweek : Forall (fun p => completed_since (now - timedelta_days 7) p ->
                                   0 <= Purchase.amount p) (purchases db)).
  { eapply Forall_impl; [exact Hpos|]. intros p Hp [Hst _]. auto. }
  assert (Hmonth : Forall (fun p => completed_since (now - timedelta_days 30) p ->
                                    0 <= Purchase.amount p) (purchases db)).
  { eapply Forall_impl; [exact Hpos|]. intros p Hp [Hst _]. auto. }
  split; [|split; [|split]].
  - apply foldr_add_nonneg, Forall_fmap.
    apply (Forall_filter_guarded Purchase.amount
             (fun p => Purchase.status p = "completed")); [|exact Hpos].
    intros p [Hst _]. exact Hst.
  - apply sum_filter_le; [|exact Hweek].
    intros p. apply completed_on_since. lia.
  - apply sum_filter_le; [|exact Hmonth].
    intros p. apply completed_since_earlier. unfold timedelta_days, us_per_day. lia.
  - apply sum_filter_le; [|exact Hpos].
    intros p [Hst _]. exact Hst.
Qed.

Lemma revenue_windows_nest_witness :
  let row id amount at_ :=
    Purchase.mk id 42 2 "yoomoney" "completed" amount "RUB"
      (Payload.mk None None None None) (Some at_) in
  let db := mkDB ∅ ∅ [row 1 799 1710505000000000; row 2 299 1710000000000000;
                      row 3 99 1708000000000000; row 4 1999 1700000000000000] [] in
  exists rs,
    run_request (get_revenue_stats 1710505800000000) db = (Ok rs, db) /\
    rs = RevenueStats.mk 3196 799 1098 1197 /\
    0 <= RevenueStats.revenue_today rs /\
    RevenueStats.revenue_today rs <= RevenueStats.revenue_week rs /\
    RevenueStats.revenue_week rs <= RevenueStats.revenue_month rs /\
    RevenueStats.revenue_month rs <= RevenueStats.total_revenue rs.
Proof.
  intros row db. eexists. split; [reflexivity|]. split; [reflexivity|].
  eapply (revenue_windows_nest 1710505800000000 db); [|reflexivity].
  repeat constructor; simpl; lia.
Defined.

(** ** Promo codes *)

Lemma length_filter_key {A B} (f : A -> B) `{!EqDecision B} (b : B) (l : list A) :
  NoDup (f <$> l) -> (length (filter (fun x => f x = b) l) <= 1)%nat.
Proof.
  induction l as [|x l IH]; [simpl; lia|].
  rewrite fmap_cons. intros [Hx Hl]%NoDup_cons. specialize (IH Hl).
  rewrite filter_cons. destruct (decide (f x = b)) as [<-|]; [|exact IH].
  assert (Hnone : filter (fun y => f y = f x) l = []).
  { destruct (filter (fun y => f y = f x) l) as [|y l'] eqn:Hf; [reflexivity|].
    assert (Hy : y ∈ filter (fun y => f y = f x) l) by (rewrite Hf; left).
    apply list_elem_of_filter in Hy as [Hfy Hin]. destruct Hx.
    rewrite <- Hfy. apply list_elem_of_fmap. eauto. }
  rewrite Hnone. simpl. lia.
Qed.

Lemma promo_named_at_most_one code (table : list Promo.t) :
  NoDup (Promo.code <$> table) -> (length (filter (promo_named code) table) <= 1)%nat.
Proof.
  intros Hcodes. etransitivity; [|apply (length_filter_key Promo.code code table Hcodes)].
  apply (length_filter_and (fun p => Promo.code p = code)
           (fun p => Promo.is_active p = true)).
Qed.

Lemma validate_promo_run code now s :
  validate_promo code now s =
    match filter (promo_named code) (pending s) with
    | [] => (Ok None, s)
    | [p] =>
        (Ok (if promo_expired now p then None
             else if Promo.max_uses p <=? Promo.used p then None
             else Some (promo_view p)), s)
    | _ :: _ :: _ => (Raise MultipleResultsFound, s)
    end.
Proof.
  unfold validate_promo, tbind, tget.
  destruct (filter (promo_named code) (pending s)) as [|p [|]]; simpl; [reflexivity| |reflexivity].
  destruct (promo_expired now p); [reflexivity|].
  destruct (Promo.max_uses p <=? Promo.used p); reflexivity.
Qed.

Lemma redeemable_view now p :
  (if promo_expired now p then None
   else if Promo.max_uses p <=? Promo.used p then None
   else Some (promo_view p)) =
  (if decide (promo_expired now p = false /\ Promo.used p < Promo.max_uses p)
   then Some (promo_view p) else None).
Proof.
  destruct (promo_expired now p); [now destruct (decide _) as [[? _]|]|].
  destruct (Z.leb_spec (Promo.max_uses p) (Promo.used p));
    destruct (decide _) as [[_ ?]|Hn]; try reflexivity; lia.
Qed.

(** X16: [validate_promo] only reads, and with unique codes it accepts a
    code exactly when the table holds a promo with that code that is
    active, not past its [until], and used fewer than [max_uses] times;
    what it returns is the view of that promo. *)
Theorem validate_promo_accepts code now table :
  NoDup (Promo.code <$> table) ->
  (trun_request (validate_promo code now) table).2 = table /\
  forall view,
    (trun_request (validate_promo code now) table).1 = Ok (Some view) <->
    exists p, p ∈ table /\ Promo.code p = code /\ redeemable now p /\ view = promo_view p.
Proof.
  intros Hcodes. unfold trun_request. rewrite validate_promo_run. simpl.
  pose proof (promo_named_at_most_one code table Hcodes) as Hlen.
  destruct (filter (promo_named code) table) as [|p [|]] eqn:Hf;
    [| |simpl in Hlen; lia]; simpl.
  - split; [reflexivity|]. intros view. split; [discriminate|].
    intros (p & Hin & Hcode & (Hact & _) & _).
    assert (Hp : p ∈ filter (promo_named code) table)
      by (apply list_elem_of_filter; split; [split|]; assumption).
    rewrite Hf in Hp. now apply elem_of_nil in Hp.
  - split; [reflexivity|]. intros view.
    assert (Hp : p ∈ filter (promo_named code) table) by (rewrite Hf; left).
    apply list_elem_of_filter in Hp as [[Hcode Hact] Hin].
    rewrite redeemable_view. split.
    + destruct (decide _) as [[Hexp Hused]|]; [|discriminate].
      intros [= <-]. exists p. unfold redeemable. repeat split; assumption.
    + intros (p' & Hin' & Hcode' & (Hact' & Hexp' & Hused') & ->).
      assert (Hp' : p' ∈ filter (promo_named code) table)
        by (apply list_elem_of_filter; split; [split|]; assumption).
      rewrite Hf in Hp'. apply list_elem_of_singleton in Hp' as ->.
      destruct (decide _) as [|Hn]; [reflexivity|]. destruct Hn. split; assumption.
Qed.

Lemma validate_promo_accepts_witness :
  let table := [Promo.mk 1 "SPRING" 20 0 (Some 1713097800000000) 2 1 true;
                Promo.mk 2 "OLD" 50 0 (Some 1700000000000000) 5 0 true] in
  (trun_request (validate_promo "SPRING" 1710505800000000) table).1 =
    Ok (Some (PromoView.mk 1 "SPRING" 20 0 2 1)) /\
  (trun_request (validate_promo "SPRING" 1710505800000000) table).2 = table.
Proof.
  intros table. split; [reflexivity|].
  apply (validate_promo_accepts "SPRING" 1710505800000000 table).
  apply (bool_decide_unpack _). vm_compute. exact I.
Defined.

Lemma rows_from_app {A} (l1 l2 : list A) i :
  rows_from i (l1 ++ l2) = rows_from i l1 ++ rows_from (i + length l1) l2.
Proof.
  revert i. induction l1 as [|x l1 IH]; intros i; simpl.
  - now rewrite Nat.add_0_r.
  - rewrite IH. do 3 f_equal. lia.
Qed.

Lemma filter_key_nil {A B} (f : A -> B) `{!EqDecision B} (b : B) (l : list A) :
  b ∉ f <$> l -> filter (fun x => f x = b) l = [].
Proof.
  intros Hb. induction l as [|x l IH]; [reflexivity|].
  rewrite fmap_cons in Hb. apply not_elem_of_cons in Hb as [Hx Hl].
  rewrite filter_cons_False by congruence. now apply IH.
Qed.

Lemma NoDup_key_middle {A B} (f : A -> B) `{!EqDecision B} (l1 l2 : list A) x :
  NoDup (f <$> l1 ++ x :: l2) ->
  filter (fun y => f y = f x) l1 = [] /\ filter (fun y => f y = f x) l2 = [].
Proof.
  rewrite fmap_app, fmap_cons. intros (_ & Hdisj & Hr)%NoDup_app.
  apply NoDup_cons in Hr as [Hx2 _]. split; apply filter_key_nil; [|exact Hx2].
  intros Hx1. apply (Hdisj _ Hx1). left.
Qed.

Lemma apply_promo_run promo_id s :
  apply_promo promo_id s =
    match filter (fun ir => promo_with_id promo_id ir.2) (rows_from 0 (pending s)) with
    | [] => (Ok false, s)
    | [(i, p)] =>
        let table := <[i := Promo.set_used (Promo.used p + 1) p]> (pending s) in
        (Ok true, mkTxn table table)
    | _ :: _ :: _ => (Raise MultipleResultsFound, s)
    end.
Proof.
  unfold apply_promo, tbind, tget.
  destruct (filter _ (rows_from 0 (pending s))) as [|[i p] [|]]; reflexivity.
Qed.

(** Redeeming the promo that sits between [l1] and [l2]. *)
Lemma apply_promo_at l1 p l2 st :
  NoDup (Promo.id <$> l1 ++ p :: l2) ->
  apply_promo (Promo.id p) (mkTxn st (l1 ++ p :: l2)) =
    (Ok true,
     mkTxn (l1 ++ Promo.set_used (Promo.used p + 1) p :: l2)
           (l1 ++ Promo.set_used (Promo.used p + 1) p :: l2)).
Proof.
  intros Hids.
  assert (H1 : filter (promo_with_id (Promo.id p)) l1 = [])
    by apply (NoDup_key_middle Promo.id l1 l2 p Hids).
  assert (H2 : filter (promo_with_id (Promo.id p)) l2 = [])
    by apply (NoDup_key_middle Promo.id l1 l2 p Hids).
  rewrite apply_promo_run. cbn [pending].
  rewrite rows_from_app, filter_app. cbn [rows_from].
  rewrite (rows_from_filter_nil (promo_with_id (Promo.id p)) 0 l1 H1).
  rewrite filter_cons_True by reflexivity.
  rewrite (rows_from_filter_nil (promo_with_id (Promo.id p)) _ l2 H2). cbn [app].
  replace (0 + length l1)%nat with (length l1 + 0)%nat by lia.
  now rewrite insert_app_r.
Qed.

(** X17: [apply_promo] checks nothing.  For a promo that exists it
    answers [True] and raises [used] by one where the promo stands,
    whether or not the promo is active, expired or already used
    [max_uses] times, so that redeeming a promo that is used up takes
    [used] past [max_uses]; for an id that no promo has it answers
    [False] and leaves the table alone. *)
Theorem apply_promo_is_unconditional promo_id table :
  NoDup (Promo.id <$> table) ->
  (forall p, p ∈ table -> Promo.id p = promo_id ->
     exists l1 l2,
       table = l1 ++ p :: l2 /\
       trun_request (apply_promo promo_id) table =
         (Ok true, l1 ++ Promo.set_used (Promo.used p + 1) p :: l2)) /\
  (promo_id ∉ Promo.id <$> table ->
   trun_request (apply_promo promo_id) table = (Ok false, table)).
Proof.
  intros Hids. split.
  - intros p Hin <-. apply list_elem_of_split in Hin as (l1 & l2 & ->).
    exists l1, l2. split; [reflexivity|].
    unfold trun_request. now rewrite apply_promo_at.
  - intros Hnone. unfold trun_request. rewrite apply_promo_run. simpl.
    assert (Hf : filter (promo_with_id promo_id) table = [])
      by now apply (filter_key_nil Promo.id).
    now rewrite (rows_from_filter_nil (promo_with_id promo_id) 0 table Hf).
Qed.

Lemma apply_promo_is_unconditional_witness :
  let table := [Promo.mk 1 "SPRING" 20 0 (Some 1700000000000000) 2 2 false] in
  trun_request (apply_promo 1) table =
    (Ok true, [Promo.mk 1 "SPRING" 20 0 (Some 1700000000000000) 2 3 false]) /\
  trun_request (apply_promo 9) table = (Ok false, table).
Proof.
  intros table.
  destruct (apply_promo_is_unconditional 1 table) as [Hhit _];
    [apply (bool_decide_unpack _); vm_compute; exact I|].
  destruct (apply_promo_is_unconditional 9 table) as [_ Hmiss];
    [apply (bool_decide_unpack _); vm_compute; exact I|].
  split; [reflexivity|]. apply Hmiss.
  apply (bool_decide_unpack _). vm_compute. exact I.
Defined.

Lemma trun_requests_app {T A} (ops1 ops2 : list (TM T A)) table :
  trun_requests (ops1 ++ ops2) table =
    ((trun_requests ops1 table).1 ++ (trun_requests ops2 (trun_requests ops1 table).2).1,
     (trun_requests ops2 (trun_requests ops1 table).2).2).
Proof.
  revert table. induction ops1 as [|op ops1 IH]; intros table; simpl.
  - now destruct (trun_requests ops2 table).
  - destruct (trun_request op table) as [r table1]. rewrite IH.
    destruct (trun_requests ops1 table1) as [rs1 table2]. reflexivity.
Qed.

Lemma promos_keyed_set_used l1 p l2 v :
  promos_keyed (l1 ++ p :: l2) -> promos_keyed (l1 ++ Promo.set_used v p :: l2).
Proof. unfold promos_keyed. now rewrite !fmap_app, !fmap_cons. Qed.

Lemma validate_promo_at l1 p l2 now st :
  NoDup (Promo.code <$> l1 ++ p :: l2) ->
  Promo.is_active p = true ->
  validate_promo (Promo.code p) now (mkTxn st (l1 ++ p :: l2)) =
    (Ok (if promo_expired now p then None
         else if Promo.max_uses p <=? Promo.used p then None
         else Some (promo_view p)),
     mkTxn st (l1 ++ p :: l2)).
Proof.
  intros Hcodes Hact. rewrite validate_promo_run. cbn [pending].
  rewrite (filter_singleton_of_elem (promo_named (Promo.code p)) (l1 ++ p :: l2) p).
  - reflexivity.
  - apply elem_of_app. right. left.
  - split; [reflexivity | exact Hact].
  - now apply promo_named_at_most_one.
Qed.

Lemma redeem_step l1 p l2 now :
  promos_keyed (l1 ++ p :: l2) ->
  redeemable now p ->
  trun_request (redeem (Promo.code p) now) (l1 ++ p :: l2) =
    (Ok (Some (promo_view p)), l1 ++ Promo.set_used (Promo.used p + 1) p :: l2).
Proof.
  intros [Hids Hcodes] (Hact & Hexp & Hused).
  unfold trun_request, redeem, tbind.
  rewrite (validate_promo_at _ _ _ _ _ Hcodes Hact), Hexp.
  destruct (Z.leb_spec (Promo.max_uses p) (Promo.used p)); [lia|].
  change (PromoView.id (promo_view p)) with (Promo.id p).
  now rewrite (apply_promo_at _ _ _ _ Hids).
Qed.

Lemma set_used_same p : Promo.set_used (Promo.used p) p = p.
Proof. now destruct p. Qed.

Lemma redeem_sequence l1 l2 times : forall p,
  promos_keyed (l1 ++ p :: l2) ->
  Promo.is_active p = true ->
  Forall (fun t => promo_expired t p = false) times ->
  Promo.used p + Z.of_nat (length times) <= Promo.max_uses p ->
  trun_requests (redeem (Promo.code p) <$> times) (l1 ++ p :: l2) =
    (imap (fun i _ => Ok (Some (promo_view (Promo.set_used (Promo.used p + Z.of_nat i) p))))
       times,
     l1 ++ Promo.set_used (Promo.used p + Z.of_nat (length times)) p :: l2).
Proof.
  induction times as [|now times IH]; intros p Hkeyed Hact Hexp Hroom.
  - simpl. now rewrite Z.add_0_r, set_used_same.
  - apply Forall_cons in Hexp as [Hnow Hexp]. rewrite length_cons in Hroom.
    rewrite fmap_cons. cbn [trun_requests].
    rewrite (redeem_step l1 p l2 now Hkeyed) by (unfold redeemable; repeat split; auto; lia).
    specialize (IH (Promo.set_used (Promo.used p + 1) p)).
    cbn [Promo.code Promo.set_used Promo.used] in IH.
    rewrite IH; [| now apply promos_keyed_set_used | exact Hact | exact Hexp | simpl; lia].
    rewrite imap_cons. f_equal; [f_equal|].
    + change (Z.of_nat 0) with 0. now rewrite Z.add_0_r, set_used_same.
    + apply imap_ext. intros i t _. unfold compose, Promo.set_used. simpl.
      replace (Promo.used p + 1 + Z.of_nat i) with (Promo.used p + Z.of_nat (S i)) by lia.
      reflexivity.
    + unfold Promo.set_used. simpl.
      replace (Promo.used p + 1 + Z.of_nat (length times))
        with (Promo.used p + Z.of_nat (S (length times))) by lia.
      reflexivity.
Qed.

(** X18: validated redemptions stop at [max_uses].  For an active promo
    with [used <= max_uses] and unique ids and codes, validating and then
    redeeming succeeds exactly [max_uses - used] times in a row (at times
    when it has not expired), each time showing the count so far; the
    next validation is refused, nothing is redeemed, and [used] stands at
    [max_uses]. *)
Theorem promo_redeems_up_to_max_uses table p times later :
  promos_keyed table ->
  p ∈ table ->
  Promo.is_active p = true ->
  Forall (fun t => promo_expired t p = false) times ->
  Promo.used p <= Promo.max_uses p ->
  Z.of_nat (length times) = Promo.max_uses p - Promo.used p ->
  exists l1 l2,
    table = l1 ++ p :: l2 /\
    trun_requests (redeem (Promo.code p) <$> times ++ [later]) table =
      (imap (fun i _ =>
               Ok (Some (promo_view (Promo.set_used (Promo.used p + Z.of_nat i) p)))) times
         ++ [Ok None],
       l1 ++ Promo.set_used (Promo.max_uses p) p :: l2).
Proof.
  intros Hkeyed Hin Hact Hexp Hle Hlen.
  apply list_elem_of_split in Hin as (l1 & l2 & ->).
  exists l1, l2. split; [reflexivity|].
  rewrite fmap_app, trun_requests_app.
  rewrite (redeem_sequence l1 l2 times p Hkeyed Hact Hexp) by lia.
  cbn [fst snd fmap list_fmap trun_requests].
  replace (Promo.used p + Z.of_nat (length times)) with (Promo.max_uses p) by lia.
  set (p' := Promo.set_used (Promo.max_uses p) p).
  assert (Hlast : trun_request (redeem (Promo.code p) later) (l1 ++ p' :: l2) =
                    (Ok None, l1 ++ p' :: l2)).
  { unfold trun_request, redeem, tbind.
    rewrite (validate_promo_at l1 p' l2 later _); [| |exact Hact].
    - destruct (promo_expired later p'); [reflexivity|].
      subst p'. simpl. now rewrite Z.leb_refl.
    - apply (promos_keyed_set_used l1 p l2 (Promo.max_uses p) Hkeyed). }
  now rewrite Hlast.
Qed.

Lemma promo_redeems_up_to_max_uses_witness :
  let p := Promo.mk 1 "SPRING" 20 0 (Some 1713097800000000) 3 1 true in
  let table := [Promo.mk 7 "OTHER" 5 0 None 1 0 true; p] in
  let times := [1710505800000000; 1710505860000000] in
  exists l1 l2,
    table = l1 ++ p :: l2 /\
    trun_requests (redeem (Promo.code p) <$> times ++ [1710505920000000]) table =
      (imap (fun i _ =>
               Ok (Some (promo_view (Promo.set_used (Promo.used p + Z.of_nat i) p)))) times
         ++ [Ok None],
       l1 ++ Promo.set_used (Promo.max_uses p) p :: l2).
Proof.
  intros p table times.
  apply (promo_redeems_up_to_max_uses table p times 1710505920000000).
  - split; apply (bool_decide_unpack _); vm_compute; exact I.
  - right. left.
  - reflexivity.
  - repeat constructor.
  - simpl. lia.
  - reflexivity.
Defined.

(** *** Refusals are final *)

Lemma grown_refl table : grown table table.
Proof.
  unfold grown. induction table as [|p table IH]; constructor; auto.
  split; [now rewrite set_used_same | lia].
Qed.

Lemma grown_trans t1 t2 t3 : grown t1 t2 -> grown t2 t3 -> grown t1 t3.
Proof.
  unfold grown. intros H12. revert t3.
  induction H12 as [|p1 p2 l1 l2 [Hp12 Hle12] _ IH]; intros t3 H23.
  - apply Forall2_nil_inv_l in H23 as ->. constructor.
  - apply Forall2_cons_inv_l in H23 as (p3 & l3 & [Hp23 Hle23] & H23 & ->).
    constructor; [|now apply IH].
    split; [|lia]. rewrite Hp23, Hp12. reflexivity.
Qed.

Lemma grown_middle l1 p l2 v :
  Promo.used p <= v -> grown (l1 ++ p :: l2) (l1 ++ Promo.set_used v p :: l2).
Proof.
  intros Hv. unfold grown. apply Forall2_app; [apply grown_refl|].
  constructor; [|apply grown_refl]. split; [reflexivity | exact Hv].
Qed.

Lemma apply_promo_grows promo_id table :
  grown table (trun_request (apply_promo promo_id) table).2.
Proof.
  unfold trun_request. rewrite apply_promo_run. cbn [pending].
  destruct (filter _ (rows_from 0 table)) as [|[i p] [|]] eqn:Hq;
    cbn [snd stored]; try apply grown_refl.
  apply (rows_from_filter_single (promo_with_id promo_id)) in Hq
    as (l1 & l2 & -> & -> & _).
  rewrite Nat.add_0_l, insert_app_r_alt, Nat.sub_diag by lia.
  apply grown_middle. lia.
Qed.

Lemma apply_promos_grow ids : forall table,
  grown table (trun_requests (apply_promo <$> ids) table).2.
Proof.
  induction ids as [|promo_id ids IH]; intros table; [apply grown_refl|].
  rewrite fmap_cons. cbn [trun_requests].
  pose proof (apply_promo_grows promo_id table) as Hstep.
  destruct (trun_request (apply_promo promo_id) table) as [r table1].
  specialize (IH table1).
  destruct (trun_requests (apply_promo <$> ids) table1) as [rs table2].
  exact (grown_trans _ _ _ Hstep IH).
Qed.

Lemma grown_filter code table table' :
  grown table table' ->
  grown (filter (promo_named code) table) (filter (promo_named code) table').
Proof.
  unfold grown. induction 1 as [|p p' l l' [Hp Hle] _ IH]; [constructor|].
  rewrite !filter_cons.
  assert (Hsame : promo_named code p <-> promo_named code p').
  { rewrite Hp. unfold promo_named. reflexivity. }
  destruct (decide (promo_named code p)) as [Hn|Hn], (decide (promo_named code p')) as [Hn'|Hn'];
    try tauto.
  constructor; auto.
Qed.

(** X19: a refusal is final.  Once [validate_promo] has answered [None]
    for a code, it answers [None] for that code at any later time and
    after any sequence of [apply_promo] calls, on whatever ids: no call
    lowers [used], extends [until] or activates a promo. *)
Theorem promo_refusal_is_final code now now' ids table :
  now <= now' ->
  trun_request (validate_promo code now) table = (Ok None, table) ->
  let table' := (trun_requests (apply_promo <$> ids) table).2 in
  trun_request (validate_promo code now') table' = (Ok None, table').
Proof.
  intros Hlater Hrefused table'.
  pose proof (grown_filter code _ _ (apply_promos_grow ids table)) as Hrows.
  fold table' in Hrows. clearbody table'.
  unfold trun_request in *. rewrite validate_promo_run in *. cbn [pending] in *.
  unfold grown in Hrows.
  destruct Hrows as [|p p' l l' [Hp Hle] Hrest]; [reflexivity|].
  destruct Hrest as [|q q' l l' _ _]; [|discriminate].
  cbn [stored] in *.
  assert (Hnone : (if promo_expired now' p' then None
                   else if Promo.max_uses p' <=? Promo.used p' then None
                   else Some (promo_view p')) = None); [|now rewrite Hnone].
  destruct (promo_expired now p) eqn:Hexp.
  - assert (promo_expired now' p' = true) as ->; [|reflexivity].
    rewrite Hp. unfold promo_expired in *. cbn [Promo.until Promo.set_used].
    destruct (Promo.until p); [|discriminate]. lia.
  - destruct (Z.leb_spec (Promo.max_uses p) (Promo.used p)); [|discriminate].
    destruct (promo_expired now' p'); [reflexivity|].
    assert (Promo.max_uses p' = Promo.max_uses p) as -> by now rewrite Hp.
    destruct (Z.leb_spec (Promo.max_uses p) (Promo.used p')); [reflexivity | lia].
Qed.

Lemma promo_refusal_is_final_witness :
  let table := [Promo.mk 7 "OTHER" 5 0 None 4 0 true;
                Promo.mk 1 "SPRING" 20 0 (Some 1713097800000000) 3 3 true] in
  let table' := (trun_requests (apply_promo <$> [7; 1; 1]) table).2 in
  trun_request (validate_promo "SPRING" 1710505860000000) table' = (Ok None, table').
Proof.
  intros table.
  apply (promo_refusal_is_final "SPRING" 1710505800000000 1710505860000000 [7; 1; 1] table).
  - lia.
  - reflexivity.
Defined.

(** ** The grant route *)

Lemma give_requests_run user_id amount s :
  give_requests user_id amount s =
    match users (working s) !! user_id with
    | Some user =>
        let db := set_users
          (<[user_id := User.set_trial_left (User.trial_left user + amount) user]>
             (users (working s))) (working s) in
        (Ok (Json200 ("Added " +:+ pretty amount +:+ " requests to user " +:+ pretty user_id)),
         mkState db db (db :: commits s) ((Info, "Trial requests added") :: logs s))
    | None => (Ok (HTTPException 400 "Failed to add requests"), s)
    end.
Proof.
  unfold give_requests, bind. rewrite add_trial_requests_run.
  destruct (users (working s) !! user_id); reflexivity.
Qed.

(** X20: [give_requests] answers 400 for a missing user and 200 for an
    existing one, whatever the sign of [amount]; a grant followed by the
    grant of the opposite amount leaves the store exactly as it was. *)
Theorem give_requests_round_trip user_id amount db :
  match users db !! user_id with
  | Some _ =>
      exists db',
        run_request (give_requests user_id amount) db =
          (Ok (Json200 ("Added " +:+ pretty amount +:+ " requests to user " +:+ pretty user_id)),
           db') /\
        (run_request (give_requests user_id (- amount)) db').2 = db
  | None =>
      run_request (give_requests user_id amount) db =
        (Ok (HTTPException 400 "Failed to add requests"), db)
  end.
Proof.
  unfold run_request. rewrite give_requests_run. cbn [fresh working].
  destruct (users db !! user_id) as [user|] eqn:Hu; [|reflexivity].
  eexists. split; [reflexivity|].
  cbn [snd committed]. rewrite give_requests_run.
  cbn [fresh working set_users users]. rewrite lookup_insert_eq.
  cbn [snd committed]. unfold set_users. cbn [users plans purchases usage].
  rewrite insert_insert_eq. unfold User.set_trial_left.
  cbn [User.trial_left User.plan_id User.plan_until User.banned].
  replace (User.trial_left user + amount + - amount) with (User.trial_left user) by lia.
  replace (User.mk (User.trial_left user) (User.plan_id user) (User.plan_until user)
             (User.banned user)) with user by now destruct user.
  rewrite insert_id by exact Hu. now destruct db.
Qed.

(** ** An id without a user row *)

Lemma can_make_request_unknown trial_requests user_id now s :
  users (working s) !! user_id = None ->
  can_make_request trial_requests user_id now s = (Ok (0 <? trial_requests), s).
Proof.
  intros Hs.
  assert (Hq : get_user_quota trial_requests user_id now s =
                 (Ok (Quota.mk trial_requests None None 0 0 trial_requests true true), s)).
  { unfold get_user_quota.
    now rewrite (bind_ok _ _ _ _ _ (select_user_run user_id s)), Hs. }
  unfold can_make_request. now rewrite (bind_ok _ _ _ _ _ Hq).
Qed.

(** X21: the two halves of the quota gate disagree about an id that has
    no user row.  With a positive trial allotment [can_make_request]
    answers [True] for it and [consume_request] answers [False], in
    whatever sessions that hold no row for the id, and each leaves its
    session as it was: the check lets through a caller whom consumption
    then refuses. *)
Theorem unknown_user_passes_check_but_cannot_consume trial_requests user_id tokens now s s' :
  users (working s) !! user_id = None ->
  users (working s') !! user_id = None ->
  0 < trial_requests ->
  can_make_request trial_requests user_id now s = (Ok true, s) /\
  consume_request user_id tokens now s' = (Ok false, s').
Proof.
  intros Hs Hs' Hpos. split.
  - rewrite (can_make_request_unknown _ _ _ _ Hs).
    apply Z.ltb_lt in Hpos. now rewrite Hpos.
  - unfold consume_request.
    now rewrite (bind_ok _ _ _ _ _ (select_user_run user_id s')), Hs'.
Qed.

Lemma unknown_user_passes_check_but_cannot_consume_witness :
  let s := fresh (mkDB {[ 7 := User.mk 30 None None false ]} ∅ [] []) in
  let s' := fresh (mkDB {[ 7 := User.mk 29 None None false ]} ∅ []
                     [Usage.mk 7 1710505700000000 1 0 0 1]) in
  can_make_request 30 42 1710505800000000 s = (Ok true, s) /\
  consume_request 42 1 1710505800000000 s' = (Ok false, s').
Proof.
  intros s s'.
  apply (unknown_user_passes_check_but_cannot_consume 30 42 1 1710505800000000 s s').
  - reflexivity.
  - reflexivity.
  - lia.
Defined.

(** ** Registration *)

Lemma cmd_start_run trial_requests user_id now s :
  match users (working s) !! user_id with
  | None =>
      let db := set_users (<[user_id := User.mk trial_requests None None false]>
                             (users (working s))) (working s) in
      cmd_start trial_requests user_id now s =
        (Ok (Welcome trial_requests), mkState db db (db :: commits s) (logs s))
  | Some _ =>
      exists q,
        get_user_quota trial_requests user_id now s = (Ok q, s) /\
        cmd_start trial_requests user_id now s =
          (Ok (WelcomeBack (Quota.remaining q) (Quota.plan_name q)), s)
  end.
Proof.
  unfold cmd_start.
  rewrite (bind_ok _ _ _ _ _ (select_user_run user_id s)).
  destruct (users (working s) !! user_id) as [user|]; [|reflexivity].
  destruct (get_user_quota_reads trial_requests user_id now s) as [q Hq].
  exists q. split; [exact Hq|]. now rewrite (bind_ok _ _ _ _ _ Hq).
Qed.

(** X22: [/start] registers once and keeps the gate's answer.  For an id
    without a row it creates the user with the trial allotment and no
    plan; a second [/start] finds that row, reports the allotment clamped
    at 0 as [remaining] and writes nothing.  [can_make_request] answers
    for the registered user what it answered for the unknown id. *)
Theorem cmd_start_registers_once trial_requests user_id now now' db :
  users db !! user_id = None ->
  exists db',
    run_request (cmd_start trial_requests user_id now) db = (Ok (Welcome trial_requests), db') /\
    users db' = <[user_id := User.mk trial_requests None None false]> (users db) /\
    plans db' = plans db /\ purchases db' = purchases db /\ usage db' = usage db /\
    run_request (cmd_start trial_requests user_id now') db' =
      (Ok (WelcomeBack (Z.max 0 trial_requests) None), db') /\
    (run_request (can_make_request trial_requests user_id now') db').1 =
      (run_request (can_make_request trial_requests user_id now') db).1.
Proof.
  intros Hu. unfold run_request.
  pose proof (cmd_start_run trial_requests user_id now (fresh db)) as Hrun.
  cbn [fresh working] in Hrun. rewrite Hu in Hrun. cbn zeta in Hrun.
  eexists. split; [rewrite Hrun; reflexivity|]. cbn [committed].
  set (db' := set_users _ db).
  assert (Hu' : users (working (fresh db')) !! user_id =
                  Some (User.mk trial_requests None None false))
    by apply lookup_insert_eq.
  repeat split.
  - pose proof (cmd_start_run trial_requests user_id now' (fresh db')) as Hrun'.
    rewrite Hu' in Hrun'. destruct Hrun' as (q & Hq & ->).
    destruct (get_user_quota_trial trial_requests user_id now' (fresh db') _ Hu' eq_refl)
      as (q' & Hq' & _ & Hrem & Hname & _).
    rewrite Hq in Hq'. injection Hq' as <-. rewrite Hrem, Hname. reflexivity.
  - rewrite (can_make_request_trial trial_requests user_id now' (fresh db') _ Hu' eq_refl).
    rewrite (can_make_request_unknown trial_requests user_id now' (fresh db) Hu).
    reflexivity.
Qed.

Lemma cmd_start_registers_once_witness :
  exists db',
    run_request (cmd_start 30 42 1710505800000000) (mkDB ∅ ∅ [] []) = (Ok (Welcome 30), db') /\
    run_request (cmd_start 30 42 1710592200000000) db' = (Ok (WelcomeBack 30 None), db').
Proof.
  destruct (cmd_start_registers_once 30 42 1710505800000000 1710592200000000 (mkDB ∅ ∅ [] []))
    as (db' & Hfirst & _ & _ & _ & _ & Hsecond & _); [reflexivity|].
  exists db'. split; [exact Hfirst | exact Hsecond].
Defined.

(** ** Authentication *)

Lemma dict_lookup_strings key pairs :
  match dict_lookup key (prod_map id PyStr <$> pairs) with
  | Some v => exists s, v = PyStr s
  | None => True
  end.
Proof.
  induction pairs as [|[k s] pairs IH]; [exact I|].
  rewrite fmap_cons. cbn [dict_lookup prod_map fst snd id].
  destruct (dict_lookup key (prod_map id PyStr <$> pairs)) as [v|]; [exact IH|].
  destruct (String.eqb k key); [now exists s | exact I].
Qed.

Lemma auth_middleware_none parse_qsl tgWebAppData :
  auth_middleware parse_qsl tgWebAppData = PyNone.
Proof.
  unfold auth_middleware.
  destruct tgWebAppData as [init_data|]; [|reflexivity].
  destruct (truthy_str init_data); [|reflexivity].
  destruct (parse_qsl init_data) as [e|pairs]; [reflexivity|].
  cbn [py_get]. pose proof (dict_lookup_strings "user" pairs) as Huser.
  destruct (dict_lookup "user" (prod_map id PyStr <$> pairs)) as [v|].
  - destruct Huser as [s ->]. reflexivity.
  - reflexivity.
Qed.

(** X23: no request gets a user id.  The values of the parsed init data
    are strings, so the lookup of [id] inside the [user] entry raises or
    finds nothing, and [auth_middleware] stores [None] whatever the query
    string says.  [require_auth] then raises [ValueError] and
    [require_admin] answers 403, for every request and every list of
    administrators. *)
Theorem no_request_is_authenticated parse_qsl int_of_str admin_ids tgWebAppData :
  let user_id := auth_middleware parse_qsl tgWebAppData in
  user_id = PyNone /\
  require_auth int_of_str user_id = inl ValueError /\
  require_admin admin_ids user_id = inl (HTTPException 403 "Admin access required").
Proof.
  cbn zeta. rewrite auth_middleware_none. repeat split.
Qed.

(** ** Dialogs *)

Lemma pin_dialog_run dialog_id user_id now s :
  pin_dialog dialog_id user_id now s =
    match filter (fun ir => dialog_of dialog_id user_id ir.2) (rows_from 0 (pending s)) with
    | [] => (Ok (inl (HTTPException 404 "Dialog not found")), s)
    | [(i, d)] =>
        let table :=
          <[i := Dialog.set_pinned (negb (Dialog.is_pinned d)) now d]> (pending s) in
        (Ok (inr (negb (Dialog.is_pinned d))), mkTxn table table)
    | _ :: _ :: _ => (Raise MultipleResultsFound, s)
    end.
Proof.
  unfold pin_dialog, tbind, tget.
  destruct (filter _ (rows_from 0 (pending s))) as [|[i d] [|]]; reflexivity.
Qed.

Lemma delete_dialog_run dialog_id user_id s :
  delete_dialog dialog_id user_id s =
    match filter (fun ir => dialog_of dialog_id user_id ir.2) (rows_from 0 (pending s)) with
    | [] => (Ok (HTTPException 404 "Dialog not found"), s)
    | [(i, d)] => (Ok (Json200 "Dialog deleted"), mkTxn (delete i (pending s)) (delete i (pending s)))
    | _ :: _ :: _ => (Raise MultipleResultsFound, s)
    end.
Proof.
  unfold delete_dialog, tbind, tget.
  destruct (filter _ (rows_from 0 (pending s))) as [|[i d] [|]]; reflexivity.
Qed.

Lemma delete_middle {A} (l1 l2 : list A) x : delete (length l1) (l1 ++ x :: l2) = l1 ++ l2.
Proof. induction l1 as [|y l1 IH]; [reflexivity|]. simpl. now rewrite IH. Qed.

(** X24: a caller reaches only their own dialogs.  Whatever [dialog_id]
    a user passes to [pin_dialog] or [delete_dialog], the dialogs of every
    other user are afterwards exactly what they were: same rows, same
    order, same [is_pinned] and [updated_at]. *)
Theorem dialog_routes_touch_only_own dialog_id user_id other now table :
  other <> user_id ->
  filter (dialog_by other) (trun_request (pin_dialog dialog_id user_id now) table).2 =
    filter (dialog_by other) table /\
  filter (dialog_by other) (trun_request (delete_dialog dialog_id user_id) table).2 =
    filter (dialog_by other) table.
Proof.
  intros Hother. unfold trun_request.
  rewrite pin_dialog_run, delete_dialog_run. cbn [pending].
  destruct (filter _ (rows_from 0 table)) as [|[i d] [|]] eqn:Hq; cbn [snd stored]; auto.
  apply (rows_from_filter_single (dialog_of dialog_id user_id)) in Hq
    as (l1 & l2 & -> & -> & _ & _ & [_ Hown]).
  rewrite Nat.add_0_l, insert_app_r_alt, Nat.sub_diag, delete_middle by lia.
  cbn [insert list_insert]. rewrite !filter_app, !filter_cons.
  assert (Hd : ~ dialog_by other d) by (unfold dialog_by; congruence).
  destruct (decide (dialog_by other d)); [contradiction|].
  destruct (decide (dialog_by other (Dialog.set_pinned _ now d))) as [Hd'|]; [|auto].
  now destruct Hd.
Qed.

Lemma dialog_routes_touch_only_own_witness :
  let table := [Dialog.mk 1 42 (Some "Plans") 1710505800000000 1710505800000000 false;
                Dialog.mk 2 7 None 1710505800000000 1710505800000000 true] in
  filter (dialog_by 7) (trun_request (pin_dialog 2 42 1710592200000000) table).2 =
    filter (dialog_by 7) table /\
  filter (dialog_by 7) (trun_request (delete_dialog 2 42) table).2 =
    filter (dialog_by 7) table.
Proof.
  intros table.
  apply (dialog_routes_touch_only_own 2 42 7 1710592200000000 table). lia.
Defined.

Lemma pin_dialog_at l1 d l2 now :
  NoDup (Dialog.id <$> l1 ++ d :: l2) ->
  trun_request (pin_dialog (Dialog.id d) (Dialog.user_id d) now) (l1 ++ d :: l2) =
    (Ok (inr (negb (Dialog.is_pinned d))),
     l1 ++ Dialog.set_pinned (negb (Dialog.is_pinned d)) now d :: l2).
Proof.
  intros Hids.
  destruct (NoDup_key_middle Dialog.id l1 l2 d Hids) as [H1 H2].
  assert (Hnone : forall l, filter (fun y => Dialog.id y = Dialog.id d) l = [] ->
            filter (dialog_of (Dialog.id d) (Dialog.user_id d)) l = []).
  { induction l as [|y l IH]; [reflexivity|].
    rewrite !filter_cons. destruct (decide (Dialog.id y = Dialog.id d)) as [Hy|Hy]; [discriminate|].
    intros Hl. destruct (decide (dialog_of _ _ y)) as [[Hid _]|_]; [contradiction | auto]. }
  unfold trun_request. rewrite pin_dialog_run. cbn [pending].
  rewrite rows_from_app, filter_app. cbn [rows_from].
  rewrite (rows_from_filter_nil (dialog_of (Dialog.id d) (Dialog.user_id d)) 0 l1 (Hnone _ H1)).
  rewrite filter_cons_True by (split; reflexivity).
  rewrite (rows_from_filter_nil (dialog_of (Dialog.id d) (Dialog.user_id d)) _ l2 (Hnone _ H2)).
  cbn [app snd stored].
  replace (0 + length l1)%nat with (length l1 + 0)%nat by lia.
  now rewrite insert_app_r.
Qed.

(** X25: pinning is a toggle that leaves a trace.  With unique dialog
    ids, two [pin_dialog] requests of the owner answer the opposite of
    [is_pinned] and then [is_pinned] again, and the table ends as it began
    except for the dialog's [updated_at], which is the time of the second
    request. *)
Theorem pin_dialog_twice l1 d l2 now now' :
  NoDup (Dialog.id <$> l1 ++ d :: l2) ->
  trun_requests [pin_dialog (Dialog.id d) (Dialog.user_id d) now;
                 pin_dialog (Dialog.id d) (Dialog.user_id d) now'] (l1 ++ d :: l2) =
    ([Ok (inr (negb (Dialog.is_pinned d))); Ok (inr (Dialog.is_pinned d))],
     l1 ++ Dialog.set_pinned (Dialog.is_pinned d) now' d :: l2).
Proof.
  intros Hids. cbn [trun_requests].
  rewrite (pin_dialog_at l1 d l2 now Hids).
  set (d1 := Dialog.set_pinned (negb (Dialog.is_pinned d)) now d).
  assert (Hids1 : NoDup (Dialog.id <$> l1 ++ d1 :: l2))
    by now rewrite fmap_app, fmap_cons in *.
  change (Dialog.id d) with (Dialog.id d1). change (Dialog.user_id d) with (Dialog.user_id d1).
  rewrite (pin_dialog_at l1 d1 l2 now' Hids1).
  subst d1. unfold Dialog.set_pinned. simpl. now rewrite negb_involutive.
Qed.

Lemma pin_dialog_twice_witness :
  let d := Dialog.mk 1 42 (Some "Plans") 1710505800000000 1710505800000000 false in
  let other := Dialog.mk 2 7 None 1710505800000000 1710505800000000 true in
  trun_requests [pin_dialog 1 42 1710592200000000; pin_dialog 1 42 1710592260000000] [other; d] =
    ([Ok (inr true); Ok (inr false)],
     [other; Dialog.set_pinned false 1710592260000000 d]).
Proof.
  intros d other.
  apply (pin_dialog_twice [other] d [] 1710592200000000 1710592260000000).
  apply (bool_decide_unpack _). vm_compute. exact I.
Defined.

(** ** Dialog titles *)

Lemma remove_char_removes c s : c ∉ remove_char c s.
Proof. unfold remove_char. rewrite list_elem_of_filter. tauto. Qed.

Lemma remove_char_keeps_out c c' s : c ∉ s -> c ∉ remove_char c' s.
Proof. unfold remove_char. rewrite list_elem_of_filter. tauto. Qed.

Lemma not_elem_of_take {A} (x : A) n (l : list A) : x ∉ l -> x ∉ take n l.
Proof.
  intros Hx Hin. apply Hx. rewrite <- (take_drop n l). apply elem_of_app. now left.
Qed.

(** X26: a dialog title never exceeds 50 characters and never contains a
    double or a single quote, whatever the model replied and also when
    the call failed.  A reply that, stripped and without its quotes, has
    at most 50 characters is the title as it is; a longer one is cut to
    its first 47 characters followed by three dots, 50 characters in all;
    when the call fails the title is the fallback. *)
Theorem generate_dialog_title_bounds content :
  let title := generate_dialog_title content in
  ((length title <= 50)%nat /\ (34%N ∉ title) /\ (39%N ∉ title)) /\
  match content with
  | Some reply =>
      let cleaned := remove_char 39 (remove_char 34 (strip reply)) in
      ((length cleaned <= 50)%nat -> title = cleaned) /\
      ((50 < length cleaned)%nat ->
       title = take 47 cleaned ++ dots /\ length title = 50%nat /\
       take 47 title = take 47 cleaned /\ drop 47 title = dots)
  | None => title = fallback_title
  end.
Proof.
  cbn zeta. unfold generate_dialog_title.
  destruct content as [content|].
  - set (title := remove_char 39 (remove_char 34 (strip content))).
    assert (H34 : 34%N ∉ title) by (apply remove_char_keeps_out; apply remove_char_removes).
    assert (H39 : 39%N ∉ title) by (apply remove_char_removes).
    assert (Hd34 : 34%N ∉ dots) by (apply (bool_decide_unpack _); vm_compute; exact I).
    assert (Hd39 : 39%N ∉ dots) by (apply (bool_decide_unpack _); vm_compute; exact I).
    destruct (Nat.ltb_spec 50 (length title)) as [Hlong|Hshort].
    + assert (Hlen : length (take 47 title) = 47%nat) by (rewrite length_take; lia).
      split; [|split; [lia|]].
      * rewrite length_app, Hlen. cbn [dots length].
        split; [lia|].
        split; intros [Hin|Hin]%elem_of_app.
        -- now apply (not_elem_of_take _ 47) in H34.
        -- exact (Hd34 Hin).
        -- now apply (not_elem_of_take _ 47) in H39.
        -- exact (Hd39 Hin).
      * intros _. split; [reflexivity|]. split; [|split].
        -- rewrite length_app, Hlen. reflexivity.
        -- rewrite take_app_length' by (symmetry; exact Hlen). reflexivity.
        -- rewrite drop_app_length' by (symmetry; exact Hlen). reflexivity.
    + split; [auto|]. split; [reflexivity | lia].
  - split; [|reflexivity].
    split; [vm_compute; lia|]. split; apply (bool_decide_unpack _); vm_compute; exact I.
Qed.
